(** * Sequential neural ratio estimation (sbi/inference/ibsnre)

    A shallow embedding of [snre_base.py] (class [RatioEstimator]) and
    [snre_iba.py] (class [SNRE_IB_A]): the atomic sampler, the loss terms,
    the two training entry points and the posterior builder.

    Conventions.
    - A Python call that may raise returns a [result]; the exception classes
      that occur are the constructors of [PyExc].
    - A batch tensor of shape [[N, D]] is the list of its [N] rows; the row
      types [T] (a theta row) and [X] (an x row) are left abstract.
    - Floats are modelled by real numbers.
    - [torch.multinomial] is random: its outcome is an extra argument of the
      functions that draw, and [multinomial] says which outcomes the draw
      can produce.  Theorems quantify over every such outcome. *)

From Stdlib Require Import String.
From Stdlib Require Import List Arith Lia Bool ZArith QArith.
From Stdlib Require Import Reals Psatz.
Import ListNotations.

Close Scope R_scope.
Close Scope Q_scope.
Close Scope Z_scope.
Open Scope nat_scope.

Set Implicit Arguments.

(* ================================================================== *)
(** * Exceptions *)

Inductive PyExc : Type :=
| AssertionError
| TypeError
| ValueError
| IndexError
| AttributeError
| RuntimeError
| StopIteration
| ZeroDivisionError
| NotImplementedError.

Inductive result (A : Type) : Type :=
| Ok (a : A)
| Raise (e : PyExc).

Arguments Ok {A} a.
Arguments Raise {A} e.

Definition bind {A B : Type} (m : result A) (k : A -> result B) : result B :=
  match m with
  | Ok a => k a
  | Raise e => Raise e
  end.

Declare Scope result_scope.
Delimit Scope result_scope with result.
Notation "x <- m ;; k" := (bind m (fun x => k))
  (at level 61, m at next level, right associativity) : result_scope.
Notation "' pat <- m ;; k" := (bind m (fun x => match x with pat => k end))
  (at level 61, pat pattern, m at next level, right associativity) : result_scope.
Open Scope result_scope.

Fixpoint mapM {A B : Type} (f : A -> result B) (l : list A) : result (list B) :=
  match l with
  | [] => Ok []
  | a :: l' => b <- f a ;; bs <- mapM f l' ;; Ok (b :: bs)
  end.

(** [zip_with f l1 l2] pairs two tensors along their first dimension, as
    [torch.cat] along another dimension does; sizes that differ raise. *)
Fixpoint zip_with {A B C : Type} (f : A -> B -> C) (l1 : list A) (l2 : list B)
  : result (list C) :=
  match l1, l2 with
  | [], [] => Ok []
  | a :: l1', b :: l2' => r <- zip_with f l1' l2' ;; Ok (f a b :: r)
  | _, _ => Raise RuntimeError
  end.

(* ================================================================== *)
(** * The atomic sampler ([snre_base.py], lines 478-554) *)

Module Sampler.

(** Modelled from the spec: [sbi.utils.repeat_rows] is not under src/.
    "Repeat x_i K times to align with the K candidate theta's": every row is
    repeated [num_reps] times, the copies of a row standing next to each
    other. *)
Definition repeat_rows {A : Type} (x : list A) (num_reps : nat) : list A :=
  flat_map (fun row => repeat row num_reps) x.

(** [torch.ones(r, c)] and [torch.eye(n)]. *)
Definition ones (r c : nat) : list (list Q) := repeat (repeat 1%Q c) r.

Definition eye (n : nat) : list (list Q) :=
  map (fun i => map (fun j => if i =? j then 1%Q else 0%Q) (seq 0 n)) (seq 0 n).

Definition mat_map (f : Q -> Q) (m : list (list Q)) : list (list Q) :=
  map (map f) m.

Definition mat_zip (f : Q -> Q -> Q) (a b : list (list Q)) : list (list Q) :=
  map (fun rows => map (fun e => f (fst e) (snd e)) (combine (fst rows) (snd rows)))
      (combine a b).

(** [ones(n, n) * (1 - eye(n)) / (n - 1)]: line 502 with [n = batch_size],
    lines 533-537 with [n = reduced_batch_size].  ([n - 1] is Python's
    integer subtraction; in [Q] a division by zero yields 0, where torch
    yields nan: no entry is positive in either reading.) *)
Definition probs (n : nat) : list (list Q) :=
  mat_map (fun p => (p / inject_Z (Z.of_nat n - 1))%Q)
          (mat_zip Qmult (ones n n) (mat_map (fun e => (1 - e)%Q) (eye n))).

Definition positive (q : Q) : bool := negb (Qle_bool q 0).

(** The outcomes of [torch.multinomial(probs, num_samples, replacement=False)]:
    one row of [num_samples] pairwise distinct column indices per row of
    [probs], each of a positive entry of that row. *)
Definition multinomial_row (p : list Q) (num_samples : nat) (out : list nat) : Prop :=
  length out = num_samples /\
  NoDup out /\
  Forall (fun c => exists q, nth_error p c = Some q /\ positive q = true) out.

Definition multinomial (p : list (list Q)) (num_samples : nat)
    (out : list (list nat)) : Prop :=
  Forall2 (fun row o => multinomial_row row num_samples o) p out.

(** The same, decided. *)
Fixpoint nodupb (l : list nat) : bool :=
  match l with
  | [] => true
  | c :: l' => negb (existsb (Nat.eqb c) l') && nodupb l'
  end.

Definition multinomial_rowb (p : list Q) (num_samples : nat) (out : list nat) : bool :=
  (length out =? num_samples) && nodupb out &&
  forallb (fun c => match nth_error p c with Some q => positive q | None => false end) out.

Fixpoint multinomialb (p : list (list Q)) (num_samples : nat)
    (out : list (list nat)) : bool :=
  match p, out with
  | [], [] => true
  | row :: p', o :: out' => multinomial_rowb row num_samples o && multinomialb p' num_samples out'
  | _, _ => false
  end.

Definition count_positive (p : list Q) : nat := length (filter positive p).

(** The draw returns its outcome.  When a row has fewer positive entries
    than [num_samples] (among them the row of [probs 1], whose entry is 0/0)
    there is nothing to return: "the draw must fail loudly".  Every call of
    the source asks for [num_atoms - 1 >= 1] samples. *)
Definition torch_multinomial (p : list (list Q)) (num_samples : nat)
    (outcome : list (list nat)) : result (list (list nat)) :=
  if forallb (fun row => num_samples <=? count_positive row) p
  then Ok outcome
  else Raise RuntimeError.

(** [theta[idx]]: the rows of [theta] at the indices [idx]. *)
Definition index_row {A : Type} (t : list A) (c : nat) : result A :=
  match nth_error t c with
  | Some row => Ok row
  | None => Raise IndexError
  end.

Definition take_rows {A : Type} (t : list A) (idx : list nat) : result (list A) :=
  mapM (index_row t) idx.

(** [_classifier_logits], lines 498-510: the two tensors handed to the
    classifier, [atomic_theta] of shape [[batch_size * num_atoms, -1]] and
    [repeated_x]. *)
Definition classifier_inputs {T X : Type} (theta : list T) (x : list X)
    (num_atoms : nat) (outcome : list (list nat)) : result (list T * list X) :=
  let batch_size := length theta in
  let repeated_x := repeat_rows x num_atoms in
  choices <- torch_multinomial (probs batch_size) (num_atoms - 1) outcome ;;
  contrasting_theta <- mapM (take_rows theta) choices ;;
  atoms <- zip_with cons theta contrasting_theta ;;
  Ok (concat atoms, repeated_x).

(** The atom set of anchor [i] in a flattened batch of [num_atoms] rows per
    anchor. *)
Definition atom_set {A : Type} (rows : list A) (num_atoms i : nat) : list A :=
  firstn num_atoms (skipn (i * num_atoms) rows).

(** [_expand_exclude_same], lines 479-491. *)
Definition expand {A : Type} (tensor : list A) (batch_size : nat) : list (list A) :=
  repeat tensor batch_size.

Definition not_eye (n : nat) : list (list bool) :=
  map (fun i => map (fun j => negb (i =? j)) (seq 0 n)) (seq 0 n).

Definition select_row {A : Type} (mask : list bool) (row : list A) : list A :=
  map snd (filter fst (combine mask row)).

(** [tt[mask, ...]]: the entries under a true mask bit, in row-major order. *)
Definition masked_select {A : Type} (mask : list (list bool)) (tt : list (list A))
  : list A :=
  concat (map (fun mr => select_row (fst mr) (snd mr)) (combine mask tt)).

(** [.reshape(rows, cols, ...)] of a flat list of entries. *)
Fixpoint reshape_rows {A : Type} (rows cols : nat) (flat : list A) : list (list A) :=
  match rows with
  | 0 => []
  | S rows' => firstn cols flat :: reshape_rows rows' cols (skipn cols flat)
  end.

(** For an empty batch [reduced_batch_size] is -1: the call is
    [reshape(0, -1, ...)] of a tensor without entries, which [reshape]
    refuses, the size -1 stands for being undetermined. *)
Definition _expand_exclude_same {A : Type} (tensor : list A) : result (list (list A)) :=
  let batch_size := length tensor in
  let reduced_batch_size := (Z.of_nat batch_size - 1)%Z in
  let tt := expand tensor batch_size in
  let selected := masked_select (not_eye batch_size) tt in
  if (reduced_batch_size <? 0)%Z then Raise RuntimeError
  else Ok (reshape_rows batch_size (Z.to_nat reduced_batch_size) selected).

(** [_correction_logits], lines 519-550: [atomic_theta] of shape
    [[batch_size * reduced_batch_size * num_atoms, -1]] and [repeated_xx].
    [outcomes] holds the outcomes of the draws of lines 539-544, one per
    iteration of [range(batch_size)]. *)
Definition correction_inputs {T X : Type} (theta : list T) (x : list X)
    (num_atoms : nat) (outcomes : list (list (list nat)))
  : result (list T * list X) :=
  let batch_size := length theta in
  let reduced_batch_size := batch_size - 1 in
  xx <- _expand_exclude_same x ;;
  let xx := concat xx in
  tt <- _expand_exclude_same theta ;;
  let repeated_xx := repeat_rows xx num_atoms in
  choices <- mapM (fun a => torch_multinomial (probs reduced_batch_size) (num_atoms - 1)
                                             (nth a outcomes []))
                  (seq 0 batch_size) ;;
  contrasting_theta <- mapM (mapM (take_rows theta)) choices ;;
  atoms <- zip_with (fun row alts => zip_with cons row alts) tt contrasting_theta ;;
  atoms <- mapM (fun r => r) atoms ;;
  Ok (concat (concat atoms), repeated_xx).

(** The outcomes the stacked draws of lines 539-544 can produce. *)
Definition stacked_multinomial (batch_size num_atoms : nat)
    (outcomes : list (list (list nat))) : Prop :=
  length outcomes = batch_size /\
  Forall (multinomial (probs (batch_size - 1)) (num_atoms - 1)) outcomes.

(** Entry [j] of row [i] of [probs n], and a list without its entry [a]:
    the closed forms of [probs] and of a row of [_expand_exclude_same]. *)
Definition probs_entry (n i j : nat) : Q :=
  ((1 * (1 - (if i =? j then 1 else 0))) / inject_Z (Z.of_nat n - 1))%Q.

Definition remove_at {A : Type} (a : nat) (t : list A) : list A :=
  firstn a t ++ skipn (S a) t.

(** The atom sets of the correction batch, pair by pair: row [m] of
    [_expand_exclude_same(theta)[a]] in front of the rows drawn for that
    pair. *)
Definition correction_atoms {T : Type} (theta : list T)
    (contrasting_theta : list (list (list T))) : list (list (list T)) :=
  map (fun p => map (fun q => fst q :: snd q) (combine (fst p) (snd p)))
      (combine (map (fun a => remove_at a theta) (seq 0 (length theta)))
               contrasting_theta).

(** What [correction_inputs] builds for the pair [(a, m)], [a] an anchor and
    [m] a position among the other rows: theta_j in front, with
    [j = m] below [a] and [j = m + 1] from [a] on, then the rows of theta at
    the drawn indices [alts], which are pairwise distinct, below [N - 1] and
    none of them [m]; x_j stands beside each of them. *)
Definition correction_atomic_batch {T X : Type} (theta : list T) (x : list X)
    (num_atoms : nat) (outcomes : list (list (list nat)))
    (atomic_theta : list T) (repeated_xx : list X) : Prop :=
  forall a m, a < length theta -> m < length theta - 1 ->
    exists tj xj o alts alt_rows,
      nth_error theta (if m <? a then m else S m) = Some tj /\
      nth_error x (if m <? a then m else S m) = Some xj /\
      nth_error outcomes a = Some o /\ nth_error o m = Some alts /\
      length alts = num_atoms - 1 /\ NoDup alts /\
      Forall (fun c => c <> m /\ c < length theta - 1) alts /\
      Forall2 (fun c row => nth_error theta c = Some row) alts alt_rows /\
      atom_set atomic_theta num_atoms (a * (length theta - 1) + m) = tj :: alt_rows /\
      atom_set repeated_xx num_atoms (a * (length theta - 1) + m) = repeat xj num_atoms.

(** What the spec asks of the primary batch: [num_atoms] rows per anchor;
    the atom set of anchor [i] is theta_i followed by the rows of theta at
    the drawn indices [alts], which are pairwise distinct and none of them
    [i]; x_i stands beside each of them. *)
Definition primary_atomic_batch {T X : Type} (theta : list T) (x : list X)
    (num_atoms : nat) (outcome : list (list nat))
    (atomic_theta : list T) (repeated_x : list X) : Prop :=
  length atomic_theta = length theta * num_atoms /\
  length repeated_x = length theta * num_atoms /\
  forall i, i < length theta ->
    exists ti xi alts alt_rows,
      nth_error theta i = Some ti /\ nth_error x i = Some xi /\
      nth_error outcome i = Some alts /\
      length alts = num_atoms - 1 /\ NoDup alts /\
      Forall (fun c => c <> i /\ c < length theta) alts /\
      Forall2 (fun c row => nth_error theta c = Some row) alts alt_rows /\
      atom_set atomic_theta num_atoms i = ti :: alt_rows /\
      atom_set repeated_x num_atoms i = repeat xi num_atoms.

End Sampler.

(* ================================================================== *)
(** * Tensors of reals and the torch operators the loss uses *)

Module Torch.

(** A tensor: its shape and its entries in row-major order.  A 0-dim tensor
    (a scalar) has shape [[]] and one entry. *)
Record Tensor : Type := mkTensor { shape : list nat; data : list R }.

Definition scalar (v : R) : Tensor := mkTensor [] [v].

Definition numel (t : Tensor) : nat := length (data t).

Definition tensor_map (f : R -> R) (t : Tensor) : Tensor :=
  mkTensor (shape t) (map f (data t)).

Definition sum_R (l : list R) : R := fold_right Rplus 0%R l.

Definition mean_R (l : list R) : R := (sum_R l / INR (length l))%R.

(** [torch.sigmoid], elementwise. *)
Definition sigmoid_R (v : R) : R := (1 / (1 + exp (- v)))%R.

Definition sigmoid (t : Tensor) : Tensor := tensor_map sigmoid_R t.

(** The unreduced binary cross-entropy of a logit [v] against a target [y]:
    [-(y * log(sigmoid(v)) + (1 - y) * log(1 - sigmoid(v)))]. *)
Definition bce_R (v y : R) : R :=
  (- (y * ln (sigmoid_R v) + (1 - y) * ln (1 - sigmoid_R v)))%R.

(** The [reduction] argument of a torch loss operator. *)
Inductive Reduction : Type := ReductionNone | ReductionMean | ReductionSum.

Definition reduce (reduction : Reduction) (sh : list nat) (l : list R) : Tensor :=
  match reduction with
  | ReductionNone => mkTensor sh l
  | ReductionMean => scalar (mean_R l)
  | ReductionSum => scalar (sum_R l)
  end.

Definition shape_eqb (s1 s2 : list nat) : bool :=
  (length s1 =? length s2) && forallb (fun p => fst p =? snd p) (combine s1 s2).

(** [torch.binary_cross_entropy_with_logits(input, target, weight=None,
    pos_weight=None, reduction)], on an input and a target of one shape (the
    only way the source calls it; shapes that differ and do not broadcast
    raise). *)
Definition bce_with_logits_reduction (reduction : Reduction) (input target : Tensor)
  : result Tensor :=
  if shape_eqb (shape input) (shape target)
  then Ok (reduce reduction (shape input)
                  (map (fun p => bce_R (fst p) (snd p)) (combine (data input) (data target))))
  else Raise RuntimeError.

(** The source passes no [reduction]: the operator's default is the mean
    over all entries, which yields a 0-dim tensor. *)
Definition default_reduction : Reduction := ReductionMean.

Definition binary_cross_entropy_with_logits (input target : Tensor) : result Tensor :=
  bce_with_logits_reduction default_reduction input target.

(** Unary minus. *)
Definition neg (t : Tensor) : Tensor := tensor_map Ropp t.

(** [logits.size(-1)]; a 0-dim tensor has no dimension to ask for. *)
Definition size_last (t : Tensor) : result nat :=
  match rev (shape t) with
  | [] => Raise IndexError
  | m :: _ => Ok m
  end.

Definition logsumexp_R (l : list R) : R := ln (sum_R (map exp l)).

(** [torch.logsumexp(t, dim=-1)]: the last dimension is reduced.  On a 0-dim
    tensor [dim=-1] names the tensor's single entry. *)
Definition logsumexp (t : Tensor) : Tensor :=
  match rev (shape t) with
  | [] => tensor_map (fun v => logsumexp_R [v]) t
  | m :: lead =>
      let rows := fold_right Nat.mul 1 lead in
      mkTensor (rev lead) (map logsumexp_R (Sampler.reshape_rows rows m (data t)))
  end.

(** [t - s] for a 0-dim [s], broadcast over [t]. *)
Definition sub_scalar (t : Tensor) (s : R) : Tensor := tensor_map (fun v => (v - s)%R) t.

(** [.squeeze()]: the dimensions of size 1 are dropped. *)
Definition squeeze (t : Tensor) : Tensor :=
  mkTensor (filter (fun d => negb (d =? 1)) (shape t)) (data t).

(** [.reshape(sh)]: same entries, new shape; the sizes must agree. *)
Definition reshape (sh : list nat) (t : Tensor) : result Tensor :=
  if fold_right Nat.mul 1 sh =? numel t then Ok (mkTensor sh (data t))
  else Raise RuntimeError.

(** [torch.mean(input)] and [input.sum()] want a tensor.  A Python value
    here is a tensor or a tuple of tensors. *)
Inductive PyObj : Type :=
| PyTensor (t : Tensor)
| PyTuple (items : list Tensor).

Definition torch_mean (o : PyObj) : result Tensor :=
  match o with
  | PyTensor t => Ok (scalar (mean_R (data t)))
  | PyTuple _ => Raise TypeError
  end.

Definition method_sum (o : PyObj) : result Tensor :=
  match o with
  | PyTensor t => Ok (scalar (sum_R (data t)))
  | PyTuple _ => Raise AttributeError
  end.

(** [t.item()] of a one-entry tensor. *)
Definition item (t : Tensor) : result R :=
  match data t with
  | [v] => Ok v
  | _ => Raise ValueError
  end.

End Torch.

(* ================================================================== *)
(** * The loss ([snre_iba.py], lines 162-205; [snre_base.py], lines 561-595) *)

Module Loss.
Import Torch.

(** [SNRE_IB_A._correction(logits, dim=-1)], lines 163-167. *)
Definition _correction (logits : Tensor) : result Tensor :=
  m <- size_last logits ;;
  h <- binary_cross_entropy_with_logits logits (sigmoid logits) ;;
  let neg_h := neg h in
  Ok (sub_scalar (logsumexp neg_h) (ln (INR m))).

(** The same statements with the operator's [reduction] made explicit. *)
Definition _correction_reduction (reduction : Reduction) (logits : Tensor)
  : result Tensor :=
  m <- size_last logits ;;
  h <- bce_with_logits_reduction reduction logits (sigmoid logits) ;;
  let neg_h := neg h in
  Ok (sub_scalar (logsumexp neg_h) (ln (INR m))).

(** The reference the spec compares with, in the spec's words: "the naive
    log(mean(exp(negative-entropy)))" over the leave-one-out dimension, the
    negative entropy of a logit being minus its cross-entropy with its own
    sigmoid. *)
Definition negative_entropy (v : R) : R := (- bce_R v (sigmoid_R v))%R.

Definition naive_log_mean_exp (row : list R) : R :=
  ln (mean_R (map (fun v => exp (negative_entropy v)) row)).

Definition naive_correction (logits : Tensor) : result Tensor :=
  match rev (shape logits) with
  | [] => Raise IndexError
  | m :: lead =>
      let rows := fold_right Nat.mul 1 lead in
      Ok (mkTensor (rev lead)
                   (map naive_log_mean_exp (Sampler.reshape_rows rows m (data logits))))
  end.

(** [labels = torch.ones(2 * batch_size); labels[1::2] = 0.0], lines 188-189. *)
Definition labels (batch_size : nat) : Tensor :=
  mkTensor [2 * batch_size]
           (map (fun k => if Nat.even k then 1%R else 0%R) (seq 0 (2 * batch_size))).

(** [convex_combine], lines 561-570; the operands are 0-dim or of one
    shape, entry by entry. *)
Definition convex_combine (entropy_yw entropy_zw exp_neg_entropy_zw : Tensor)
    (lagrange_multiplier : R) : Tensor :=
  mkTensor (shape entropy_yw)
    (map (fun p => ((1 - lagrange_multiplier) * fst (fst p)
                    - lagrange_multiplier * (snd (fst p) + snd p))%R)
         (combine (combine (data entropy_yw) (data entropy_zw))
                  (data exp_neg_entropy_zw))).

Definition add (a b : Tensor) : Tensor :=
  mkTensor (shape a) (map (fun p => (fst p + snd p)%R) (combine (data a) (data b))).

(** [_loss], lines 578-595, "objective, regularizer, mixed": a 3-tuple built
    from what [self._loss_terms(theta, x, num_atoms)] returned.  A
    [lagrange_multiplier] of [None] cannot be subtracted from 1. *)
Definition _loss (loss_terms : result (Tensor * Tensor * Tensor))
    (lagrange_multiplier : option R) : result PyObj :=
  ' (entropy_yw, entropy_zw, exp_neg_entropy_zw) <- loss_terms ;;
  match lagrange_multiplier with
  | None => Raise TypeError
  | Some lm =>
      Ok (PyTuple [entropy_yw;
                   add entropy_zw exp_neg_entropy_zw;
                   convex_combine entropy_yw entropy_zw exp_neg_entropy_zw lm])
  end.

(** A per-sample tensor, in the spec's words "one scalar entry per sample":
    of shape [[N]] for a batch of [N] samples. *)
Definition per_sample (N : nat) (t : Tensor) : Prop := shape t = [N].

Section WithClassifier.
Variables T X : Type.

(** The classifier: one logit per row of the batch it is given, as a
    tensor of shape [[rows, 1]]. *)
Variable _neural_net : list T -> list X -> list R.

Definition forward (inputs : list T * list X) : result Tensor :=
  let logits := _neural_net (fst inputs) (snd inputs) in
  if length (fst inputs) =? length (snd inputs)
  then Ok (mkTensor [length logits; 1] logits)
  else Raise RuntimeError.

(** [_classifier_logits], lines 493-512. *)
Definition _classifier_logits (theta : list T) (x : list X) (num_atoms : nat)
    (outcome : list (list nat)) : result Tensor :=
  inputs <- Sampler.classifier_inputs theta x num_atoms outcome ;;
  forward inputs.

(** [_correction_logits], lines 514-554. *)
Definition _correction_logits (theta : list T) (x : list X) (num_atoms : nat)
    (outcomes : list (list (list nat))) : result Tensor :=
  let batch_size := length theta in
  let reduced_batch_size := batch_size - 1 in
  inputs <- Sampler.correction_inputs theta x num_atoms outcomes ;;
  logits <- forward inputs ;;
  reshape [num_atoms * batch_size; reduced_batch_size] logits.

(** [SNRE_IB_A._loss_terms], lines 169-205. *)
Definition _loss_terms (theta : list T) (x : list X) (num_atoms : nat)
    (outcome : list (list nat)) (outcomes : list (list (list nat)))
  : result (Tensor * Tensor * Tensor) :=
  if negb (length theta =? length x) then Raise AssertionError else
  let batch_size := length theta in
  l <- _classifier_logits theta x num_atoms outcome ;;
  let logits := squeeze l in
  entropy_yw <- binary_cross_entropy_with_logits logits (labels batch_size) ;;
  entropy_zw <- binary_cross_entropy_with_logits logits (sigmoid logits) ;;
  logits_ <- _correction_logits theta x num_atoms outcomes ;;
  exp_neg_entropy_zw <- _correction logits_ ;;
  Ok (entropy_yw, entropy_zw, exp_neg_entropy_zw).

End WithClassifier.

End Loss.

(* ================================================================== *)
(** * Stored simulations and the training data ([snre_base.py], lines
      97-129, 172-178 and 352-358) *)

Module Rounds.

Section Store.
Variables T X : Type.

(** Whether an x row is free of NaN and of infinities. *)
Variable is_valid_x : X -> bool.

(** The fields of the inference object that hold the simulations, and its
    round counter. *)
Record Simulations : Type := mkSimulations {
  _theta_roundwise : list (list T);
  _x_roundwise : list (list X);
  _prior_masks : list (list bool);
  _data_round_index : list nat;
  _round : nat
}.

(** Modelled from the spec: the constructor of the base class
    [NeuralInference] is not under src/.  A new object stores nothing and is
    in round 0, the round of the prior. *)
Definition new_estimator : Simulations := mkSimulations [] [] [] [] 0.

(** Modelled from the spec: [mask_sims_from_prior] is not under src/.
    "PriorMask: per-sample boolean, true if a sample's theta was drawn from
    the prior (round 0)". *)
Definition mask_sims_from_prior (round_ num_simulations : nat) : list bool :=
  repeat (round_ =? 0) num_simulations.

(** Modelled from the spec: [validate_theta_and_x] is not under src/.
    "validates shapes (theta rows == x rows)". *)
Definition validate_theta_and_x (theta : list T) (x : list X)
  : result (list T * list X) :=
  if length theta =? length x then Ok (theta, x) else Raise AssertionError.

(** [append_simulations], lines 122-129. *)
Definition append_simulations (self : Simulations) (theta : list T) (x : list X)
    (from_round : nat) : result Simulations :=
  ' (theta, x) <- validate_theta_and_x theta x ;;
  Ok (mkSimulations
        (_theta_roundwise self ++ [theta])
        (_x_roundwise self ++ [x])
        (_prior_masks self ++ [mask_sims_from_prior from_round (length theta)])
        (_data_round_index self ++ [from_round])
        (_round self)).

Definition since_round {A : Type} (batches : list (list A)) (round_index : list nat)
    (starting_round : nat) : list A :=
  concat (map fst (filter (fun b => starting_round <=? snd b) (combine batches round_index))).

(** Modelled from the spec: [get_simulations] is not under src/.  The rows
    of the batches tagged with a round of at least [starting_round] ("1 =
    discard round-0 samples", line 172), in the order they were stored; with
    [exclude_invalid_x], "filtered out before training" are the rows whose x
    holds a NaN or an infinity. *)
Definition get_simulations (self : Simulations) (starting_round : nat)
    (exclude_invalid_x : bool) : list T * list X * list bool :=
  let theta := since_round (_theta_roundwise self) (_data_round_index self) starting_round in
  let x := since_round (_x_roundwise self) (_data_round_index self) starting_round in
  let prior_masks := since_round (_prior_masks self) (_data_round_index self) starting_round in
  let keep (row : T * X * bool) := negb exclude_invalid_x || is_valid_x (snd (fst row)) in
  let rows := filter keep (combine (combine theta x) prior_masks) in
  (map (fun r => fst (fst r)) rows, map (fun r => snd (fst r)) rows, map snd rows).

(** [max(self._data_round_index)]; the maximum of no value is an error. *)
Definition py_max (l : list nat) : result nat :=
  match l with
  | [] => Raise ValueError
  | r :: l' => Ok (fold_left Nat.max l' r)
  end.

(** [train], lines 172-178: the starting index, the round counter, and the
    simulations of the data set. *)
Definition train_data (self : Simulations) (discard_prior_samples exclude_invalid_x : bool)
  : result (Simulations * (list T * list X)) :=
  let start_idx := if discard_prior_samples && (0 <? _round self) then 1 else 0 in
  r <- py_max (_data_round_index self) ;;
  let self := mkSimulations (_theta_roundwise self) (_x_roundwise self)
                            (_prior_masks self) (_data_round_index self) r in
  let '(theta, x, _) := get_simulations self start_idx exclude_invalid_x in
  Ok (self, (theta, x)).

(** [anneal], lines 352-358: the same statements. *)
Definition anneal_data (self : Simulations) (discard_prior_samples exclude_invalid_x : bool)
  : result (Simulations * (list T * list X)) :=
  let start_idx := if discard_prior_samples && (0 <? _round self) then 1 else 0 in
  r <- py_max (_data_round_index self) ;;
  let self := mkSimulations (_theta_roundwise self) (_x_roundwise self)
                            (_prior_masks self) (_data_round_index self) r in
  let '(theta, x, _) := get_simulations self start_idx exclude_invalid_x in
  Ok (self, (theta, x)).

(** All stored rows, and the stored rows of the rounds after round 0. *)
Definition stored_rows (self : Simulations) : list T * list X :=
  (concat (_theta_roundwise self), concat (_x_roundwise self)).

Definition rows_after_prior (self : Simulations) : list T * list X :=
  (since_round (_theta_roundwise self) (_data_round_index self) 1,
   since_round (_x_roundwise self) (_data_round_index self) 1).

(** The stored lists run in step: one entry per appended batch, and in a
    batch as many theta rows as x rows and mask bits. *)
Definition well_formed (self : Simulations) : Prop :=
  length (_theta_roundwise self) = length (_data_round_index self) /\
  length (_x_roundwise self) = length (_data_round_index self) /\
  length (_prior_masks self) = length (_data_round_index self) /\
  Forall2 (fun theta x => length theta = length x)
          (_theta_roundwise self) (_x_roundwise self) /\
  Forall2 (fun theta mask => length theta = length mask)
          (_theta_roundwise self) (_prior_masks self).

(** Successive calls [append_simulations(theta, x, from_round)], each on the
    object the call before it returned (the method returns [self], line
    129). *)
Fixpoint append_all (self : Simulations) (calls : list (list T * list X * nat))
  : result Simulations :=
  match calls with
  | [] => Ok self
  | (theta, x, from_round) :: calls' =>
      self' <- append_simulations self theta x from_round ;;
      append_all self' calls'
  end.

End Store.

End Rounds.

(* ================================================================== *)
(** * The training entry points ([snre_base.py], lines 131-476) *)

Module Training.
Import Torch.

(** A [torch.utils.data.DataLoader]: the batches it yields and its
    [batch_size] attribute.  [len(loader)] is the number of batches; the
    source multiplies it by [loader.batch_size] to count samples (lines
    247-249 and 274). *)
Record DataLoader (B : Type) : Type := mkDataLoader {
  batches : list B;
  batch_size : nat
}.

Definition len {B : Type} (loader : DataLoader B) : nat := length (batches loader).

(** Modelled from the spec: [clamp_and_warn] is not under src/.  "clamped to
    [min_val, max_val]"; the lower bound wins over an upper bound below it. *)
Definition clamp_and_warn (value min_val max_val : Z) : Z :=
  Z.max min_val (Z.min value max_val).

(** [train], lines 191-195. *)
Definition train_num_atoms {B : Type} (num_atoms training_batch_size : Z)
    (val_loader : DataLoader B) : Z :=
  let clipped_batch_size := Z.min training_batch_size (Z.of_nat (len val_loader)) in
  clamp_and_warn num_atoms 2 clipped_batch_size.

(** [anneal], lines 371-375: the same statements. *)
Definition anneal_num_atoms {B : Type} (num_atoms training_batch_size : Z)
    (val_loader : DataLoader B) : Z :=
  let clipped_batch_size := Z.min training_batch_size (Z.of_nat (len val_loader)) in
  clamp_and_warn num_atoms 2 clipped_batch_size.

(** The bound in the spec's words: "min(training_batch_size,
    validation_batch_size)", the smaller of the two loaders' batch sizes. *)
Definition spec_num_atoms {B : Type} (num_atoms training_batch_size : Z)
    (val_loader : DataLoader B) : Z :=
  clamp_and_warn num_atoms 2
                 (Z.min training_batch_size (Z.of_nat (batch_size val_loader))).

(** A Python float that may be [float("-Inf")]. *)
Inductive pyfloat : Type := NegInf | Finite (v : R).

Definition pyfloat_gtb (a b : pyfloat) : bool :=
  match a, b with
  | NegInf, _ => false
  | Finite _, NegInf => true
  | Finite u, Finite v => if Rlt_dec v u then true else false
  end.

(** A call of [_loss] as the ghost log of the loop keeps it: the epoch
    counter at the call, what [self._loss_terms] gave, the multiplier the
    call was passed and what it returned. *)
Record LossCall : Type := mkLossCall {
  call_epoch : nat;
  call_terms : result (Tensor * Tensor * Tensor);
  call_multiplier : option R;
  call_result : result PyObj
}.


Section Loop.
(** The network, the optimizer, a batch [(theta_batch, x_batch)] and the
    ambient random generator. *)
Variables Net Opt Batch Rng : Type.

(** The abstract method [_loss_terms] (lines 572-576) of the subclass, on
    the current network; it draws from the random generator. *)
Variable _loss_terms : Net -> Batch -> Z -> Rng -> result (Tensor * Tensor * Tensor) * Rng.

(** [train_loss.backward()], the optional [clip_grad_norm_] and
    [optimizer.step()], for the mixed loss of a batch. *)
Variable backward_and_step : Opt -> Net -> Batch -> Tensor -> option R -> Opt * Net.

(** The state the epoch loop works on.  [loss_calls] is a ghost field: every
    call of [_loss] writes its entry there, in the call itself. *)
Record TrainState : Type := mkTrainState {
  epoch : nat;
  _val_log_prob : pyfloat;
  _best_val_log_prob : pyfloat;
  _epochs_since_last_improvement : nat;
  _neural_net : Net;
  optimizer : Opt;
  rng : Rng;
  train_log_probs : list R;
  validation_log_probs : list R;
  loss_calls : list LossCall
}.

(** Statements that read and write [self] and may raise: the state reached
    so far survives an exception. *)
Definition M (A : Type) : Type := TrainState -> result A * TrainState.

Definition ret {A : Type} (a : A) : M A := fun st => (Ok a, st).

Definition bindM {A B : Type} (m : M A) (k : A -> M B) : M B :=
  fun st => match m st with
            | (Ok a, st') => k a st'
            | (Raise e, st') => (Raise e, st')
            end.

Definition lift {A : Type} (r : result A) : M A := fun st => (r, st).

Definition get : M TrainState := fun st => (Ok st, st).

Definition put (st : TrainState) : M unit := fun _ => (Ok tt, st).

Fixpoint foldM {A B : Type} (f : A -> B -> M A) (a : A) (l : list B) : M A :=
  match l with
  | [] => ret a
  | b :: l' => bindM (f a b) (fun a' => foldM f a' l')
  end.

Definition set_epoch (n : nat) (st : TrainState) : TrainState :=
  mkTrainState n (_val_log_prob st) (_best_val_log_prob st)
    (_epochs_since_last_improvement st) (_neural_net st) (optimizer st) (rng st)
    (train_log_probs st) (validation_log_probs st) (loss_calls st).

Definition set_val_log_prob (v : pyfloat) (st : TrainState) : TrainState :=
  mkTrainState (epoch st) v (_best_val_log_prob st)
    (_epochs_since_last_improvement st) (_neural_net st) (optimizer st) (rng st)
    (train_log_probs st) (validation_log_probs st) (loss_calls st).

Definition set_best (v : pyfloat) (since : nat) (st : TrainState) : TrainState :=
  mkTrainState (epoch st) (_val_log_prob st) v since (_neural_net st) (optimizer st)
    (rng st) (train_log_probs st) (validation_log_probs st) (loss_calls st).

Definition set_model (o : Opt) (n : Net) (st : TrainState) : TrainState :=
  mkTrainState (epoch st) (_val_log_prob st) (_best_val_log_prob st)
    (_epochs_since_last_improvement st) n o (rng st)
    (train_log_probs st) (validation_log_probs st) (loss_calls st).

Definition set_rng (g : Rng) (st : TrainState) : TrainState :=
  mkTrainState (epoch st) (_val_log_prob st) (_best_val_log_prob st)
    (_epochs_since_last_improvement st) (_neural_net st) (optimizer st) g
    (train_log_probs st) (validation_log_probs st) (loss_calls st).

Definition log_train (v : R) (st : TrainState) : TrainState :=
  mkTrainState (epoch st) (_val_log_prob st) (_best_val_log_prob st)
    (_epochs_since_last_improvement st) (_neural_net st) (optimizer st) (rng st)
    (train_log_probs st ++ [v]) (validation_log_probs st) (loss_calls st).

Definition log_validation (v : R) (st : TrainState) : TrainState :=
  mkTrainState (epoch st) (_val_log_prob st) (_best_val_log_prob st)
    (_epochs_since_last_improvement st) (_neural_net st) (optimizer st) (rng st)
    (train_log_probs st) (validation_log_probs st ++ [v]) (loss_calls st).

Definition record_loss_call (c : LossCall) (st : TrainState) : TrainState :=
  mkTrainState (epoch st) (_val_log_prob st) (_best_val_log_prob st)
    (_epochs_since_last_improvement st) (_neural_net st) (optimizer st) (rng st)
    (train_log_probs st) (validation_log_probs st) (loss_calls st ++ [c]).

Definition modify (f : TrainState -> TrainState) : M unit := fun st => (Ok tt, f st).

(** [self._loss(theta_batch, x_batch, num_atoms, lagrange_multiplier)] on
    the current network. *)
Definition call_loss (batch : Batch) (num_atoms : Z) (lagrange_multiplier : option R)
  : M PyObj :=
  fun st =>
    let '(terms, g) := _loss_terms (_neural_net st) batch num_atoms (rng st) in
    let losses := Loss._loss terms lagrange_multiplier in
    (losses,
     record_loss_call (mkLossCall (epoch st) terms lagrange_multiplier losses)
                      (set_rng g st)).

(** Modelled from the spec: [_converged] is a method of the base class, not
    under src/.  It keeps the best validation log-prob so far and counts the
    epochs since it last improved ("strict improvement"); it answers whether
    that count has reached [stop_after_epochs]. *)
Definition _converged (epoch_ stop_after_epochs : nat) : M bool :=
  fun st =>
    let st' :=
      if (epoch_ =? 0) || pyfloat_gtb (_val_log_prob st) (_best_val_log_prob st)
      then set_best (_val_log_prob st) 0 st
      else set_best (_best_val_log_prob st) (S (_epochs_since_last_improvement st)) st in
    (Ok (stop_after_epochs <=? _epochs_since_last_improvement st'), st').

(** [a / b] of Python numbers. *)
Definition py_div (a : R) (b : nat) : result R :=
  if b =? 0 then Raise ZeroDivisionError else Ok (a / INR b)%R.

(** [_, _, train_losses = ...]: unpacking into three names. *)
Definition unpack3 (o : PyObj) : result (Tensor * Tensor * Tensor) :=
  match o with
  | PyTuple [a; b; c] => Ok (a, b, c)
  | _ => Raise ValueError
  end.

(** [train], lines 224-243: one batch of the training pass. *)
Definition train_batch (num_atoms : Z) (lagrange_multiplier : R) (clip_max_norm : option R)
    (train_log_probs_sum : R) (batch : Batch) : M R :=
  bindM (call_loss batch num_atoms (Some lagrange_multiplier)) (fun losses =>
  bindM (lift (unpack3 losses)) (fun '(_, _, train_losses) =>
  bindM (lift (torch_mean (PyTensor train_losses))) (fun train_loss =>
  bindM (lift (s <- method_sum (PyTensor train_losses) ;; item s)) (fun s =>
  bindM (modify (fun st =>
           let '(o, n) := backward_and_step (optimizer st) (_neural_net st) batch
                                           train_loss clip_max_norm in
           set_model o n st)) (fun _ =>
  ret (train_log_probs_sum - s)%R))))).

(** [anneal], lines 408-427: one batch of the training pass. *)
Definition anneal_batch (num_atoms : Z) (annealed_lagrange_multiplier : R)
    (clip_max_norm : option R) (train_log_probs_sum : R) (batch : Batch) : M R :=
  bindM (call_loss batch num_atoms (Some annealed_lagrange_multiplier)) (fun train_losses =>
  bindM (lift (torch_mean train_losses)) (fun train_loss =>
  bindM (lift (s <- method_sum train_losses ;; item s)) (fun s =>
  bindM (modify (fun st =>
           let '(o, n) := backward_and_step (optimizer st) (_neural_net st) batch
                                           train_loss clip_max_norm in
           set_model o n st)) (fun _ =>
  ret (train_log_probs_sum - s)%R)))).

(** [anneal], lines 440-448: one batch of the validation pass. *)
Definition anneal_validation_batch (num_atoms : Z) (lagrange_multiplier : option R)
    (val_log_prob_sum : R) (batch : Batch) : M R :=
  bindM (call_loss batch num_atoms lagrange_multiplier) (fun val_losses =>
  bindM (lift (s <- method_sum val_losses ;; item s)) (fun s =>
  ret (val_log_prob_sum - s)%R)).

Definition epsilon : R := (1 / 100)%R.

(** [law_of_cooling], lines 347-350. *)
Definition law_of_cooling (lagrange_multiplier : option R) (annealing_rate : R) (x : nat)
  : result R :=
  match lagrange_multiplier with
  | None => Raise TypeError
  | Some lm => Ok (lm + (epsilon - lm) * exp (- annealing_rate * INR x))%R
  end.

(** [anneal], lines 398-456: the body of the epoch loop. *)
Definition anneal_epoch (num_atoms : Z) (lagrange_multiplier : option R)
    (annealing_rate : R) (stop_after_epochs : nat) (clip_max_norm : option R)
    (train_loader val_loader : DataLoader Batch) : M unit :=
  bindM get (fun st =>
  bindM (_converged (epoch st) stop_after_epochs) (fun _ =>
  bindM (lift (law_of_cooling lagrange_multiplier annealing_rate (epoch st)))
        (fun annealed_lagrange_multiplier =>
  bindM (foldM (anneal_batch num_atoms annealed_lagrange_multiplier clip_max_norm)
               0%R (batches train_loader)) (fun train_log_probs_sum =>
  bindM (modify (fun st => set_epoch (epoch st + 1) st)) (fun _ =>
  bindM (lift (py_div train_log_probs_sum (len train_loader * batch_size train_loader)))
        (fun train_log_prob_average =>
  bindM (modify (log_train train_log_prob_average)) (fun _ =>
  bindM (foldM (anneal_validation_batch num_atoms lagrange_multiplier)
               0%R (batches val_loader)) (fun val_log_prob_sum =>
  bindM (lift (py_div val_log_prob_sum (len val_loader * batch_size val_loader)))
        (fun v =>
  bindM (modify (set_val_log_prob (Finite v))) (fun _ =>
  modify (log_validation v))))))))))).

(** [while self.epoch < max_num_epochs: ...], line 397.  [fuel] bounds the
    number of iterations; [None] means the bound was too small. *)
Fixpoint anneal_loop (fuel : nat) (max_num_epochs : nat)
    (body : M unit) (st : TrainState) : option (result unit * TrainState) :=
  if epoch st <? max_num_epochs then
    match fuel with
    | 0 => None
    | S fuel' =>
        match body st with
        | (Ok _, st') => anneal_loop fuel' max_num_epochs body st'
        | (Raise e, st') => Some (Raise e, st')
        end
    end
  else Some (Ok tt, st).

(** [anneal], lines 346-350 and 390-476, given what lines 352-388 prepared:
    the loaders, the clamped [num_atoms] and the network, and a fresh
    optimizer for a run that does not resume.  The reports of lines 458-474
    are left out; the trained network is returned. *)
Definition anneal (num_atoms : Z) (lagrange_multiplier : option R)
    (annealing_rate : R) (stop_after_epochs max_num_epochs : nat)
    (clip_max_norm : option R) (resume_training : bool) (fresh_optimizer : Opt)
    (train_loader val_loader : DataLoader Batch)
    (self : TrainState) : option (result Net * TrainState) :=
  if Rlt_dec 0 annealing_rate then
    let self :=
      if resume_training then self
      else set_val_log_prob NegInf
             (set_epoch 0 (set_model fresh_optimizer (_neural_net self) self)) in
    match anneal_loop (max_num_epochs - epoch self) max_num_epochs
            (anneal_epoch num_atoms lagrange_multiplier annealing_rate
                          stop_after_epochs clip_max_norm train_loader val_loader)
            self with
    | None => None
    | Some (Ok _, st) => Some (Ok (_neural_net st), st)
    | Some (Raise e, st) => Some (Raise e, st)
    end
  else Some (Raise AssertionError, self).

End Loop.

Section TrainLoop.
Variables Net Opt Batch Rng : Type.
Variable _loss_terms : Net -> Batch -> Z -> Rng -> result (Tensor * Tensor * Tensor) * Rng.
Variable backward_and_step : Opt -> Net -> Batch -> Tensor -> option R -> Opt * Net.

(** [self._neural_net([theta_batch, x_batch])], line 267: the output of the
    network on the batch itself. *)
Variable net_forward : Net -> Batch -> Tensor.

(** The entries of [self._summary] that only [train] writes (lines 280-282
    and 290-291). *)
Record Summary : Type := mkSummary {
  validation_ratio_avg : list R;
  validation_objective_log_probs : list R;
  validation_regularizer_log_probs : list R;
  epochs : list nat;
  best_validation_log_probs : list pyfloat
}.

Definition log_diagnostics (val_ratio_avg val_obj_avg val_reg_avg : R) (sm : Summary)
  : Summary :=
  mkSummary (validation_ratio_avg sm ++ [val_ratio_avg])
            (validation_objective_log_probs sm ++ [val_obj_avg])
            (validation_regularizer_log_probs sm ++ [val_reg_avg])
            (epochs sm) (best_validation_log_probs sm).

Definition log_run (epoch_ : nat) (best : pyfloat) (sm : Summary) : Summary :=
  mkSummary (validation_ratio_avg sm) (validation_objective_log_probs sm)
            (validation_regularizer_log_probs sm)
            (epochs sm ++ [epoch_]) (best_validation_log_probs sm ++ [best]).

(** [t.sum().item()]. *)
Definition sum_item (t : Tensor) : result R :=
  s <- method_sum (PyTensor t) ;; item s.

(** [train], lines 259-272: one batch of the validation pass; the four
    running sums are those of the ratio, the objective, the regularizer and
    the loss. *)
Definition train_validation_batch (num_atoms : Z) (lagrange_multiplier : R)
    (sums : R * R * R * R) (batch : Batch)
  : M Net Opt Rng (R * R * R * R) :=
  let '(val_ratio_sum, val_obj_sum, val_reg_sum, val_log_prob_sum) := sums in
  bindM (call_loss _loss_terms batch num_atoms (Some lagrange_multiplier)) (fun losses =>
  bindM (lift (unpack3 losses)) (fun '(val_objective, val_regularizer, val_losses) =>
  bindM (@get Net Opt Rng) (fun st =>
  let val_ratio := net_forward (_neural_net st) batch in
  bindM (lift (sum_item val_ratio)) (fun r =>
  bindM (lift (sum_item val_objective)) (fun o =>
  bindM (lift (sum_item val_regularizer)) (fun g =>
  bindM (lift (sum_item val_losses)) (fun l =>
  ret (val_ratio_sum + r, val_obj_sum - o, val_reg_sum - g, val_log_prob_sum - l)%R))))))).

(** [train], lines 221-283: the body of the epoch loop.  It hands back the
    three averages that go to the summary together with the validation
    log-prob. *)
Definition train_epoch (num_atoms : Z) (lagrange_multiplier : R)
    (clip_max_norm : option R) (train_loader val_loader : DataLoader Batch)
  : M Net Opt Rng (R * R * R) :=
  bindM (foldM (train_batch _loss_terms backward_and_step num_atoms lagrange_multiplier
                            clip_max_norm)
               0%R (batches train_loader)) (fun train_log_probs_sum =>
  bindM (modify (fun st => set_epoch (epoch st + 1) st)) (fun _ =>
  bindM (lift (py_div train_log_probs_sum (len train_loader * batch_size train_loader)))
        (fun train_log_prob_average =>
  bindM (modify (log_train train_log_prob_average)) (fun _ =>
  bindM (foldM (train_validation_batch num_atoms lagrange_multiplier)
               (0, 0, 0, 0)%R (batches val_loader))
        (fun '(val_ratio_sum, val_obj_sum, val_reg_sum, val_log_prob_sum) =>
  let n := len val_loader * batch_size val_loader in
  bindM (lift (py_div val_ratio_sum n)) (fun val_ratio_avg =>
  bindM (lift (py_div val_obj_sum n)) (fun val_obj_avg =>
  bindM (lift (py_div val_reg_sum n)) (fun val_reg_avg =>
  bindM (lift (py_div val_log_prob_sum n)) (fun v =>
  bindM (modify (set_val_log_prob (Finite v))) (fun _ =>
  bindM (modify (log_validation v)) (fun _ =>
  ret (val_ratio_avg, val_obj_avg, val_reg_avg)))))))))))).

(** [while self.epoch < max_num_epochs and not self._converged(self.epoch,
    stop_after_epochs): ...], lines 217-283.  [fuel] bounds the number of
    iterations; [None] means the bound was too small. *)
Fixpoint train_loop (fuel : nat) (max_num_epochs stop_after_epochs : nat)
    (body : M Net Opt Rng (R * R * R)) (st : TrainState Net Opt Rng) (sm : Summary)
  : option (result unit * TrainState Net Opt Rng * Summary) :=
  if epoch st <? max_num_epochs then
    match _converged (epoch st) stop_after_epochs st with
    | (Raise e, st1) => Some (Raise e, st1, sm)
    | (Ok true, st1) => Some (Ok tt, st1, sm)
    | (Ok false, st1) =>
        match fuel with
        | 0 => None
        | S fuel' =>
            match body st1 with
            | (Ok (val_ratio_avg, val_obj_avg, val_reg_avg), st2) =>
                train_loop fuel' max_num_epochs stop_after_epochs body st2
                           (log_diagnostics val_ratio_avg val_obj_avg val_reg_avg sm)
            | (Raise e, st2) => Some (Raise e, st2, sm)
            end
        end
    end
  else Some (Ok tt, st, sm).

(** [max_num_epochs = 2 ** 31 - 1 if max_num_epochs is None else
    max_num_epochs], line 170. *)
Definition default_max_num_epochs (max_num_epochs : option nat) : nat :=
  match max_num_epochs with
  | None => 2 ^ 31 - 1
  | Some m => m
  end.

(** [train], lines 170 and 210-305, given what lines 172-208 prepared: the
    loaders, the clamped [num_atoms] and the network, and a fresh optimizer
    for a run that does not resume.  The reports of lines 285-287 and
    294-303 are left out; the trained network is returned. *)
Definition train (num_atoms : Z) (lagrange_multiplier : R)
    (stop_after_epochs : nat) (max_num_epochs : option nat)
    (clip_max_norm : option R) (resume_training : bool) (fresh_optimizer : Opt)
    (train_loader val_loader : DataLoader Batch)
    (self : TrainState Net Opt Rng) (sm : Summary)
  : option (result Net * TrainState Net Opt Rng * Summary) :=
  let max_num_epochs := default_max_num_epochs max_num_epochs in
  let self :=
    if resume_training then self
    else set_val_log_prob NegInf
           (set_epoch 0 (set_model fresh_optimizer (_neural_net self) self)) in
  match train_loop (max_num_epochs - epoch self) max_num_epochs stop_after_epochs
          (train_epoch num_atoms lagrange_multiplier clip_max_norm train_loader val_loader)
          self sm with
  | None => None
  | Some (Ok _, st, sm') =>
      Some (Ok (_neural_net st), st, log_run (epoch st) (_best_val_log_prob st) sm')
  | Some (Raise e, st, sm') => Some (Raise e, st, sm')
  end.

(** What a pass over a batch leaves alone: the epoch counter, the
    convergence bookkeeping and the logs. *)
Definition same_logs (st st' : TrainState Net Opt Rng) : Prop :=
  epoch st' = epoch st /\
  _val_log_prob st' = _val_log_prob st /\
  _best_val_log_prob st' = _best_val_log_prob st /\
  _epochs_since_last_improvement st' = _epochs_since_last_improvement st /\
  train_log_probs st' = train_log_probs st /\
  validation_log_probs st' = validation_log_probs st.

End TrainLoop.

End Training.

(* ================================================================== *)
(** * The posterior builder ([snre_base.py], lines 597-677) *)

Module Posterior.

Section Build.
(** The network, the prior, the potential function, the parameter
    transform, the shape of x, a device name, and the keyword arguments
    passed through to the samplers. *)
Variables Net Prior Potential Transform Shape Device Kwargs : Type.

(** [next(density_estimator.parameters()).device.type]: the devices of the
    parameters of a network, in order. *)
Variable parameter_devices : Net -> list Device.

(** [ratio_estimator_based_potential(ratio_estimator, prior, x_o=None)], of
    [sbi.inference.potentials]; the network handed over may be [None]. *)
Variable ratio_estimator_based_potential :
  option Net -> Prior -> result (Potential * Transform).

(** The posterior objects, by the arguments they are constructed from
    (lines 652-668). *)
Inductive PosteriorObj : Type :=
| MCMCPosterior (potential_fn : Potential) (theta_transform : Transform)
    (proposal : Prior) (method : string) (device : Device) (x_shape : option Shape)
    (mcmc_parameters : Kwargs)
| RejectionPosterior (potential_fn : Potential) (proposal : Prior) (device : Device)
    (x_shape : option Shape) (rejection_sampling_parameters : Kwargs).

Definition potential_of (p : PosteriorObj) : Potential :=
  match p with
  | MCMCPosterior potential_fn _ _ _ _ _ _ => potential_fn
  | RejectionPosterior potential_fn _ _ _ _ => potential_fn
  end.

Definition device_of (p : PosteriorObj) : Device :=
  match p with
  | MCMCPosterior _ _ _ _ device _ _ => device
  | RejectionPosterior _ _ device _ _ => device
  end.

Definition proposal_of (p : PosteriorObj) : Prior :=
  match p with
  | MCMCPosterior _ _ proposal _ _ _ _ => proposal
  | RejectionPosterior _ proposal _ _ _ => proposal
  end.

Definition x_shape_of (p : PosteriorObj) : option Shape :=
  match p with
  | MCMCPosterior _ _ _ _ _ x_shape _ => x_shape
  | RejectionPosterior _ _ _ x_shape _ => x_shape
  end.

(** The sampler a posterior object draws with, by the name [sample_with]
    selects it with. *)
Definition sampler_of (p : PosteriorObj) : string :=
  match p with
  | MCMCPosterior _ _ _ _ _ _ _ => "mcmc"
  | RejectionPosterior _ _ _ _ _ => "rejection"
  end.

(** The fields of the inference object that [build_posterior] reads and
    writes. *)
Record Estimator : Type := mkEstimator {
  _prior : option Prior;
  _neural_net : option Net;
  _device : Device;
  _x_shape : option Shape;
  _posterior : option PosteriorObj;
  _model_bank : list PosteriorObj
}.

Definition store_posterior (p : PosteriorObj) (self : Estimator) : Estimator :=
  mkEstimator (_prior self) (_neural_net self) (_device self) (_x_shape self)
              (Some p) (_model_bank self ++ [p]).

(** Lines 633-637. *)
Definition resolve_prior (self : Estimator) (prior : option Prior) : result Prior :=
  match prior with
  | Some p => Ok p
  | None =>
      match _prior self with
      | Some p => Ok p
      | None => Raise AssertionError
      end
  end.

(** Lines 639-645. *)
Definition resolve_device (self : Estimator) (density_estimator : option Net)
  : result Device :=
  match density_estimator with
  | None => Ok (_device self)
  | Some net =>
      match parameter_devices net with
      | d :: _ => Ok d
      | [] => Raise StopIteration
      end
  end.

(** [build_posterior], lines 633-677: what the call returns or raises, and
    the object after the call. *)
Definition build_posterior (self : Estimator) (density_estimator : option Net)
    (prior : option Prior) (sample_with mcmc_method : string)
    (mcmc_parameters rejection_sampling_parameters : Kwargs)
  : result PosteriorObj * Estimator :=
  match resolve_prior self prior with
  | Raise e => (Raise e, self)
  | Ok prior =>
  match resolve_device self density_estimator with
  | Raise e => (Raise e, self)
  | Ok device =>
  match ratio_estimator_based_potential (_neural_net self) prior with
  | Raise e => (Raise e, self)
  | Ok (potential_fn, theta_transform) =>
      if String.eqb sample_with "mcmc" then
        let p := MCMCPosterior potential_fn theta_transform prior mcmc_method device
                               (_x_shape self) mcmc_parameters in
        (Ok p, store_posterior p self)
      else if String.eqb sample_with "rejection" then
        let p := RejectionPosterior potential_fn prior device (_x_shape self)
                                    rejection_sampling_parameters in
        (Ok p, store_posterior p self)
      else if String.eqb sample_with "vi" then (Raise NotImplementedError, self)
      else (Raise NotImplementedError, self)
  end end end.

End Build.

Arguments RejectionPosterior {Prior Potential Transform Shape Device Kwargs}
  potential_fn proposal device x_shape rejection_sampling_parameters.

End Posterior.

(* ================================================================== *)
(** * Facts about the atomic sampler *)

Module SamplerFacts.
Import Sampler.

Lemma mapM_inv {A B : Type} (f : A -> result B) (l : list A) (bs : list B) :
  mapM f l = Ok bs -> Forall2 (fun a b => f a = Ok b) l bs.
Proof.
  revert bs; induction l as [|a l IH]; simpl; intros bs H.
  - injection H as <-. constructor.
  - destruct (f a) as [b|e] eqn:Ea; simpl in H; try discriminate.
    destruct (mapM f l) as [bs'|e] eqn:El; simpl in H; try discriminate.
    injection H as <-. constructor; auto.
Qed.

Lemma mapM_ok {A B : Type} (f : A -> result B) (l : list A) (bs : list B) :
  Forall2 (fun a b => f a = Ok b) l bs -> mapM f l = Ok bs.
Proof.
  induction 1 as [|a b l bs Ha _ IH]; simpl; auto.
  rewrite Ha, IH. reflexivity.
Qed.

Lemma zip_with_ok {A B C : Type} (f : A -> B -> C) (l1 : list A) (l2 : list B) :
  length l1 = length l2 ->
  zip_with f l1 l2 = Ok (map (fun p => f (fst p) (snd p)) (combine l1 l2)).
Proof.
  revert l2; induction l1 as [|a l1 IH]; intros [|b l2] H; simpl in *; try discriminate; auto.
  rewrite IH by lia. reflexivity.
Qed.

Lemma atom_set_concat {A : Type} (K : nat) (blocks : list (list A)) :
  Forall (fun blk => length blk = K) blocks ->
  forall i blk, nth_error blocks i = Some blk -> atom_set (concat blocks) K i = blk.
Proof.
  unfold atom_set.
  induction 1 as [|b0 blocks Hb _ IH]; intros [|i] blk Hn; simpl in *; try discriminate.
  - injection Hn as <-. rewrite firstn_app, Hb, Nat.sub_diag, firstn_O, app_nil_r.
    apply firstn_all2. lia.
  - rewrite skipn_app, Hb.
    rewrite (skipn_all2 b0) by lia. simpl.
    replace (K + i * K - K) with (i * K) by lia. auto.
Qed.

Lemma length_concat_blocks {A : Type} (K : nat) (blocks : list (list A)) :
  Forall (fun blk => length blk = K) blocks -> length (concat blocks) = length blocks * K.
Proof.
  induction 1 as [|b0 blocks Hb _ IH]; simpl; auto.
  rewrite length_app, IH, Hb. reflexivity.
Qed.

Lemma repeat_rows_blocks {A : Type} (x : list A) (K : nat) :
  repeat_rows x K = concat (map (fun row => repeat row K) x).
Proof. unfold repeat_rows. apply flat_map_concat_map. Qed.

Lemma length_repeat_rows {A : Type} (x : list A) (K : nat) :
  length (repeat_rows x K) = length x * K.
Proof.
  rewrite repeat_rows_blocks, (length_concat_blocks (K := K)).
  - now rewrite length_map.
  - apply Forall_forall. intros blk Hin. apply in_map_iff in Hin as (r & <- & _).
    apply repeat_length.
Qed.

Lemma atom_set_repeat_rows {A : Type} (x : list A) (K i : nat) (xi : A) :
  nth_error x i = Some xi -> atom_set (repeat_rows x K) K i = repeat xi K.
Proof.
  intros H. rewrite repeat_rows_blocks. apply atom_set_concat.
  - apply Forall_forall. intros blk Hin. apply in_map_iff in Hin as (r & <- & _).
    apply repeat_length.
  - rewrite nth_error_map, H. reflexivity.
Qed.

Lemma combine_repeat_map {A B : Type} (a : A) (f : nat -> B) (n s : nat) :
  combine (repeat a n) (map f (seq s n)) = map (fun j => (a, f j)) (seq s n).
Proof.
  revert s; induction n as [|n IH]; intros s; simpl; auto. now rewrite IH.
Qed.

Lemma probs_rows (n : nat) :
  probs n = map (fun i => map (probs_entry n i) (seq 0 n)) (seq 0 n).
Proof.
  unfold probs, mat_map, mat_zip, ones, eye.
  rewrite !map_map, combine_repeat_map, !map_map.
  apply map_ext. intros i. cbn [fst snd].
  rewrite !map_map, combine_repeat_map, !map_map.
  apply map_ext. intros j. reflexivity.
Qed.

Lemma length_probs (n : nat) : length (probs n) = n.
Proof. now rewrite probs_rows, length_map, length_seq. Qed.

Lemma nth_error_probs (n i : nat) :
  i < n -> nth_error (probs n) i = Some (map (probs_entry n i) (seq 0 n)).
Proof.
  intros H. rewrite probs_rows, nth_error_map, nth_error_seq.
  apply Nat.ltb_lt in H. now rewrite H.
Qed.

Lemma positive_probs_entry (n i j : nat) :
  2 <= n -> positive (probs_entry n i j) = negb (i =? j).
Proof.
  intros Hn. unfold positive, probs_entry.
  assert (Hd : (0 < inject_Z (Z.of_nat n - 1))%Q).
  { unfold Qlt; simpl. lia. }
  apply Qinv_lt_0_compat in Hd.
  unfold Qdiv. set (k := (/ inject_Z (Z.of_nat n - 1))%Q) in *.
  destruct (i =? j); cbn [negb].
  - rewrite negb_false_iff. apply Qle_bool_iff. lra.
  - rewrite negb_true_iff. apply not_true_is_false. intros H.
    apply Qle_bool_iff in H. lra.
Qed.

Lemma positive_probs_entry_diag (n i : nat) : positive (probs_entry n i i) = false.
Proof.
  unfold positive, probs_entry. rewrite Nat.eqb_refl.
  rewrite negb_false_iff. apply Qle_bool_iff.
  unfold Qdiv. set (k := (/ inject_Z (Z.of_nat n - 1))%Q). lra.
Qed.

Lemma count_but_one (i n s : nat) :
  length (filter (fun j => negb (i =? j)) (seq s n)) =
  if (s <=? i) && (i <? s + n) then n - 1 else n.
Proof.
  revert s; induction n as [|n IH]; intros s.
  - simpl. now destruct ((s <=? i) && (i <? s + 0)).
  - cbn [seq filter]. rewrite <- Nat.add_succ_comm.
    destruct (Nat.eqb_spec i s) as [->|Hne]; cbn [negb length]; rewrite IH.
    + destruct (Nat.leb_spec (S s) s), (Nat.leb_spec s s), (Nat.ltb_spec s (S s + n));
        cbn [andb]; lia.
    + destruct (Nat.leb_spec (S s) i), (Nat.leb_spec s i), (Nat.ltb_spec i (S s + n));
        cbn [andb]; lia.
Qed.

Lemma count_positive_probs_row (n i : nat) :
  2 <= n -> i < n -> count_positive (map (probs_entry n i) (seq 0 n)) = n - 1.
Proof.
  intros Hn Hi. unfold count_positive.
  assert (E : forall l, length (filter positive (map (probs_entry n i) l)) =
                        length (filter (fun j => negb (i =? j)) l)).
  { induction l as [|j l IH]; simpl; auto.
    rewrite positive_probs_entry by assumption.
    destruct (negb (i =? j)); simpl; auto. }
  rewrite E, count_but_one. simpl.
  apply Nat.ltb_lt in Hi. now rewrite Hi.
Qed.

Lemma torch_multinomial_probs (n k : nat) (outcome : list (list nat)) :
  2 <= n -> k <= n - 1 -> torch_multinomial (probs n) k outcome = Ok outcome.
Proof.
  intros Hn Hk. unfold torch_multinomial.
  replace (forallb _ (probs n)) with true; auto.
  symmetry. apply forallb_forall. intros row Hin.
  rewrite probs_rows in Hin. apply in_map_iff in Hin as (i & <- & Hi).
  apply in_seq in Hi. rewrite count_positive_probs_row by lia.
  apply Nat.leb_le. lia.
Qed.

(** What a row of a draw from [probs n] can hold: distinct columns, none
    the row's own. *)
Lemma multinomial_row_probs (n k i : nat) (o : list nat) :
  i < n ->
  multinomial_row (map (probs_entry n i) (seq 0 n)) k o ->
  length o = k /\ NoDup o /\ Forall (fun c => c <> i /\ c < n) o.
Proof.
  intros Hi (Hlen & Hnd & Hall). repeat split; auto.
  eapply Forall_impl; [|exact Hall]. intros c (q & Hq & Hpos).
  rewrite nth_error_map, nth_error_seq in Hq.
  destruct (c <? n) eqn:Ec; simpl in Hq; try discriminate.
  apply Nat.ltb_lt in Ec. injection Hq as <-. simpl in Hpos. split; auto.
  intros ->. rewrite positive_probs_entry_diag in Hpos. discriminate.
Qed.

Lemma Forall2_nth_error {A B : Type} (P : A -> B -> Prop) (l1 : list A) (l2 : list B) :
  Forall2 P l1 l2 ->
  forall i a b, nth_error l1 i = Some a -> nth_error l2 i = Some b -> P a b.
Proof.
  induction 1 as [|a0 b0 l1 l2 H0 _ IH]; intros [|i] a b Ha Hb; simpl in *;
    try discriminate.
  - injection Ha as <-. injection Hb as <-. exact H0.
  - eauto.
Qed.

Lemma multinomial_probs (n k : nat) (out : list (list nat)) :
  multinomial (probs n) k out ->
  length out = n /\
  forall i o, nth_error out i = Some o ->
    length o = k /\ NoDup o /\ Forall (fun c => c <> i /\ c < n) o.
Proof.
  intros H. unfold multinomial in H.
  assert (Hlen : length out = n).
  { apply Forall2_length in H. now rewrite length_probs in H. }
  split; auto. intros i o Ho.
  assert (Hi : i < n).
  { rewrite <- Hlen. apply nth_error_Some. congruence. }
  apply (multinomial_row_probs (k := k) Hi).
  exact (Forall2_nth_error H _ (nth_error_probs Hi) Ho).
Qed.

Lemma mapM_total {A B : Type} (f : A -> result B) (l : list A) :
  Forall (fun a => exists b, f a = Ok b) l -> exists bs, mapM f l = Ok bs.
Proof.
  induction 1 as [|a l (b & Hb) _ (bs & IH)]; simpl.
  - now exists [].
  - exists (b :: bs). now rewrite Hb, IH.
Qed.

Lemma nth_error_combine {A B : Type} (l1 : list A) (l2 : list B) (i : nat) :
  nth_error (combine l1 l2) i =
  match nth_error l1 i, nth_error l2 i with
  | Some a, Some b => Some (a, b)
  | _, _ => None
  end.
Proof.
  revert l2 i; induction l1 as [|a l1 IH]; intros [|b l2] [|i]; simpl; auto.
  destruct (nth_error l1 i); reflexivity.
Qed.

Lemma index_row_Ok {A : Type} (t : list A) (c : nat) (row : A) :
  index_row t c = Ok row <-> nth_error t c = Some row.
Proof.
  unfold index_row. destruct (nth_error t c); split; intros H; congruence.
Qed.

Lemma take_rows_total {A : Type} (t : list A) (idx : list nat) :
  Forall (fun c => c < length t) idx ->
  exists rows, take_rows t idx = Ok rows /\
               Forall2 (fun c row => nth_error t c = Some row) idx rows.
Proof.
  intros H. destruct (@mapM_total _ _ (index_row t) idx) as (rows & Hrows).
  - eapply Forall_impl; [|exact H]. intros c Hc. cbv beta in Hc.
    destruct (nth_error t c) as [row|] eqn:E.
    + exists row. now apply index_row_Ok.
    + apply nth_error_None in E. lia.
  - exists rows. split; auto.
    apply mapM_inv in Hrows. eapply Forall2_impl; [|exact Hrows].
    intros c row. apply index_row_Ok.
Qed.

(** The value of [classifier_inputs] under a possible draw: theta_i is put
    in front of the rows drawn for anchor [i]. *)
Lemma classifier_inputs_value (T X : Type) (theta : list T) (x : list X)
    (K : nat) (outcome : list (list nat)) :
  2 <= length theta -> K <= length theta ->
  multinomial (probs (length theta)) (K - 1) outcome ->
  exists contrasting_theta,
    Forall2 (fun alts rows => take_rows theta alts = Ok rows) outcome contrasting_theta /\
    classifier_inputs theta x K outcome =
      Ok (concat (map (fun p => fst p :: snd p) (combine theta contrasting_theta)),
          repeat_rows x K).
Proof.
  intros HN HK Hdraw.
  destruct (multinomial_probs _ Hdraw) as (Hlen & Hrows).
  unfold classifier_inputs.
  rewrite torch_multinomial_probs by lia. cbn [bind].
  destruct (@mapM_total _ _ (take_rows theta) outcome) as (contrasting & Hc).
  { apply Forall_forall. intros o Hin.
    apply In_nth_error in Hin as (i & Hi).
    destruct (Hrows _ _ Hi) as (_ & _ & Hall).
    destruct (@take_rows_total _ theta o) as (rows & Hr & _).
    - eapply Forall_impl; [|exact Hall]. intros c Hcc. apply Hcc.
    - now exists rows. }
  rewrite Hc. cbn [bind].
  pose proof (mapM_inv _ _ Hc) as Hcf.
  exists contrasting. split; [exact Hcf|].
  rewrite zip_with_ok; [reflexivity|].
  apply Forall2_length in Hcf. lia.
Qed.

Lemma classifier_blocks (T : Type) (theta : list T) (K : nat)
    (outcome : list (list nat)) (contrasting_theta : list (list T)) :
  1 <= K ->
  multinomial (probs (length theta)) (K - 1) outcome ->
  Forall2 (fun alts rows => take_rows theta alts = Ok rows) outcome contrasting_theta ->
  Forall (fun blk => length blk = K)
         (map (fun p => fst p :: snd p) (combine theta contrasting_theta)).
Proof.
  intros HK Hdraw Hcf.
  destruct (multinomial_probs _ Hdraw) as (Hlen & Hrows).
  apply Forall_forall. intros blk Hin.
  apply In_nth_error in Hin as (i & Hi).
  rewrite nth_error_map, nth_error_combine in Hi.
  destruct (nth_error theta i) as [ti|] eqn:Et; try discriminate.
  destruct (nth_error contrasting_theta i) as [ci|] eqn:Ec; try discriminate.
  injection Hi as <-. cbn [fst snd length].
  destruct (nth_error outcome i) as [o|] eqn:Eo.
  - pose proof (Forall2_nth_error Hcf _ Eo Ec) as Hr.
    apply mapM_inv, Forall2_length in Hr.
    destruct (Hrows _ _ Eo) as (Hl & _). lia.
  - apply nth_error_None in Eo. apply Forall2_length in Hcf.
    assert (i < length contrasting_theta) by (apply nth_error_Some; congruence). lia.
Qed.

Lemma classifier_inputs_length (T X : Type) (theta : list T) (x : list X)
    (K : nat) (outcome : list (list nat)) :
  2 <= length theta -> 1 <= K <= length theta -> length x = length theta ->
  multinomial (probs (length theta)) (K - 1) outcome ->
  exists atomic_theta repeated_x,
    classifier_inputs theta x K outcome = Ok (atomic_theta, repeated_x) /\
    length atomic_theta = length theta * K /\
    length repeated_x = length theta * K.
Proof.
  intros HN HK Hx Hdraw.
  destruct (@classifier_inputs_value T X theta x K outcome) as (ct & Hcf & Hv);
    auto; try lia.
  eexists _, _. split; [exact Hv|]. split.
  - rewrite (length_concat_blocks (classifier_blocks theta (proj1 HK) Hdraw Hcf)).
    rewrite length_map, length_combine. apply Forall2_length in Hcf.
    apply multinomial_probs in Hdraw as (Hlen & _). lia.
  - rewrite length_repeat_rows. lia.
Qed.

(** C5.  For a batch of N >= 3 paired rows and 2 <= K <= N atoms, whatever
    the draw without replacement returns, the primary atomic batch is
    built, has N * K rows, and the atom set of every anchor i holds theta_i
    at position 0 followed by K - 1 rows of theta at pairwise distinct
    indices other than i. *)
Theorem classifier_atomic_batch (T X : Type) (theta : list T) (x : list X)
    (K : nat) (outcome : list (list nat)) :
  3 <= length theta -> 2 <= K <= length theta -> length x = length theta ->
  multinomial (probs (length theta)) (K - 1) outcome ->
  exists atomic_theta repeated_x,
    classifier_inputs theta x K outcome = Ok (atomic_theta, repeated_x) /\
    primary_atomic_batch theta x K outcome atomic_theta repeated_x.
Proof.
  intros HN HK Hx Hdraw.
  destruct (@classifier_inputs_value T X theta x K outcome) as (contrasting & Hcf & Hv);
    auto; try lia.
  assert (Hblocks := classifier_blocks theta (K := K) ltac:(lia) Hdraw Hcf).
  destruct (multinomial_probs _ Hdraw) as (Hlen & Hrows).
  assert (Hclen : length contrasting = length theta).
  { apply Forall2_length in Hcf. lia. }
  eexists _, _. split; [exact Hv|].
  unfold primary_atomic_batch. split.
  { rewrite (length_concat_blocks Hblocks).
    rewrite length_map, length_combine. lia. }
  split.
  { rewrite length_repeat_rows. lia. }
  intros i Hi.
  destruct (nth_error theta i) as [ti|] eqn:Et; [|apply nth_error_None in Et; lia].
  destruct (nth_error x i) as [xi|] eqn:Ex; [|apply nth_error_None in Ex; lia].
  destruct (nth_error outcome i) as [alts|] eqn:Eo; [|apply nth_error_None in Eo; lia].
  destruct (nth_error contrasting i) as [alt_rows|] eqn:Ec;
    [|apply nth_error_None in Ec; lia].
  destruct (Hrows _ _ Eo) as (Hl & Hnd & Hall).
  exists ti, xi, alts, alt_rows. repeat split; auto.
  - pose proof (Forall2_nth_error Hcf _ Eo Ec) as Hr.
    apply mapM_inv in Hr. eapply Forall2_impl; [|exact Hr].
    intros c row. apply index_row_Ok.
  - apply (atom_set_concat Hblocks).
    now rewrite nth_error_map, nth_error_combine, Et, Ec.
  - now apply atom_set_repeat_rows.
Qed.

(** ** The correction-term batch *)

Lemma select_row_all {A : Type} (a s n : nat) (t : list A) :
  a < s \/ s + n <= a -> length t = n ->
  select_row (map (fun j => negb (a =? j)) (seq s n)) t = t.
Proof.
  revert s t; induction n as [|n IH]; intros s [|t0 t] Ha Hl; simpl in *;
    try discriminate; auto.
  destruct (Nat.eqb_spec a s) as [->|Hne]; [lia|].
  unfold select_row in *. simpl. f_equal. apply IH; lia.
Qed.

Lemma select_row_remove {A : Type} (a s n : nat) (t : list A) :
  s <= a < s + n -> length t = n ->
  select_row (map (fun j => negb (a =? j)) (seq s n)) t = remove_at (a - s) t.
Proof.
  revert s t; induction n as [|n IH]; intros s [|t0 t] Ha Hl; simpl in *;
    try discriminate; try lia.
  destruct (Nat.eqb_spec a s) as [->|Hne].
  - rewrite Nat.sub_diag. unfold select_row, remove_at. simpl.
    apply (select_row_all (a := s) (s := S s)); lia.
  - unfold select_row, remove_at in *. simpl.
    replace (a - s) with (S (a - S s)) by lia. simpl. f_equal.
    apply IH; lia.
Qed.

Lemma length_remove_at {A : Type} (a : nat) (t : list A) :
  a < length t -> length (remove_at a t) = length t - 1.
Proof.
  intros H. unfold remove_at. rewrite length_app, length_firstn, length_skipn. lia.
Qed.

Lemma nth_error_remove_at {A : Type} (a m : nat) (t : list A) :
  a < length t ->
  nth_error (remove_at a t) m = nth_error t (if m <? a then m else S m).
Proof.
  intros H. unfold remove_at.
  destruct (Nat.ltb_spec m a).
  - rewrite nth_error_app1 by (rewrite length_firstn; lia).
    rewrite nth_error_firstn.
    destruct (Nat.ltb_spec m a); [reflexivity|lia].
  - rewrite nth_error_app2 by (rewrite length_firstn; lia).
    rewrite length_firstn, nth_error_skipn. f_equal. lia.
Qed.

Lemma reshape_rows_concat {A : Type} (c : nat) (blocks : list (list A)) :
  Forall (fun blk => length blk = c) blocks ->
  reshape_rows (length blocks) c (concat blocks) = blocks.
Proof.
  induction 1 as [|b0 blocks Hb _ IH]; simpl; auto.
  rewrite firstn_app, skipn_app, Hb, Nat.sub_diag, firstn_O, skipn_O, app_nil_r.
  rewrite firstn_all2, skipn_all2 by lia. simpl. now rewrite IH.
Qed.

Lemma combine_map_repeat {A B C : Type} (f : A -> B) (c : C) (l : list A) (n : nat) :
  length l = n -> combine (map f l) (repeat c n) = map (fun j => (f j, c)) l.
Proof.
  intros <-. induction l as [|a l IH]; simpl; auto. now rewrite IH.
Qed.

Lemma expand_exclude_same_rows {A : Type} (t : list A) :
  t <> [] ->
  _expand_exclude_same t = Ok (map (fun a => remove_at a t) (seq 0 (length t))).
Proof.
  intros Hne.
  assert (Hlen : 0 < length t) by (destruct t; [congruence|simpl; lia]).
  unfold _expand_exclude_same.
  destruct (Z.ltb_spec (Z.of_nat (length t) - 1) 0) as [Hneg|_]; [lia|].
  replace (Z.to_nat (Z.of_nat (length t) - 1)) with (length t - 1) by lia.
  f_equal. unfold masked_select, expand, not_eye.
  rewrite combine_map_repeat by apply length_seq.
  rewrite map_map. cbn [fst snd].
  assert (E : map (fun a => select_row (map (fun j => negb (a =? j)) (seq 0 (length t))) t)
                  (seq 0 (length t)) =
              map (fun a => remove_at a t) (seq 0 (length t))).
  { apply map_ext_in. intros a Ha. apply in_seq in Ha.
    rewrite select_row_remove by lia. now rewrite Nat.sub_0_r. }
  rewrite E.
  rewrite <- (length_seq (length t) 0) at 1.
  rewrite <- (length_map (fun a => remove_at a t)) at 1.
  apply reshape_rows_concat.
  apply Forall_forall. intros blk Hin. apply in_map_iff in Hin as (a & <- & Ha).
  apply in_seq in Ha. apply length_remove_at. lia.
Qed.

Lemma expand_exclude_same_empty {A : Type} :
  _expand_exclude_same ([] : list A) = Raise RuntimeError.
Proof. reflexivity. Qed.

Lemma Forall2_seq_nth {A : Type} (P : nat -> A -> Prop) (l : list A) (d : A) (s : nat) :
  (forall a, a < length l -> P (s + a) (nth a l d)) ->
  Forall2 P (seq s (length l)) l.
Proof.
  revert s; induction l as [|x l IH]; intros s H; simpl; constructor.
  - rewrite <- (Nat.add_0_r s). apply (H 0). simpl. lia.
  - apply IH. intros a Ha. rewrite Nat.add_succ_comm. apply (H (S a)). simpl. lia.
Qed.

Lemma mapM_length {A B : Type} (f : A -> result B) (l : list A) (bs : list B) :
  mapM f l = Ok bs -> length bs = length l.
Proof. intros H. apply mapM_inv, Forall2_length in H. auto. Qed.

Lemma mapM_same {A : Type} (f : A -> result A) (l : list A) :
  Forall (fun a => f a = Ok a) l -> mapM f l = Ok l.
Proof.
  intros H. apply mapM_ok. induction H; constructor; auto.
Qed.

Lemma mapM_map_ok {A B : Type} (g : A -> result B) (h : A -> B) (l : list A) :
  Forall (fun a => g a = Ok (h a)) l ->
  mapM (fun r => r) (map g l) = Ok (map h l).
Proof.
  induction 1 as [|a l Ha _ IH]; simpl; auto. now rewrite Ha, IH.
Qed.

Lemma stacked_multinomial_rows (N K : nat) (outcomes : list (list (list nat))) :
  stacked_multinomial N K outcomes ->
  length outcomes = N /\
  forall a o, nth_error outcomes a = Some o ->
    length o = N - 1 /\
    forall m alts, nth_error o m = Some alts ->
      length alts = K - 1 /\ NoDup alts /\ Forall (fun c => c <> m /\ c < N - 1) alts.
Proof.
  intros (Hlen & Hall). split; auto. intros a o Ho.
  apply nth_error_In in Ho. rewrite Forall_forall in Hall.
  apply (multinomial_probs _ (Hall _ Ho)).
Qed.

(** The value of [correction_inputs] under possible draws. *)
Lemma correction_inputs_value (T X : Type) (theta : list T) (x : list X) (K : nat)
    (outcomes : list (list (list nat))) :
  3 <= length theta -> 2 <= K <= length theta - 1 -> length x = length theta ->
  stacked_multinomial (length theta) K outcomes ->
  exists contrasting_theta,
    Forall2 (fun o crow => mapM (take_rows theta) o = Ok crow) outcomes contrasting_theta /\
    correction_inputs theta x K outcomes =
      Ok (concat (concat (correction_atoms theta contrasting_theta)),
          repeat_rows (concat (map (fun a => remove_at a x) (seq 0 (length x)))) K) /\
    Forall (fun blk => length blk = length theta - 1)
           (correction_atoms theta contrasting_theta) /\
    Forall (fun blk => length blk = K) (concat (correction_atoms theta contrasting_theta)).
Proof.
  intros HN HK Hx Hdraw.
  pose proof (stacked_multinomial_rows Hdraw) as (Hlen & Hrows).
  destruct Hdraw as (_ & Hall).
  unfold correction_inputs.
  rewrite (@expand_exclude_same_rows _ x) by (destruct x; [simpl in Hx; lia|discriminate]).
  rewrite (@expand_exclude_same_rows _ theta)
    by (destruct theta; [simpl in HN; lia|discriminate]).
  cbn [bind].
  rewrite (mapM_ok _ (bs := outcomes)); cycle 1.
  { rewrite <- Hlen. apply (Forall2_seq_nth _ outcomes [] 0). intros a _.
    cbn [Nat.add]. rewrite Hlen. apply torch_multinomial_probs; lia. }
  cbn [bind].
  destruct (@mapM_total _ _ (mapM (take_rows theta)) outcomes) as (contrasting & Hc).
  { apply Forall_forall. intros o Hin. apply In_nth_error in Hin as (a & Ha).
    destruct (Hrows _ _ Ha) as (_ & Ho).
    apply mapM_total. apply Forall_forall. intros alts Hin.
    apply In_nth_error in Hin as (m & Hm).
    destruct (Ho _ _ Hm) as (_ & _ & Hr).
    destruct (@take_rows_total _ theta alts) as (rows & Hrows' & _).
    - eapply Forall_impl; [|exact Hr]. intros c Hcc. cbv beta in Hcc. lia.
    - now exists rows. }
  rewrite Hc. cbn [bind].
  pose proof (mapM_inv _ _ Hc) as Hcf.
  assert (Hclen : length contrasting = length theta).
  { apply mapM_length in Hc. lia. }
  rewrite zip_with_ok by (rewrite length_map, length_seq; lia).
  cbn [bind].
  set (tt := map (fun a => remove_at a theta) (seq 0 (length theta))).
  assert (Hshape : forall a row crow,
             nth_error tt a = Some row -> nth_error contrasting a = Some crow ->
             length row = length theta - 1 /\ length crow = length theta - 1 /\
             Forall (fun r => length r = K - 1) crow).
  { intros a row crow Ha Hca.
    assert (Hlt : a < length theta).
    { rewrite <- Hclen. apply nth_error_Some. congruence. }
    unfold tt in Ha. rewrite nth_error_map, nth_error_seq in Ha.
    apply Nat.ltb_lt in Hlt. rewrite Hlt in Ha. apply Nat.ltb_lt in Hlt.
    injection Ha as <-. cbn [Nat.add].
    destruct (nth_error outcomes a) as [o|] eqn:Eo; [|apply nth_error_None in Eo; lia].
    destruct (Hrows _ _ Eo) as (Hol & Ho).
    pose proof (Forall2_nth_error Hcf _ Eo Hca) as Hr.
    split; [apply length_remove_at; lia|].
    split; [apply mapM_length in Hr; lia|].
    apply mapM_inv in Hr.
    apply Forall_forall. intros r Hin. apply In_nth_error in Hin as (m & Hm).
    destruct (nth_error o m) as [alts|] eqn:Em.
    - pose proof (Forall2_nth_error Hr _ Em Hm) as Hr'.
      apply mapM_length in Hr'. destruct (Ho _ _ Em) as (Hl & _). lia.
    - apply nth_error_None in Em. apply Forall2_length in Hr.
      assert (m < length crow) by (apply nth_error_Some; congruence). lia. }
  rewrite (mapM_map_ok (fun p => zip_with cons (fst p) (snd p))
             (fun p => map (fun q => fst q :: snd q) (combine (fst p) (snd p))));
    cycle 1.
  { apply Forall_forall. intros (row, crow) Hin. cbn [fst snd].
    apply In_nth_error in Hin as (a & Ha). rewrite nth_error_combine in Ha.
    destruct (nth_error tt a) as [row'|] eqn:Er; try discriminate.
    destruct (nth_error contrasting a) as [crow'|] eqn:Ecr; try discriminate.
    injection Ha as -> ->.
    destruct (Hshape _ _ _ Er Ecr) as (H1 & H2 & _).
    apply zip_with_ok. lia. }
  cbn [bind].
  exists contrasting. split; [exact Hcf|]. split; [reflexivity|].
  unfold correction_atoms. fold tt. split.
  - apply Forall_forall. intros blk Hin. apply in_map_iff in Hin as ((row, crow) & <- & Hin).
    cbn [fst snd]. apply In_nth_error in Hin as (a & Ha). rewrite nth_error_combine in Ha.
    destruct (nth_error tt a) as [row'|] eqn:Er; try discriminate.
    destruct (nth_error contrasting a) as [crow'|] eqn:Ecr; try discriminate.
    injection Ha as -> ->.
    destruct (Hshape _ _ _ Er Ecr) as (H1 & H2 & _).
    rewrite length_map, length_combine. lia.
  - apply Forall_concat. apply Forall_forall. intros blk Hin.
    apply in_map_iff in Hin as ((row, crow) & <- & Hin).
    cbn [fst snd]. apply In_nth_error in Hin as (a & Ha). rewrite nth_error_combine in Ha.
    destruct (nth_error tt a) as [row'|] eqn:Er; try discriminate.
    destruct (nth_error contrasting a) as [crow'|] eqn:Ecr; try discriminate.
    injection Ha as -> ->.
    destruct (Hshape _ _ _ Er Ecr) as (_ & _ & H3).
    apply Forall_forall. intros r Hin. apply in_map_iff in Hin as ((t0, alts) & <- & Hin).
    cbn [fst snd length]. apply in_combine_r in Hin.
    rewrite Forall_forall in H3. rewrite (H3 _ Hin). lia.
Qed.

Lemma correction_inputs_ok (T X : Type) (theta : list T) (x : list X) (K : nat)
    (outcomes : list (list (list nat))) :
  3 <= length theta -> 2 <= K <= length theta - 1 -> length x = length theta ->
  stacked_multinomial (length theta) K outcomes ->
  exists atomic_theta repeated_xx,
    correction_inputs theta x K outcomes = Ok (atomic_theta, repeated_xx) /\
    length atomic_theta = length theta * (length theta - 1) * K /\
    length repeated_xx = length theta * (length theta - 1) * K.
Proof.
  intros HN HK Hx Hdraw.
  destruct (@correction_inputs_value T X theta x K outcomes HN HK Hx Hdraw)
    as (contrasting & Hcf & Hv & Houter & Hinner).
  eexists _, _. split; [exact Hv|]. split.
  - rewrite (length_concat_blocks Hinner), (length_concat_blocks Houter).
    unfold correction_atoms. rewrite length_map, length_combine.
    rewrite length_map, length_seq. apply Forall2_length in Hcf.
    destruct Hdraw as (Hlen & _). lia.
  - rewrite length_repeat_rows.
    rewrite (@length_concat_blocks _ (length x - 1)).
    + rewrite length_map, length_seq. rewrite Hx. reflexivity.
    + apply Forall_forall. intros blk Hin. apply in_map_iff in Hin as (a & <- & Ha).
      apply in_seq in Ha. apply length_remove_at. lia.
Qed.

Lemma nth_error_concat_blocks {A : Type} (c : nat) (blocks : list (list A)) :
  Forall (fun blk => length blk = c) blocks ->
  forall a m blk, nth_error blocks a = Some blk -> m < c ->
    nth_error (concat blocks) (a * c + m) = nth_error blk m.
Proof.
  induction 1 as [|b0 blocks Hb _ IH]; intros [|a] m blk Ha Hm; simpl in *;
    try discriminate.
  - injection Ha as <-. apply nth_error_app1. lia.
  - rewrite nth_error_app2 by lia.
    replace (c + a * c + m - length b0) with (a * c + m) by lia. eauto.
Qed.

(** X1.  The correction-term batch of a batch of N >= 3 rows with
    2 <= K <= N - 1 atoms, for whatever the draws return: the atom set of
    the pair (a, m) holds theta_j at position 0, j being the m-th row other
    than a, beside x_j, followed by K - 1 rows of theta at pairwise distinct
    indices below N - 1 and other than m. *)
Theorem correction_atom_sets (T X : Type) (theta : list T) (x : list X) (K : nat)
    (outcomes : list (list (list nat))) :
  3 <= length theta -> 2 <= K <= length theta - 1 -> length x = length theta ->
  stacked_multinomial (length theta) K outcomes ->
  exists atomic_theta repeated_xx,
    correction_inputs theta x K outcomes = Ok (atomic_theta, repeated_xx) /\
    correction_atomic_batch theta x K outcomes atomic_theta repeated_xx.
Proof.
  intros HN HK Hx Hdraw.
  destruct (@correction_inputs_value T X theta x K outcomes HN HK Hx Hdraw)
    as (contrasting & Hcf & Hv & Houter & Hinner).
  pose proof (stacked_multinomial_rows Hdraw) as (Hlen & Hrows).
  eexists _, _. split; [exact Hv|].
  intros a m Ha Hm.
  set (j := if m <? a then m else S m).
  assert (Hj : j < length theta) by (unfold j; destruct (m <? a); lia).
  destruct (nth_error theta j) as [tj|] eqn:Et; [|apply nth_error_None in Et; lia].
  destruct (nth_error x j) as [xj|] eqn:Ex; [|apply nth_error_None in Ex; lia].
  destruct (nth_error outcomes a) as [o|] eqn:Eo; [|apply nth_error_None in Eo; lia].
  destruct (Hrows _ _ Eo) as (Hol & Ho).
  destruct (nth_error o m) as [alts|] eqn:Em; [|apply nth_error_None in Em; lia].
  destruct (Ho _ _ Em) as (Hl & Hnd & Hall).
  assert (Hclen : length contrasting = length theta).
  { apply Forall2_length in Hcf. lia. }
  destruct (nth_error contrasting a) as [crow|] eqn:Ec;
    [|apply nth_error_None in Ec; lia].
  pose proof (Forall2_nth_error Hcf _ Eo Ec) as Hcrow. apply mapM_inv in Hcrow.
  assert (Hcl : length crow = length theta - 1).
  { apply Forall2_length in Hcrow. lia. }
  destruct (nth_error crow m) as [alt_rows|] eqn:Ecm;
    [|apply nth_error_None in Ecm; lia].
  pose proof (Forall2_nth_error Hcrow _ Em Ecm) as Hrows'. apply mapM_inv in Hrows'.
  exists tj, xj, o, alts, alt_rows.
  split; [first [reflexivity|exact Et]|]. split; [first [reflexivity|exact Ex]|].
  split; [first [reflexivity|exact Eo]|]. split; [first [reflexivity|exact Em]|].
  split; [exact Hl|]. split; [exact Hnd|]. split; [exact Hall|]. split; [|split].
  - eapply Forall2_impl; [|exact Hrows']. intros c row. apply index_row_Ok.
  - apply (atom_set_concat Hinner).
    rewrite (@nth_error_concat_blocks _ (length theta - 1) _ Houter a m
               (map (fun q => fst q :: snd q) (combine (remove_at a theta) crow)));
      auto.
    + rewrite nth_error_map, nth_error_combine, nth_error_remove_at by lia.
      fold j. now rewrite Et, Ecm.
    + unfold correction_atoms.
      rewrite nth_error_map, nth_error_combine, nth_error_map, nth_error_seq, Ec.
      apply Nat.ltb_lt in Ha. now rewrite Ha.
  - apply atom_set_repeat_rows.
    assert (Hxx : nth_error (concat (map (fun a => remove_at a x) (seq 0 (length x))))
                            (a * (length theta - 1) + m) =
                  nth_error (remove_at a x) m).
    { apply nth_error_concat_blocks; [| |exact Hm].
      - apply Forall_forall. intros blk Hin. apply in_map_iff in Hin as (a' & <- & Ha').
        apply in_seq in Ha'. rewrite length_remove_at; lia.
      - rewrite nth_error_map, nth_error_seq, Hx.
        apply Nat.ltb_lt in Ha. now rewrite Ha. }
    rewrite Hxx, nth_error_remove_at by lia. exact Ex.
Qed.

Lemma nodupb_sound (l : list nat) : nodupb l = true -> NoDup l.
Proof.
  induction l as [|c l IH]; simpl; intros H; constructor.
  - apply andb_prop in H as (H & _). apply negb_true_iff in H.
    intros Hin. assert (existsb (Nat.eqb c) l = true); [|congruence].
    apply existsb_exists. exists c. split; auto. apply Nat.eqb_refl.
  - apply andb_prop in H as (_ & H). auto.
Qed.

Lemma multinomial_rowb_sound (p : list Q) (k : nat) (o : list nat) :
  multinomial_rowb p k o = true -> multinomial_row p k o.
Proof.
  unfold multinomial_rowb, multinomial_row. intros H.
  apply andb_prop in H as (H & H3). apply andb_prop in H as (H1 & H2).
  split; [now apply Nat.eqb_eq|]. split; [now apply nodupb_sound|].
  apply Forall_forall. intros c Hin.
  rewrite forallb_forall in H3. specialize (H3 _ Hin).
  destruct (nth_error p c) as [q|]; try discriminate. now exists q.
Qed.

Lemma multinomialb_sound (p : list (list Q)) (k : nat) (out : list (list nat)) :
  multinomialb p k out = true -> multinomial p k out.
Proof.
  revert out; induction p as [|row p IH]; intros [|o out] H; simpl in H;
    try discriminate; constructor.
  - apply andb_prop in H as (H & _). now apply multinomial_rowb_sound.
  - apply andb_prop in H as (_ & H). now apply IH.
Qed.

Lemma forced_draw_of_two (o : list (list nat)) :
  multinomial (probs 2) 1 o -> o = [[1]; [0]].
Proof.
  intros H. apply multinomial_probs in H as (Hlen & Hrows).
  destruct o as [|r0 [|r1 [|]]]; try discriminate.
  destruct (Hrows 0 r0 eq_refl) as (H0 & _ & F0).
  destruct (Hrows 1 r1 eq_refl) as (H1 & _ & F1).
  destruct r0 as [|c0 [|]]; try discriminate.
  destruct r1 as [|c1 [|]]; try discriminate.
  inversion F0 as [|? ? (A0 & B0)]; inversion F1 as [|? ? (A1 & B1)]; subst.
  repeat f_equal; lia.
Qed.

Lemma forced_draws_of_three (outcomes : list (list (list nat))) :
  stacked_multinomial 3 2 outcomes ->
  outcomes = [[[1]; [0]]; [[1]; [0]]; [[1]; [0]]].
Proof.
  intros (Hlen & Hall). cbn [Nat.sub] in Hall.
  destruct outcomes as [|o0 [|o1 [|o2 [|]]]]; try discriminate.
  inversion Hall as [|? ? A0 Hall1]; inversion Hall1 as [|? ? A1 Hall2];
    inversion Hall2 as [|? ? A2 _]; subst.
  now rewrite (forced_draw_of_two A0), (forced_draw_of_two A1), (forced_draw_of_two A2).
Qed.

(** C1.  The correction-term batch of a batch of 3 rows with 2 atoms, for
    whatever the draws return: the six atom sets, two rows each, stand next
    to the x they are paired with.  The first one, built for x_1, is
    (theta_1, theta_1): its resampled alternate is the row at position 0.
    With 4 rows the same happens for one of the possible draws. *)
Theorem correction_alternates_hit_the_pair (T X : Type) (t0 t1 t2 t3 : T)
    (x0 x1 x2 x3 : X) (outcomes : list (list (list nat))) :
  stacked_multinomial 3 2 outcomes ->
  correction_inputs [t0; t1; t2] [x0; x1; x2] 2 outcomes =
    Ok ([t1; t1;  t2; t0;  t0; t1;  t2; t0;  t0; t1;  t1; t0],
        [x1; x1;  x2; x2;  x0; x0;  x2; x2;  x0; x0;  x1; x1]) /\
  exists outcomes4 atomic_theta repeated_xx,
    stacked_multinomial 4 2 outcomes4 /\
    correction_inputs [t0; t1; t2; t3] [x0; x1; x2; x3] 2 outcomes4 =
      Ok (atomic_theta, repeated_xx) /\
    atom_set atomic_theta 2 0 = [t1; t1] /\
    atom_set repeated_xx 2 0 = [x1; x1].
Proof.
  intros H. split.
  - rewrite (forced_draws_of_three H). reflexivity.
  - exists (repeat [[1]; [0]; [0]] 4). eexists _, _.
    split; [|split; [reflexivity|split; reflexivity]].
    split; [reflexivity|]. cbn [repeat].
    repeat (apply Forall_cons; [apply multinomialb_sound; reflexivity|]).
    apply Forall_nil.
Qed.

Lemma correction_alternates_hit_the_pair_witness :
  stacked_multinomial 3 2 [[[1]; [0]]; [[1]; [0]]; [[1]; [0]]] /\
  correction_inputs [10; 11; 12] [20; 21; 22] 2 [[[1]; [0]]; [[1]; [0]]; [[1]; [0]]] =
    Ok ([11; 11;  12; 10;  10; 11;  12; 10;  10; 11;  11; 10],
        [21; 21;  22; 22;  20; 20;  22; 22;  20; 20;  21; 21]).
Proof.
  assert (H : stacked_multinomial 3 2 [[[1]; [0]]; [[1]; [0]]; [[1]; [0]]]).
  { split; [reflexivity|].
    repeat (apply Forall_cons; [apply multinomialb_sound; reflexivity|]).
    apply Forall_nil. }
  split; [exact H|].
  exact (proj1 (correction_alternates_hit_the_pair 10 11 12 13 20 21 22 23 H)).
Defined.

Lemma correction_atom_sets_witness :
  exists atomic_theta repeated_xx,
    correction_inputs [10; 11; 12; 13] [20; 21; 22; 23] 2
                      (repeat [[1]; [0]; [0]] 4) = Ok (atomic_theta, repeated_xx) /\
    correction_atomic_batch [10; 11; 12; 13] [20; 21; 22; 23] 2
                            (repeat [[1]; [0]; [0]] 4) atomic_theta repeated_xx.
Proof.
  apply (@correction_atom_sets nat nat [10; 11; 12; 13] [20; 21; 22; 23] 2
           (repeat [[1]; [0]; [0]] 4)).
  - simpl. lia.
  - simpl. lia.
  - reflexivity.
  - split; [reflexivity|]. cbn [repeat].
    repeat (apply Forall_cons; [apply multinomialb_sound; reflexivity|]).
    apply Forall_nil.
Defined.

Lemma classifier_atomic_batch_witness :
  multinomial (probs 3) 1 [[1]; [2]; [0]] /\
  exists atomic_theta repeated_x,
    classifier_inputs [10; 11; 12] [20; 21; 22] 2 [[1]; [2]; [0]] =
      Ok (atomic_theta, repeated_x) /\
    primary_atomic_batch [10; 11; 12] [20; 21; 22] 2 [[1]; [2]; [0]]
                         atomic_theta repeated_x.
Proof.
  assert (H : multinomial (probs 3) 1 [[1]; [2]; [0]]).
  { apply multinomialb_sound. reflexivity. }
  split; [exact H|].
  apply (@classifier_atomic_batch nat nat [10; 11; 12] [20; 21; 22] 2 [[1]; [2]; [0]]).
  - simpl. lia.
  - simpl. lia.
  - reflexivity.
  - exact H.
Defined.

End SamplerFacts.

(* ================================================================== *)
(** * Facts about the loss *)

Module LossFacts.
Import Torch Loss.

Lemma sigmoid_R_0 : sigmoid_R 0 = (1 / 2)%R.
Proof. unfold sigmoid_R. rewrite Ropp_0, exp_0. lra. Qed.

Lemma ln_half : ln (1 / 2) = (- ln 2)%R.
Proof.
  replace (1 / 2)%R with (/ 2)%R by lra. apply ln_Rinv. lra.
Qed.

Lemma bce_R_0 : bce_R 0 (sigmoid_R 0) = ln 2.
Proof.
  unfold bce_R. rewrite sigmoid_R_0.
  replace (1 - 1 / 2)%R with (1 / 2)%R by lra. rewrite ln_half. lra.
Qed.

Lemma ln_2_pos : (0 < ln 2)%R.
Proof. pose proof ln_lt_2. lra. Qed.

Lemma ln_div (a b : R) : (0 < a)%R -> (0 < b)%R -> ln (a / b) = (ln a - ln b)%R.
Proof.
  intros Ha Hb. unfold Rdiv. rewrite ln_mult, ln_Rinv; auto.
  now apply Rinv_0_lt_compat.
Qed.

(** C4.  On the logits [[0, 0]] (one row, N - 1 = 2 entries along the
    reduced dimension) [_correction] returns the scalar -2 ln 2, while the
    naive log of the mean of exp(negative entropy) over the two entries is
    -ln 2: the cross-entropy is already averaged to one number, so the
    log-sum-exp has a single term and only subtracts log(N - 1) from it. *)
Theorem correction_is_not_log_mean_exp :
  _correction (mkTensor [1; 2] [0; 0]%R) = Ok (scalar (- (2 * ln 2))) /\
  naive_correction (mkTensor [1; 2] [0; 0]%R) = Ok (mkTensor [1] [(- ln 2)%R]) /\
  (- (2 * ln 2))%R <> (- ln 2)%R.
Proof.
  split; [|split].
  - unfold _correction, size_last, binary_cross_entropy_with_logits,
      bce_with_logits_reduction, default_reduction, reduce, sigmoid, tensor_map.
    cbn [shape data rev app bind shape_eqb length Nat.eqb forallb combine fst snd andb map].
    unfold neg, logsumexp, sub_scalar, tensor_map, scalar, mean_R, sum_R, logsumexp_R.
    cbn [shape data rev map fold_right length].
    do 2 f_equal. f_equal.
    rewrite bce_R_0. simpl INR.
    replace ((ln 2 + (ln 2 + 0)) / (1 + 1))%R with (ln 2) by lra.
    unfold sum_R. cbn [fold_right]. rewrite Rplus_0_r, ln_exp.
    replace (1 + 1)%R with 2%R by lra. lra.
  - unfold naive_correction.
    cbn [shape data rev app fold_right Nat.mul Nat.add Sampler.reshape_rows firstn skipn map].
    do 2 f_equal. f_equal.
    unfold naive_log_mean_exp, negative_entropy, mean_R, sum_R.
    cbn [map fold_right length]. rewrite bce_R_0. simpl INR.
    rewrite exp_Ropp, exp_ln by lra.
    replace ((/ 2 + (/ 2 + 0)) / (1 + 1))%R with (1 / 2)%R by lra.
    apply ln_half.
  - pose proof ln_2_pos. lra.
Qed.
Lemma shape_eqb_refl (sh : list nat) : shape_eqb sh sh = true.
Proof.
  unfold shape_eqb. rewrite Nat.eqb_refl. cbn [andb].
  induction sh as [|d sh IH]; simpl; auto. now rewrite Nat.eqb_refl.
Qed.

Lemma combine_map_self {A B : Type} (f : A -> B) (l : list A) :
  combine l (map f l) = map (fun a => (a, f a)) l.
Proof. induction l as [|a l IH]; simpl; auto. now rewrite IH. Qed.

Lemma reshape_rows_map {A B : Type} (f : A -> B) (rows cols : nat) (l : list A) :
  Sampler.reshape_rows rows cols (map f l) = map (map f) (Sampler.reshape_rows rows cols l).
Proof.
  revert l; induction rows as [|rows IH]; intros l; simpl; auto.
  now rewrite firstn_map, skipn_map, IH.
Qed.

Lemma reshape_rows_lengths {A : Type} (rows cols : nat) (l : list A) :
  rows * cols <= length l ->
  Forall (fun row => length row = cols) (Sampler.reshape_rows rows cols l).
Proof.
  revert l; induction rows as [|rows IH]; intros l H; simpl; constructor.
  - rewrite length_firstn. simpl in H. lia.
  - apply IH. rewrite length_skipn. simpl in H. lia.
Qed.

Lemma sum_exp_pos (l : list R) : l <> [] -> (0 < sum_R (map exp l))%R.
Proof.
  assert (H : forall l', (0 <= sum_R (map exp l'))%R).
  { induction l' as [|v l' IH]; simpl; [lra|]. pose proof (exp_pos v). lra. }
  destruct l as [|v l]; [congruence|]. intros _. simpl.
  pose proof (exp_pos v). specialize (H l). lra.
Qed.

(** With the cross-entropy left unreduced, the statement of [_correction]
    is the naive log-mean-exp over the last dimension. *)
Lemma correction_unreduced_is_naive (logits : Tensor) (m : nat) (lead : list nat) :
  rev (shape logits) = m :: lead -> 1 <= m ->
  numel logits = fold_right Nat.mul 1 lead * m ->
  _correction_reduction ReductionNone logits = naive_correction logits.
Proof.
  intros Hsh Hm Hn.
  unfold _correction_reduction, naive_correction, size_last,
    bce_with_logits_reduction, reduce, sigmoid, tensor_map.
  rewrite Hsh. cbn [bind shape data]. rewrite shape_eqb_refl. cbn [bind].
  unfold neg, logsumexp, sub_scalar, tensor_map. cbn [shape data].
  rewrite Hsh. cbn [shape data]. do 2 f_equal.
  rewrite combine_map_self, !map_map. cbn [fst snd].
  rewrite (reshape_rows_map (fun v => (- bce_R v (sigmoid_R v))%R)), map_map.
  apply map_ext_in. intros row Hin.
  assert (Hrow : length row = m).
  { pose proof (@reshape_rows_lengths _ (fold_right Nat.mul 1 lead) m (data logits)) as F.
    rewrite Forall_forall in F. apply F; auto. unfold numel in Hn. lia. }
  unfold naive_log_mean_exp, logsumexp_R, mean_R, negative_entropy.
  rewrite !map_map, length_map, Hrow.
  rewrite <- (map_map (fun v => (- bce_R v (sigmoid_R v))%R) exp).
  rewrite ln_div; auto.
  - apply sum_exp_pos. destruct row; simpl in *; [lia|discriminate].
  - apply lt_0_INR. lia.
Qed.

Lemma loss_terms_value (T X : Type) (net : list T -> list X -> list R)
    (theta : list T) (x : list X)
    (outcome : list (list nat)) (outcomes : list (list (list nat))) :
  3 <= length theta -> length x = length theta ->
  (forall ts xs, length (net ts xs) = length ts) ->
  Sampler.multinomial (Sampler.probs (length theta)) 1 outcome ->
  Sampler.stacked_multinomial (length theta) 2 outcomes ->
  exists atomic_theta repeated_x atomic_theta_ repeated_xx,
    Sampler.classifier_inputs theta x 2 outcome = Ok (atomic_theta, repeated_x) /\
    Sampler.correction_inputs theta x 2 outcomes = Ok (atomic_theta_, repeated_xx) /\
    length (net atomic_theta repeated_x) = 2 * length theta /\
    _loss_terms net theta x 2 outcome outcomes =
      Ok (scalar (mean_R (map (fun p => bce_R (fst p) (snd p))
                              (combine (net atomic_theta repeated_x)
                                       (data (labels (length theta)))))),
          scalar (mean_R (map (fun v => bce_R v (sigmoid_R v))
                              (net atomic_theta repeated_x))),
          scalar (logsumexp_R
                    [(- mean_R (map (fun v => bce_R v (sigmoid_R v))
                                    (net atomic_theta_ repeated_xx)))%R]
                  - ln (INR (length theta - 1)))).
Proof.
  intros HN Hx Hnet Hdraw Hdraws.
  destruct (@SamplerFacts.classifier_inputs_length T X theta x 2 outcome)
    as (atomic_theta & repeated_x & Hc & Hlt & Hlx); auto; try lia.
  destruct (@SamplerFacts.correction_inputs_ok T X theta x 2 outcomes)
    as (atomic_theta_ & repeated_xx & Hc_ & Hlt_ & Hlx_); auto; try lia.
  exists atomic_theta, repeated_x, atomic_theta_, repeated_xx.
  split; [exact Hc|]. split; [exact Hc_|].
  assert (Hlog : length (net atomic_theta repeated_x) = 2 * length theta).
  { rewrite Hnet. lia. }
  split; [exact Hlog|].
  unfold _loss_terms. rewrite Hx, Nat.eqb_refl. cbn [negb].
  unfold _classifier_logits. rewrite Hc. cbn [bind].
  unfold forward. cbn [fst snd]. rewrite Hlt, Hlx, Nat.eqb_refl. cbn [bind].
  unfold squeeze. cbn [shape data filter].
  rewrite Hlog.
  replace (2 * length theta =? 1) with false by (symmetry; apply Nat.eqb_neq; lia).
  cbn [negb Nat.eqb].
  unfold binary_cross_entropy_with_logits, bce_with_logits_reduction, default_reduction,
    reduce. cbn [shape data labels sigmoid tensor_map].
  rewrite shape_eqb_refl. cbn [bind].
  unfold _correction_logits. rewrite Hc_. cbn [bind].
  unfold forward. cbn [fst snd]. rewrite Hlt_, Hlx_, Nat.eqb_refl. cbn [bind].
  unfold reshape, numel. cbn [data fold_right].
  rewrite Hnet, Hlt_.
  replace (2 * length theta * ((length theta - 1) * 1) =?
           length theta * (length theta - 1) * 2) with true
    by (symmetry; apply Nat.eqb_eq; lia).
  cbn [bind].
  unfold _correction, size_last. cbn [shape rev app bind].
  unfold binary_cross_entropy_with_logits, bce_with_logits_reduction, default_reduction,
    reduce. cbn [shape data sigmoid tensor_map].
  rewrite shape_eqb_refl. cbn [bind].
  unfold neg, logsumexp, sub_scalar, scalar, tensor_map. cbn [shape data rev map].
  rewrite combine_map_self, !map_map. cbn [fst snd].
  rewrite combine_map_self, !map_map. cbn [fst snd].
  reflexivity.
Qed.

(** C3, as amended.  For a batch of N >= 3 matched rows and two atoms,
    whatever the draws return, the loss terms are computed, the classifier
    is evaluated on the 2N rows of the atomic batch, and entropy_yw and
    entropy_zw are each one batch-reduced scalar: the mean over those 2N
    logits of the cross-entropy with the alternating labels, respectively
    with the logit's own sigmoid. *)
Theorem loss_terms_are_batch_means (T X : Type) (net : list T -> list X -> list R)
    (theta : list T) (x : list X)
    (outcome : list (list nat)) (outcomes : list (list (list nat))) :
  3 <= length theta -> length x = length theta ->
  (forall ts xs, length (net ts xs) = length ts) ->
  Sampler.multinomial (Sampler.probs (length theta)) 1 outcome ->
  Sampler.stacked_multinomial (length theta) 2 outcomes ->
  exists atomic_theta repeated_x entropy_yw entropy_zw exp_neg_entropy_zw,
    Sampler.classifier_inputs theta x 2 outcome = Ok (atomic_theta, repeated_x) /\
    _loss_terms net theta x 2 outcome outcomes =
      Ok (entropy_yw, entropy_zw, exp_neg_entropy_zw) /\
    length (net atomic_theta repeated_x) = 2 * length theta /\
    entropy_yw =
      scalar (mean_R (map (fun p => bce_R (fst p) (snd p))
                          (combine (net atomic_theta repeated_x)
                                   (data (labels (length theta)))))) /\
    entropy_zw =
      scalar (mean_R (map (fun v => bce_R v (sigmoid_R v))
                          (net atomic_theta repeated_x))).
Proof.
  intros HN Hx Hnet Hdraw Hdraws.
  destruct (loss_terms_value net theta x HN Hx Hnet Hdraw Hdraws)
    as (at_ & rx & at' & rxx & Hc & _ & Hlen & Hv).
  exists at_, rx. eexists _, _, _.
  split; [exact Hc|]. split; [exact Hv|]. split; [exact Hlen|].
  split; reflexivity.
Qed.

Lemma correction_inputs_two_rows (T X : Type) (theta : list T) (x : list X)
    (K : nat) (outcomes : list (list (list nat))) :
  length theta = 2 -> 2 <= K ->
  Sampler.correction_inputs theta x K outcomes = Raise RuntimeError.
Proof.
  intros HN HK. unfold Sampler.correction_inputs.
  destruct x as [|x0 x]; [reflexivity|].
  rewrite (@SamplerFacts.expand_exclude_same_rows _ (x0 :: x)) by discriminate.
  rewrite (@SamplerFacts.expand_exclude_same_rows _ theta)
    by (destruct theta; [discriminate|discriminate]).
  cbn [bind]. rewrite HN.
  cbn [seq mapM]. unfold Sampler.torch_multinomial at 1.
  replace (forallb _ (Sampler.probs (2 - 1))) with false; [reflexivity|].
  cbn. destruct K as [|[|K]]; try lia. reflexivity.
Qed.

(** On a batch of two rows the loss terms are not computed: the correction
    draw has no row to draw from. *)
Lemma loss_terms_two_rows (T X : Type) (net : list T -> list X -> list R)
    (theta : list T) (x : list X)
    (outcome : list (list nat)) (outcomes : list (list (list nat))) :
  length theta = 2 ->
  exists e, _loss_terms net theta x 2 outcome outcomes = Raise e.
Proof.
  intros HN. unfold _loss_terms.
  destruct (negb (length theta =? length x)); [now exists AssertionError|].
  destruct (_classifier_logits net theta x 2 outcome) as [l|e]; cbn [bind];
    [|now exists e].
  destruct (binary_cross_entropy_with_logits (squeeze l) (labels (length theta)))
    as [yw|e]; cbn [bind]; [|now exists e].
  destruct (binary_cross_entropy_with_logits (squeeze l) (sigmoid (squeeze l)))
    as [zw|e]; cbn [bind]; [|now exists e].
  unfold _correction_logits. rewrite correction_inputs_two_rows by auto.
  now exists RuntimeError.
Qed.

(** C3, counterexample.  For a batch of 3 rows the three loss terms are
    0-dim tensors, none of shape [[3]]; for a batch of 2 rows nothing is
    returned, whatever the draws. *)
Lemma loss_terms_not_per_sample :
  (exists entropy_yw entropy_zw exp_neg_entropy_zw,
     _loss_terms (fun (ts : list nat) (_ : list nat) => repeat 0%R (length ts))
                 [0; 1; 2] [0; 1; 2] 2 [[1]; [2]; [0]]
                 [[[1]; [0]]; [[1]; [0]]; [[1]; [0]]] =
       Ok (entropy_yw, entropy_zw, exp_neg_entropy_zw) /\
     shape entropy_yw = [] /\ shape entropy_zw = [] /\ shape exp_neg_entropy_zw = [] /\
     ~ per_sample 3 entropy_yw /\ ~ per_sample 3 entropy_zw /\
     ~ per_sample 3 exp_neg_entropy_zw) /\
  (forall outcome outcomes,
     exists e,
       _loss_terms (fun (ts : list nat) (_ : list nat) => repeat 0%R (length ts))
                   [0; 1] [0; 1] 2 outcome outcomes = Raise e).
Proof.
  split.
  - destruct (@loss_terms_value nat nat
                (fun (ts : list nat) (_ : list nat) => repeat 0%R (length ts))
                [0; 1; 2] [0; 1; 2] [[1]; [2]; [0]]
                [[[1]; [0]]; [[1]; [0]]; [[1]; [0]]])
      as (at_ & rx & at' & rxx & _ & _ & _ & Hv).
    + simpl. lia.
    + reflexivity.
    + intros ts xs. apply repeat_length.
    + apply SamplerFacts.multinomialb_sound. reflexivity.
    + split; [reflexivity|].
      repeat (apply Forall_cons; [apply SamplerFacts.multinomialb_sound; reflexivity|]).
      apply Forall_nil.
    + eexists _, _, _. split; [exact Hv|].
      unfold per_sample. cbn [shape scalar].
      repeat split; try reflexivity; discriminate.
  - intros outcome outcomes. now apply loss_terms_two_rows.
Qed.

Lemma loss_terms_are_batch_means_witness :
  exists atomic_theta repeated_x entropy_yw entropy_zw exp_neg_entropy_zw,
    Sampler.classifier_inputs [0; 1; 2] [3; 4; 5] 2 [[1]; [2]; [0]] =
      Ok (atomic_theta, repeated_x) /\
    _loss_terms (fun (ts : list nat) (_ : list nat) => repeat 0%R (length ts))
                [0; 1; 2] [3; 4; 5] 2 [[1]; [2]; [0]]
                [[[1]; [0]]; [[1]; [0]]; [[1]; [0]]] =
      Ok (entropy_yw, entropy_zw, exp_neg_entropy_zw) /\
    length (repeat 0%R (length atomic_theta)) = 2 * 3 /\
    entropy_yw =
      scalar (mean_R (map (fun p => bce_R (fst p) (snd p))
                          (combine (repeat 0%R (length atomic_theta))
                                   (data (labels 3))))) /\
    entropy_zw =
      scalar (mean_R (map (fun v => bce_R v (sigmoid_R v))
                          (repeat 0%R (length atomic_theta)))).
Proof.
  apply (@loss_terms_are_batch_means nat nat
           (fun (ts : list nat) (_ : list nat) => repeat 0%R (length ts))
           [0; 1; 2] [3; 4; 5] [[1]; [2]; [0]]
           [[[1]; [0]]; [[1]; [0]]; [[1]; [0]]]).
  - simpl. lia.
  - reflexivity.
  - intros ts xs. apply repeat_length.
  - apply SamplerFacts.multinomialb_sound. reflexivity.
  - split; [reflexivity|].
    repeat (apply Forall_cons; [apply SamplerFacts.multinomialb_sound; reflexivity|]).
    apply Forall_nil.
Defined.

End LossFacts.

(* ================================================================== *)
(** * Facts about the training entry points *)

Module TrainingFacts.
Import Torch Training.

(** C2.  With a training batch size of 50 and a validation loader of two
    batches of 50 rows, [train] and [anneal] clamp a requested [num_atoms]
    of 10 to 2, the number of validation batches; clamping to the smaller of
    the two batch sizes leaves 10. *)
Theorem num_atoms_bounded_by_number_of_batches :
  train_num_atoms 10 50 (mkDataLoader [tt; tt] 50) = 2%Z /\
  anneal_num_atoms 10 50 (mkDataLoader [tt; tt] 50) = 2%Z /\
  spec_num_atoms 10 50 (mkDataLoader [tt; tt] 50) = 10%Z.
Proof. repeat split. Qed.

Section LoopFacts.
Variables Net Opt Batch Rng : Type.
Variable _loss_terms : Net -> Batch -> Z -> Rng -> result (Tensor * Tensor * Tensor) * Rng.
Variable backward_and_step : Opt -> Net -> Batch -> Tensor -> option R -> Opt * Net.

Let State := TrainState Net Opt Rng.

Lemma call_loss_frame (batch : Batch) (num_atoms : Z) (lm : option R) (st : State)
    (r : result PyObj) (st' : State) :
  call_loss _loss_terms batch num_atoms lm st = (r, st') ->
  epoch st' = epoch st /\
  loss_calls st' =
    loss_calls st ++
    [mkLossCall (epoch st) (fst (_loss_terms (_neural_net st) batch num_atoms (rng st)))
                lm (Loss._loss (fst (_loss_terms (_neural_net st) batch num_atoms (rng st)))
                               lm)] /\
  _neural_net st' = _neural_net st /\
  (forall o, r = Ok o -> exists a b c, o = PyTuple [a; b; c]).
Proof.
  unfold call_loss. destruct (_loss_terms _ _ _ _) as [terms g]. cbv zeta. intros H.
  injection H as <- <-. cbn [fst]. repeat split; auto.
  intros o Ho. unfold Loss._loss in Ho.
  destruct terms as [[[a b] c]|e]; cbn [bind] in Ho; [|discriminate].
  destruct lm; [|discriminate]. injection Ho as <-. eauto.
Qed.

Lemma anneal_batch_raises (num_atoms : Z) (lm : R) (clip : option R) (acc : R)
    (batch : Batch) (st : State) :
  exists e st',
    anneal_batch _loss_terms backward_and_step num_atoms lm clip acc batch st =
      (Raise e, st') /\
    epoch st' = epoch st /\
    loss_calls st' =
      loss_calls st ++
      [mkLossCall (epoch st)
                  (fst (_loss_terms (_neural_net st) batch num_atoms (rng st)))
                  (Some lm)
                  (Loss._loss (fst (_loss_terms (_neural_net st) batch num_atoms (rng st)))
                              (Some lm))] /\
    (forall terms g,
       _loss_terms (_neural_net st) batch num_atoms (rng st) = (Ok terms, g) ->
       e = TypeError).
Proof.
  unfold anneal_batch, bindM at 1.
  destruct (call_loss _ _ _ _ _) as [r st1] eqn:Ecall.
  pose proof (call_loss_frame _ _ _ _ Ecall) as (He & Hl & Hn & Ht).
  destruct r as [o|e].
  - destruct (Ht o eq_refl) as (a & b & c & ->).
    unfold bindM at 1, lift. cbn [torch_mean].
    exists TypeError, st1. repeat split; auto.
  - exists e, st1. repeat split; auto.
    intros terms g Hterms. unfold call_loss in Ecall.
    rewrite Hterms in Ecall.
    destruct terms as [[a b] c]. cbn in Ecall. discriminate.
Qed.

Lemma converged_frame (e stop : nat) (st : State) :
  exists b st',
    @_converged Net Opt Rng e stop st = (Ok b, st') /\
    epoch st' = epoch st /\ loss_calls st' = loss_calls st /\
    _neural_net st' = _neural_net st /\ rng st' = rng st.
Proof.
  unfold _converged.
  destruct ((e =? 0) || pyfloat_gtb (_val_log_prob st) (_best_val_log_prob st));
    eexists _, _; split; try reflexivity; repeat split.
Qed.

(** One pass of the body of the epoch loop of [anneal]: it raises, after at
    most one call of the loss. *)
Lemma anneal_epoch_raises (num_atoms : Z) (lm : option R) (rate : R) (stop : nat)
    (clip : option R) (train_loader val_loader : DataLoader Batch) (st : State) :
  exists e st',
    anneal_epoch _loss_terms backward_and_step num_atoms lm rate stop clip
                 train_loader val_loader st = (Raise e, st') /\
    (batches train_loader <> [] -> epoch st' = epoch st) /\
    (exists calls,
       loss_calls st' = loss_calls st ++ calls /\
       (lm = None \/ batches train_loader = [] -> calls = []) /\
       (forall target b bs,
          lm = Some target -> batches train_loader = b :: bs ->
          calls =
            [mkLossCall (epoch st)
               (fst (_loss_terms (_neural_net st) b num_atoms (rng st)))
               (Some (target + (epsilon - target) * exp (- rate * INR (epoch st)))%R)
               (Loss._loss (fst (_loss_terms (_neural_net st) b num_atoms (rng st)))
                  (Some (target + (epsilon - target) * exp (- rate * INR (epoch st)))%R))])) /\
    (forall target b bs terms g,
       lm = Some target -> batches train_loader = b :: bs ->
       _loss_terms (_neural_net st) b num_atoms (rng st) = (Ok terms, g) ->
       e = TypeError).
Proof.
  unfold anneal_epoch. unfold bindM at 1, get. unfold bindM at 1.
  destruct (converged_frame (epoch st) stop st) as (b & st1 & -> & He1 & Hl1 & Hn1 & Hr1).
  unfold bindM at 1, lift.
  destruct lm as [target|]; cbn [law_of_cooling].
  2:{ exists TypeError, st1. split; [reflexivity|]. split; [auto|]. split.
      - exists []. rewrite app_nil_r. split; [exact Hl1|]. split; [auto|discriminate].
      - discriminate. }
  unfold bindM at 1.
  destruct (batches train_loader) as [|b0 bs] eqn:Eb.
  - cbn [foldM ret]. unfold bindM at 1, modify. unfold bindM at 1, lift.
    unfold len. rewrite Eb. cbn [length Nat.mul py_div Nat.eqb].
    eexists _, _. split; [reflexivity|]. cbn [loss_calls set_epoch].
    split; [congruence|]. split.
    + exists []. rewrite app_nil_r. split; [exact Hl1|]. split; [auto|discriminate].
    + discriminate.
  - cbn [foldM]. unfold bindM at 1.
    destruct (anneal_batch_raises num_atoms
                (target + (epsilon - target) * exp (- rate * INR (epoch st)))%R
                clip 0%R b0 st1) as (e & st2 & -> & He2 & Hl2 & Hty).
    exists e, st2. split; [reflexivity|]. split; [congruence|]. split.
    + eexists. split; [rewrite Hl2, Hl1; reflexivity|]. split.
      * intros [H|H]; discriminate.
      * intros target' b' bs' Ht Hb. injection Ht as <-. injection Hb as <- <-.
        now rewrite He1, Hn1, Hr1.
    + intros target' b' bs' terms g Ht Hb Hterms.
      injection Hb as <- <-. rewrite <- Hn1, <- Hr1 in Hterms. eauto.
Qed.


Lemma anneal_loop_raises (fuel max_num_epochs : nat) (num_atoms : Z) (lm : option R)
    (rate : R) (stop : nat) (clip : option R)
    (train_loader val_loader : DataLoader Batch) (st : State) :
  epoch st < max_num_epochs -> 1 <= fuel ->
  exists e st',
    anneal_loop fuel max_num_epochs
      (anneal_epoch _loss_terms backward_and_step num_atoms lm rate stop clip
                    train_loader val_loader) st = Some (Raise e, st') /\
    anneal_epoch _loss_terms backward_and_step num_atoms lm rate stop clip
                 train_loader val_loader st = (Raise e, st').
Proof.
  intros He Hf. destruct fuel as [|fuel]; [lia|]. cbn [anneal_loop].
  apply Nat.ltb_lt in He. rewrite He.
  destruct (anneal_epoch_raises num_atoms lm rate stop clip train_loader val_loader st)
    as (e & st' & Hb & _).
  exists e, st'. now rewrite Hb.
Qed.

(** C7.  A call of [anneal] that has an epoch to run and a training batch
    to run it on raises in that epoch, before the epoch counter moves: the
    loop is left with the counter below [max_num_epochs].  When
    [_loss_terms] returns on the first batch, the exception is the
    [TypeError] of [torch.mean] applied to the 3-tuple [_loss] returns. *)
Theorem anneal_aborts_in_its_first_epoch (num_atoms : Z) (lagrange_multiplier : option R)
    (annealing_rate : R) (stop_after_epochs max_num_epochs : nat)
    (clip_max_norm : option R) (resume_training : bool) (fresh_optimizer : Opt)
    (train_loader val_loader : DataLoader Batch) (self : State) :
  (0 < annealing_rate)%R ->
  (if resume_training then epoch self else 0) < max_num_epochs ->
  batches train_loader <> [] ->
  exists e st',
    anneal _loss_terms backward_and_step num_atoms lagrange_multiplier annealing_rate
           stop_after_epochs max_num_epochs clip_max_norm resume_training
           fresh_optimizer train_loader val_loader self = Some (Raise e, st') /\
    epoch st' = (if resume_training then epoch self else 0) /\
    epoch st' < max_num_epochs /\
    (forall target b bs terms g,
       lagrange_multiplier = Some target ->
       batches train_loader = b :: bs ->
       _loss_terms (_neural_net self) b num_atoms (rng self) = (Ok terms, g) ->
       e = TypeError).
Proof.
  intros Hrate He Hb. unfold anneal.
  destruct (Rlt_dec 0 annealing_rate) as [_|Hn]; [|contradiction].
  match goal with |- context [anneal_loop _ _ _ ?s] => set (self0 := s) end.
  assert (He0 : epoch self0 = if resume_training then epoch self else 0).
  { unfold self0. now destruct resume_training. }
  assert (Hn0 : _neural_net self0 = _neural_net self /\ rng self0 = rng self).
  { unfold self0. now destruct resume_training. }
  destruct (anneal_epoch_raises num_atoms lagrange_multiplier annealing_rate
              stop_after_epochs clip_max_norm train_loader val_loader self0)
    as (e & st' & Hbody & Hep & _ & Hty).
  destruct (@anneal_loop_raises (max_num_epochs - epoch self0) max_num_epochs num_atoms
              lagrange_multiplier annealing_rate stop_after_epochs clip_max_norm
              train_loader val_loader self0) as (e' & st'' & Hloop & Hbody');
    try lia.
  rewrite Hbody in Hbody'. injection Hbody' as <- <-.
  rewrite Hloop. exists e, st'. split; [reflexivity|].
  rewrite (Hep Hb), He0. repeat split; auto.
  destruct Hn0 as (Hn1 & Hn2). intros target b bs terms g Ht Hbs Hterms.
  apply (Hty target b bs terms g Ht Hbs). rewrite Hn1, Hn2. exact Hterms.
Qed.




End LoopFacts.

Lemma anneal_aborts_in_its_first_epoch_witness :
  exists e st',
    anneal (fun (_ _ : unit) (_ : Z) (g : unit) =>
              (Ok (scalar 0, scalar 0, scalar 0), g))
           (fun (o n _ : unit) (_ : Tensor) (_ : option R) => (o, n))
           2 (Some (1 / 2)%R) (1 / 10)%R 5 3 None false tt
           (mkDataLoader [tt] 1) (mkDataLoader [tt] 1)
           (mkTrainState 0 NegInf NegInf 0 tt tt tt [] [] []) = Some (Raise e, st') /\
    epoch st' = 0 /\ epoch st' < 3 /\ e = TypeError.
Proof.
  destruct (@anneal_aborts_in_its_first_epoch unit unit unit unit
              (fun (_ _ : unit) (_ : Z) (g : unit) =>
                 (Ok (scalar 0, scalar 0, scalar 0), g))
              (fun (o n _ : unit) (_ : Tensor) (_ : option R) => (o, n))
              2%Z (Some (1 / 2)%R) (1 / 10)%R 5 3 None false tt
              (mkDataLoader [tt] 1) (mkDataLoader [tt] 1)
              (mkTrainState 0 NegInf NegInf 0 tt tt tt [] [] []))
    as (e & st' & H & He & Hlt & Hty).
  - lra.
  - simpl. lia.
  - discriminate.
  - exists e, st'. repeat split; auto.
    exact (Hty (1 / 2)%R tt [] (scalar 0, scalar 0, scalar 0) tt
               eq_refl eq_refl eq_refl).
Defined.


End TrainingFacts.

(* ================================================================== *)
(** * Facts about the stored simulations and the posterior builder *)

Module RoundsFacts.
Import Rounds.

Section StoreFacts.
Variables T X : Type.
Variable is_valid_x : X -> bool.

Lemma new_estimator_well_formed : well_formed (new_estimator T X).
Proof. unfold well_formed. simpl. repeat split; constructor. Qed.

Lemma append_simulations_well_formed (self self' : Simulations T X)
    (theta : list T) (x : list X) (from_round : nat) :
  well_formed self ->
  append_simulations self theta x from_round = Ok self' ->
  well_formed self' /\
  stored_rows self' = (fst (stored_rows self) ++ theta, snd (stored_rows self) ++ x) /\
  _round self' = _round self.
Proof.
  intros (H1 & H2 & H3 & H4 & H5). unfold append_simulations, validate_theta_and_x.
  destruct (Nat.eqb_spec (length theta) (length x)) as [E|]; [|discriminate].
  cbn [bind]. intros H. injection H as <-.
  unfold well_formed, stored_rows. cbn [_theta_roundwise _x_roundwise _prior_masks
                                         _data_round_index _round fst snd].
  rewrite !length_app, !concat_app. cbn [length concat]. rewrite !app_nil_r.
  repeat split; try lia.
  - apply Forall2_app; auto.
  - apply Forall2_app; auto. constructor; auto.
    unfold mask_sims_from_prior. now rewrite repeat_length.
Qed.

Lemma since_round_all {A : Type} (batches : list (list A)) (round_index : list nat) :
  length batches = length round_index ->
  since_round batches round_index 0 = concat batches.
Proof.
  intros H. unfold since_round. f_equal.
  revert round_index H; induction batches as [|b batches IH]; intros [|r rs] H;
    simpl in *; try discriminate; auto.
  f_equal. apply IH. lia.
Qed.

Lemma length_concat_Forall2 {A B : Type} (l1 : list (list A)) (l2 : list (list B)) :
  Forall2 (fun a b => length a = length b) l1 l2 ->
  length (concat l1) = length (concat l2).
Proof.
  induction 1 as [|a b l1 l2 H _ IH]; simpl; auto. rewrite !length_app. lia.
Qed.

Lemma unzip3 {A B C : Type} (keep : A * B * C -> bool)
    (la : list A) (lb : list B) (lc : list C) :
  length la = length lb -> length la = length lc ->
  (forall r, In r (combine (combine la lb) lc) -> keep r = true) ->
  let rows := filter keep (combine (combine la lb) lc) in
  map (fun r => fst (fst r)) rows = la /\ map (fun r => snd (fst r)) rows = lb.
Proof.
  intros Hb Hc Hk. cbv zeta.
  assert (E : filter keep (combine (combine la lb) lc) = combine (combine la lb) lc).
  { apply forallb_filter_id. apply forallb_forall. exact Hk. }
  rewrite E. clear E Hk.
  revert lb lc Hb Hc; induction la as [|a la IH]; intros [|b lb] [|c lc] Hb Hc;
    simpl in *; try discriminate; auto.
  destruct (IH lb lc) as (E1 & E2); try lia. now rewrite E1, E2.
Qed.

(** X2.  Without [discard_prior_samples] the data set of [train] and of
    [anneal] holds every stored row, in the order stored, provided no row is
    filtered out for its x. *)
Theorem training_data_without_discard (self : Simulations T X) (exclude_invalid_x : bool) :
  well_formed self -> _data_round_index self <> [] ->
  exclude_invalid_x = false \/
    Forall (fun row => is_valid_x row = true) (concat (_x_roundwise self)) ->
  exists self',
    train_data is_valid_x self false exclude_invalid_x = Ok (self', stored_rows self) /\
    anneal_data is_valid_x self false exclude_invalid_x = Ok (self', stored_rows self).
Proof.
  intros (H1 & H2 & H3 & H4 & H5) Hne Hvalid.
  unfold train_data, anneal_data. cbn [andb].
  destruct (_data_round_index self) as [|r rs] eqn:Ei; [congruence|].
  cbn [py_max bind]. unfold get_simulations.
  cbn [_theta_roundwise _x_roundwise _prior_masks _data_round_index].
  rewrite !since_round_all by congruence.
  match goal with |- context [filter ?k ?l] =>
    destruct (@unzip3 _ _ _ k (concat (_theta_roundwise self))
                (concat (_x_roundwise self)) (concat (_prior_masks self)))
      as (E1 & E2) end.
  - now apply length_concat_Forall2.
  - now apply length_concat_Forall2.
  - intros [[t xr] mk] Hin. cbn [fst snd].
    destruct Hvalid as [->|Hv]; [reflexivity|].
    rewrite Forall_forall in Hv. rewrite (Hv xr); [apply orb_true_r|].
    apply in_combine_l, in_combine_r in Hin. exact Hin.
  - rewrite E1, E2. eexists. split; reflexivity.
Qed.

End StoreFacts.

Lemma training_data_without_discard_witness :
  exists self',
    train_data (fun v : nat => negb (v =? 0))
               (mkSimulations [[1; 2]; [3]] [[10; 20]; [30]]
                              [[true; true]; [false]] [0; 1] 0)
               false true =
      Ok (self', ([1; 2; 3], [10; 20; 30])) /\
    anneal_data (fun v : nat => negb (v =? 0))
                (mkSimulations [[1; 2]; [3]] [[10; 20]; [30]]
                               [[true; true]; [false]] [0; 1] 0)
                false true =
      Ok (self', ([1; 2; 3], [10; 20; 30])).
Proof.
  apply (@training_data_without_discard nat nat (fun v : nat => negb (v =? 0))
           (mkSimulations [[1; 2]; [3]] [[10; 20]; [30]]
                          [[true; true]; [false]] [0; 1] 0) true).
  - unfold well_formed. simpl. repeat split; repeat constructor.
  - discriminate.
  - right. simpl. repeat constructor.
Defined.

(** C9.  A new object, a batch of round 0 and a batch of round 1 appended,
    then one call of [train] (or [anneal]) with [discard_prior_samples]: the
    data set holds all three rows, those of round 0 included, because the
    round counter is read before it is set to 1.  A second call on the same
    object drops them. *)
Theorem discard_prior_samples_reads_the_previous_round :
  exists st1 st2 st3,
    append_simulations (new_estimator nat nat) [1; 2] [10; 20] 0 = Ok st1 /\
    append_simulations st1 [3] [30] 1 = Ok st2 /\
    rows_after_prior st2 = ([3], [30]) /\
    train_data (fun _ => true) st2 true true = Ok (st3, ([1; 2; 3], [10; 20; 30])) /\
    anneal_data (fun _ => true) st2 true true = Ok (st3, ([1; 2; 3], [10; 20; 30])) /\
    _round st3 = 1 /\
    train_data (fun _ => true) st3 true true = Ok (st3, ([3], [30])).
Proof.
  eexists _, _, _. repeat split; reflexivity.
Qed.

End RoundsFacts.

Module PosteriorFacts.
Import Posterior.

Section BuildFacts.
Variables Net Prior Potential Transform Shape Device Kwargs : Type.
Variable parameter_devices : Net -> list Device.
Variable ratio_estimator_based_potential :
  option Net -> Prior -> result (Potential * Transform).

(** C8, as amended.  A call of [build_posterior] with a [sample_with]
    other than "mcmc" and "rejection" raises and leaves the object, its
    model bank included, as it was; when a prior is at hand and the device
    and the potential function are obtained, what it raises is
    [NotImplementedError]. *)
Theorem build_posterior_unsupported_sample_with
    (self : Estimator Net Prior Potential Transform Shape Device Kwargs)
    (density_estimator : option Net) (prior : option Prior)
    (sample_with mcmc_method : string)
    (mcmc_parameters rejection_sampling_parameters : Kwargs) :
  sample_with <> "mcmc"%string -> sample_with <> "rejection"%string ->
  (exists e,
     build_posterior parameter_devices ratio_estimator_based_potential self
       density_estimator prior sample_with mcmc_method mcmc_parameters
       rejection_sampling_parameters = (Raise e, self)) /\
  (forall p d pt,
     resolve_prior self prior = Ok p ->
     resolve_device parameter_devices self density_estimator = Ok d ->
     ratio_estimator_based_potential (_neural_net self) p = Ok pt ->
     build_posterior parameter_devices ratio_estimator_based_potential self
       density_estimator prior sample_with mcmc_method mcmc_parameters
       rejection_sampling_parameters = (Raise NotImplementedError, self)).
Proof.
  intros Hm Hr.
  apply String.eqb_neq in Hm. apply String.eqb_neq in Hr.
  unfold build_posterior. split.
  - destruct (resolve_prior self prior) as [p|e]; [|now exists e].
    destruct (resolve_device parameter_devices self density_estimator) as [d|e];
      [|now exists e].
    destruct (ratio_estimator_based_potential (_neural_net self) p) as [[pf tt]|e];
      [|now exists e].
    rewrite Hm, Hr. exists NotImplementedError. now destruct (String.eqb sample_with "vi").
  - intros p d [pf tt] -> -> ->. rewrite Hm, Hr.
    now destruct (String.eqb sample_with "vi").
Qed.

(** C10.  When [build_posterior] returns for a passed
    [density_estimator], the potential function of the posterior is the one
    built from the stored network [self._neural_net]; the passed estimator
    gives the device, and any other estimator whose first parameter is on
    that device yields the same posterior and the same object. *)
Theorem build_posterior_uses_the_stored_network
    (self self' : Estimator Net Prior Potential Transform Shape Device Kwargs)
    (density_estimator : Net) (prior : option Prior)
    (sample_with mcmc_method : string)
    (mcmc_parameters rejection_sampling_parameters : Kwargs)
    (posterior : PosteriorObj Prior Potential Transform Shape Device Kwargs) :
  build_posterior parameter_devices ratio_estimator_based_potential self
    (Some density_estimator) prior sample_with mcmc_method mcmc_parameters
    rejection_sampling_parameters = (Ok posterior, self') ->
  (exists p theta_transform,
     resolve_prior self prior = Ok p /\
     ratio_estimator_based_potential (_neural_net self) p =
       Ok (potential_of posterior, theta_transform)) /\
  hd_error (parameter_devices density_estimator) = Some (device_of posterior) /\
  (forall other : Net,
     hd_error (parameter_devices other) = hd_error (parameter_devices density_estimator) ->
     build_posterior parameter_devices ratio_estimator_based_potential self
       (Some other) prior sample_with mcmc_method mcmc_parameters
       rejection_sampling_parameters = (Ok posterior, self')).
Proof.
  unfold build_posterior. intros H.
  destruct (resolve_prior self prior) as [p|e]; [|discriminate].
  cbn [resolve_device] in *.
  destruct (parameter_devices density_estimator) as [|d ds] eqn:Ed; [discriminate|].
  destruct (ratio_estimator_based_potential (_neural_net self) p) as [[pf tt]|e] eqn:Ep;
    [|discriminate].
  assert (Hpost : potential_of posterior = pf /\ device_of posterior = d).
  { destruct (String.eqb sample_with "mcmc"); [injection H as <- _; now split|].
    destruct (String.eqb sample_with "rejection"); [injection H as <- _; now split|].
    destruct (String.eqb sample_with "vi"); discriminate. }
  destruct Hpost as (<- & <-). split; [|split].
  - exists p, tt. now split.
  - reflexivity.
  - intros other Ho. destruct (parameter_devices other) as [|d' ds']; [discriminate|].
    injection Ho as ->. exact H.
Qed.

End BuildFacts.

Lemma build_posterior_unsupported_sample_with_witness :
  build_posterior (fun _ : unit => [tt]) (fun (_ : option unit) (_ : unit) => Ok (tt, tt))
    (mkEstimator (Some tt) (Some tt) tt (None : option unit) None
                 [RejectionPosterior tt tt tt None tt])
    None None "vi" "slice_np" tt tt =
  (Raise NotImplementedError,
   mkEstimator (Some tt) (Some tt) tt None None [RejectionPosterior tt tt tt None tt]).
Proof.
  refine (proj2 (@build_posterior_unsupported_sample_with
                   unit unit unit unit unit unit unit
                   (fun _ : unit => [tt])
                   (fun (_ : option unit) (_ : unit) => Ok (tt, tt))
                   (mkEstimator (Some tt) (Some tt) tt None None
                                [RejectionPosterior tt tt tt None tt])
                   None None "vi" "slice_np" tt tt _ _)
                tt tt (tt, tt) eq_refl eq_refl eq_refl); discriminate.
Defined.

(** A stored network 1 and a passed estimator 2 on the device "cuda"; the
    potential function is tagged with the network it was built from. *)
Lemma build_posterior_uses_the_stored_network_witness :
  exists posterior self',
    build_posterior (fun _ : nat => ["cuda"%string])
      (fun (net : option nat) (_ : unit) => Ok (net, tt))
      (mkEstimator (Some tt) (Some 1) "cpu"%string (None : option unit) None [])
      (Some 2) None "rejection" "slice_np" tt tt = (Ok posterior, self') /\
    (exists p theta_transform,
       resolve_prior (mkEstimator (Some tt) (Some 1) "cpu"%string None None []
                      : Estimator nat unit (option nat) unit unit string unit)
                     None = Ok p /\
       Ok (Some 1, tt) = Ok (potential_of posterior, theta_transform)) /\
    hd_error ["cuda"%string] = Some (device_of posterior).
Proof.
  eexists _, _. split; [reflexivity|].
  destruct (@build_posterior_uses_the_stored_network
              nat unit (option nat) unit unit string unit
              (fun _ : nat => ["cuda"%string])
              (fun (net : option nat) (_ : unit) => Ok (net, tt))
              (mkEstimator (Some tt) (Some 1) "cpu"%string None None [])
              _ 2 None "rejection"%string "slice_np"%string tt tt _ eq_refl)
    as (Hp & Hd & _).
  split; [exact Hp|exact Hd].
Defined.

(** C8, counterexample.  Without a prior, neither passed nor stored, the
    call with [sample_with = "vi"] raises [AssertionError]; with a prior and
    a passed estimator that has no parameter, it raises [StopIteration]. *)
Lemma build_posterior_without_prior :
  build_posterior (fun _ : unit => [tt]) (fun (_ : option unit) (_ : unit) => Ok (tt, tt))
    (mkEstimator None (Some tt) tt (None : option unit) None [])
    None None "vi" "slice_np" tt tt =
  (Raise AssertionError, mkEstimator None (Some tt) tt None None []) /\
  build_posterior (fun _ : unit => ([] : list unit))
    (fun (_ : option unit) (_ : unit) => Ok (tt, tt))
    (mkEstimator (Some tt) (Some tt) tt (None : option unit) None [])
    (Some tt) None "vi" "slice_np" tt tt =
  (Raise StopIteration, mkEstimator (Some tt) (Some tt) tt None None []) /\
  AssertionError <> NotImplementedError /\ StopIteration <> NotImplementedError.
Proof.
  split; [reflexivity|]. split; [reflexivity|]. split; discriminate.
Qed.

End PosteriorFacts.

(* ================================================================== *)
(** * More facts about the atomic sampler *)

Module ExpandFacts.
Import Sampler.

(** X4.  [_expand_exclude_same] turns a batch of b >= 1 rows into b rows
    of b - 1 entries: row a is the batch with its a-th entry left out, in
    order, so its m-th entry is entry m of the batch for m < a and entry
    m + 1 from a on.  On an empty batch the call raises. *)
Theorem expand_exclude_same_entries (A : Type) (tensor : list A) :
  (tensor = [] -> _expand_exclude_same tensor = Raise RuntimeError) /\
  (tensor <> [] ->
   exists rows,
     _expand_exclude_same tensor = Ok rows /\
     length rows = length tensor /\
     Forall (fun row => length row = length tensor - 1) rows /\
     forall a m, a < length tensor -> m < length tensor - 1 ->
       exists row,
         nth_error rows a = Some row /\
         nth_error row m = nth_error tensor (if m <? a then m else S m)).
Proof.
  split.
  - intros ->. reflexivity.
  - intros Hne. rewrite (SamplerFacts.expand_exclude_same_rows Hne).
    eexists. split; [reflexivity|]. split; [now rewrite length_map, length_seq|]. split.
    + apply Forall_forall. intros row Hin. apply in_map_iff in Hin as (a & <- & Ha).
      apply in_seq in Ha. apply SamplerFacts.length_remove_at. lia.
    + intros a m Ha Hm. exists (remove_at a tensor).
      rewrite nth_error_map, nth_error_seq.
      apply Nat.ltb_lt in Ha. rewrite Ha. apply Nat.ltb_lt in Ha. cbn [Nat.add option_map].
      split; [reflexivity|]. now apply SamplerFacts.nth_error_remove_at.
Qed.

Lemma expand_exclude_same_entries_witness :
  exists rows,
    _expand_exclude_same [10; 20; 30] = Ok rows /\
    length rows = 3 /\
    Forall (fun row => length row = 3 - 1) rows /\
    forall a m, a < 3 -> m < 3 - 1 ->
      exists row,
        nth_error rows a = Some row /\
        nth_error row m = nth_error [10; 20; 30] (if m <? a then m else S m).
Proof.
  apply (proj2 (expand_exclude_same_entries [10; 20; 30])). discriminate.
Defined.

End ExpandFacts.

(* ================================================================== *)
(** * More facts about the loss *)

Module LossTermFacts.
Import Torch Loss.

Lemma sigmoid_R_range (v : R) : (0 < sigmoid_R v < 1)%R.
Proof.
  unfold sigmoid_R. pose proof (exp_pos (- v)) as H.
  assert (H1 : (0 < 1 + exp (- v))%R) by lra.
  split.
  - apply Rdiv_lt_0_compat; lra.
  - apply (Rmult_lt_reg_r (1 + exp (- v))); auto.
    unfold Rdiv. rewrite Rmult_assoc, Rinv_l by lra. lra.
Qed.

Lemma ln_neg (p : R) : (0 < p < 1)%R -> (ln p < 0)%R.
Proof. intros (H0 & H1). rewrite <- ln_1. now apply ln_increasing. Qed.

Lemma bce_R_nonneg (v y : R) : (0 <= y <= 1)%R -> (0 <= bce_R v y)%R.
Proof.
  intros Hy. unfold bce_R. pose proof (sigmoid_R_range v) as Hs.
  assert (H1 : (ln (sigmoid_R v) < 0)%R) by (apply ln_neg; lra).
  assert (H2 : (ln (1 - sigmoid_R v) < 0)%R) by (apply ln_neg; lra).
  nra.
Qed.

Lemma sum_R_nonneg (l : list R) : Forall (fun v => (0 <= v)%R) l -> (0 <= sum_R l)%R.
Proof. induction 1; simpl; lra. Qed.

Lemma mean_R_nonneg (l : list R) : Forall (fun v => (0 <= v)%R) l -> (0 <= mean_R l)%R.
Proof.
  intros H. unfold mean_R. apply sum_R_nonneg in H.
  destruct l as [|v l].
  - simpl. lra.
  - apply Rmult_le_pos; auto. apply Rlt_le, Rinv_0_lt_compat, lt_0_INR. simpl. lia.
Qed.

(** X5.  [_correction] returns one number for the whole tensor, whatever
    its shape: minus the mean over all entries of the cross-entropy of each
    logit with its own sigmoid, minus the log of the size m of the last
    dimension; it is at most -log m.  A 0-dim tensor has no last dimension
    and the call raises. *)
Theorem correction_closed_form (logits : Tensor) :
  (shape logits = [] -> _correction logits = Raise IndexError) /\
  (forall m lead, rev (shape logits) = m :: lead ->
     _correction logits =
       Ok (scalar (- mean_R (map (fun v => bce_R v (sigmoid_R v)) (data logits))
                   - ln (INR m))%R) /\
     (- mean_R (map (fun v => bce_R v (sigmoid_R v)) (data logits)) - ln (INR m)
      <= - ln (INR m))%R).
Proof.
  split.
  - intros H. unfold _correction, size_last. now rewrite H.
  - intros m lead H. split.
    + unfold _correction, size_last. rewrite H. cbn [bind].
      unfold binary_cross_entropy_with_logits, bce_with_logits_reduction, default_reduction,
        reduce. cbn [shape data sigmoid tensor_map].
      rewrite LossFacts.shape_eqb_refl. cbn [bind].
      unfold neg, logsumexp, sub_scalar, scalar, tensor_map. cbn [shape data rev map].
      rewrite LossFacts.combine_map_self, !map_map. cbn [fst snd].
      unfold logsumexp_R, sum_R. cbn [map fold_right].
      now rewrite Rplus_0_r, ln_exp.
    + assert (0 <= mean_R (map (fun v => bce_R v (sigmoid_R v)) (data logits)))%R; [|lra].
      apply mean_R_nonneg. apply Forall_forall. intros h Hin.
      apply in_map_iff in Hin as (v & <- & _). apply bce_R_nonneg.
      pose proof (sigmoid_R_range v). lra.
Qed.


Lemma correction_closed_form_witness :
  _correction (mkTensor [1; 2] [0%R; 0%R]) =
    Ok (scalar (- mean_R (map (fun v => bce_R v (sigmoid_R v)) [0%R; 0%R])
                - ln (INR 2))%R) /\
  (- mean_R (map (fun v => bce_R v (sigmoid_R v)) [0%R; 0%R]) - ln (INR 2)
   <= - ln (INR 2))%R.
Proof.
  apply (proj2 (correction_closed_form (mkTensor [1; 2] [0%R; 0%R])) 2 [1]).
  reflexivity.
Defined.

Lemma labels_range (N : nat) :
  Forall (fun y => (0 <= y <= 1)%R) (data (labels N)).
Proof.
  unfold labels. cbn [data]. apply Forall_forall. intros y Hin.
  apply in_map_iff in Hin as (k & <- & _). destruct (Nat.even k); lra.
Qed.

Lemma bce_pairs_nonneg (logits targets : list R) :
  Forall (fun y => (0 <= y <= 1)%R) targets ->
  Forall (fun v => (0 <= v)%R)
         (map (fun p => bce_R (fst p) (snd p)) (combine logits targets)).
Proof.
  intros H. apply Forall_forall. intros h Hin.
  apply in_map_iff in Hin as ((v & y) & <- & Hin). cbn [fst snd].
  apply in_combine_r in Hin. apply bce_R_nonneg.
  rewrite Forall_forall in H. now apply H.
Qed.

Lemma bce_self_nonneg (logits : list R) :
  Forall (fun v => (0 <= v)%R) (map (fun v => bce_R v (sigmoid_R v)) logits).
Proof.
  apply Forall_forall. intros h Hin.
  apply in_map_iff in Hin as (v & <- & _). apply bce_R_nonneg.
  pose proof (sigmoid_R_range v). lra.
Qed.

(** X6.  The three loss terms of a batch of N >= 3 rows with two atoms
    are 0-dim tensors; the two entropies are not negative and the
    correction term is at most -log(N - 1), so it is negative. *)
Theorem loss_terms_signs (T X : Type) (net : list T -> list X -> list R)
    (theta : list T) (x : list X)
    (outcome : list (list nat)) (outcomes : list (list (list nat))) :
  3 <= length theta -> length x = length theta ->
  (forall ts xs, length (net ts xs) = length ts) ->
  Sampler.multinomial (Sampler.probs (length theta)) 1 outcome ->
  Sampler.stacked_multinomial (length theta) 2 outcomes ->
  exists entropy_yw entropy_zw exp_neg_entropy_zw : R,
    _loss_terms net theta x 2 outcome outcomes =
      Ok (scalar entropy_yw, scalar entropy_zw, scalar exp_neg_entropy_zw) /\
    (0 <= entropy_yw)%R /\ (0 <= entropy_zw)%R /\
    (exp_neg_entropy_zw <= - ln (INR (length theta - 1)))%R /\
    (exp_neg_entropy_zw < 0)%R.
Proof.
  intros HN Hx Hnet Hdraw Hdraws.
  destruct (LossFacts.loss_terms_value net theta x HN Hx Hnet Hdraw Hdraws)
    as (at_ & rx & at' & rxx & _ & _ & _ & Hv).
  eexists _, _, _. split; [exact Hv|].
  split; [apply mean_R_nonneg, bce_pairs_nonneg, labels_range|].
  split; [apply mean_R_nonneg, bce_self_nonneg|].
  unfold logsumexp_R, sum_R. cbn [map fold_right]. rewrite Rplus_0_r, ln_exp.
  pose proof (mean_R_nonneg (bce_self_nonneg (net at' rxx))) as Hm.
  assert (Hln : (0 < ln (INR (length theta - 1)))%R).
  { rewrite <- ln_1. apply ln_increasing; [lra|].
    change 1%R with (INR 1). apply lt_INR. lia. }
  split; lra.
Qed.

Lemma loss_terms_signs_witness :
  exists entropy_yw entropy_zw exp_neg_entropy_zw : R,
    _loss_terms (fun (ts : list nat) (_ : list nat) => repeat 0%R (length ts))
                [0; 1; 2] [3; 4; 5] 2 [[1]; [2]; [0]]
                [[[1]; [0]]; [[1]; [0]]; [[1]; [0]]] =
      Ok (scalar entropy_yw, scalar entropy_zw, scalar exp_neg_entropy_zw) /\
    (0 <= entropy_yw)%R /\ (0 <= entropy_zw)%R /\
    (exp_neg_entropy_zw <= - ln (INR (3 - 1)))%R /\
    (exp_neg_entropy_zw < 0)%R.
Proof.
  apply (@loss_terms_signs nat nat
           (fun (ts : list nat) (_ : list nat) => repeat 0%R (length ts))
           [0; 1; 2] [3; 4; 5] [[1]; [2]; [0]]
           [[[1]; [0]]; [[1]; [0]]; [[1]; [0]]]).
  - simpl. lia.
  - reflexivity.
  - intros ts xs. apply repeat_length.
  - apply SamplerFacts.multinomialb_sound. reflexivity.
  - split; [reflexivity|].
    repeat (apply Forall_cons; [apply SamplerFacts.multinomialb_sound; reflexivity|]).
    apply Forall_nil.
Defined.

(** X7.  [_loss_terms] works with two atoms only: its labels are built
    for 2 * batch_size logits (line 188), so with three atoms or more the
    first cross-entropy is handed batch_size * num_atoms logits and
    2 * batch_size labels and raises. *)
Theorem loss_terms_needs_two_atoms (T X : Type) (net : list T -> list X -> list R)
    (theta : list T) (x : list X) (num_atoms : nat)
    (outcome : list (list nat)) (outcomes : list (list (list nat))) :
  3 <= num_atoms <= length theta -> length x = length theta ->
  (forall ts xs, length (net ts xs) = length ts) ->
  Sampler.multinomial (Sampler.probs (length theta)) (num_atoms - 1) outcome ->
  _loss_terms net theta x num_atoms outcome outcomes = Raise RuntimeError.
Proof.
  intros HK Hx Hnet Hdraw.
  destruct (@SamplerFacts.classifier_inputs_length T X theta x num_atoms outcome)
    as (atomic_theta & repeated_x & Hc & Hlt & Hlx); auto; try lia.
  unfold _loss_terms. rewrite Hx, Nat.eqb_refl. cbn [negb].
  unfold _classifier_logits. rewrite Hc. cbn [bind].
  unfold forward. cbn [fst snd]. rewrite Hlt, Hlx, Nat.eqb_refl. cbn [bind].
  unfold squeeze. cbn [shape data filter]. rewrite Hnet, Hlt.
  replace (length theta * num_atoms =? 1) with false by (symmetry; apply Nat.eqb_neq; nia).
  cbn [negb Nat.eqb].
  unfold binary_cross_entropy_with_logits at 1, bce_with_logits_reduction.
  cbn [shape labels].
  replace (shape_eqb [length theta * num_atoms] [2 * length theta]) with false;
    [reflexivity|].
  unfold shape_eqb. cbn [length combine forallb fst snd Nat.eqb andb].
  symmetry. rewrite andb_true_r. apply Nat.eqb_neq. nia.
Qed.

Lemma loss_terms_needs_two_atoms_witness :
  _loss_terms (fun (ts : list nat) (_ : list nat) => repeat 0%R (length ts))
              [0; 1; 2] [3; 4; 5] 3 [[1; 2]; [2; 0]; [0; 1]] [] = Raise RuntimeError.
Proof.
  apply (@loss_terms_needs_two_atoms nat nat
           (fun (ts : list nat) (_ : list nat) => repeat 0%R (length ts))
           [0; 1; 2] [3; 4; 5] 3 [[1; 2]; [2; 0]; [0; 1]] []).
  - simpl. lia.
  - reflexivity.
  - intros ts xs. apply repeat_length.
  - apply SamplerFacts.multinomialb_sound. reflexivity.
Defined.


Lemma map_fst_combine3 (a b c : list R) :
  length a <= length b -> length a <= length c ->
  map (fun p : R * R * R => fst (fst p)) (combine (combine a b) c) = a.
Proof.
  revert b c. induction a as [|v a IH]; intros [|w b] [|u c]; cbn [length]; intros Hb Hc;
    try lia; try reflexivity. cbn [combine map fst]. f_equal. apply IH; lia.
Qed.

(** X8.  With a multiplier of 0, the default of [train], the mixed loss
    that [_loss] returns third is the first term itself, [entropy_yw]:
    for three terms of one shape, neither [entropy_zw] nor the correction
    term enters it. *)
Theorem loss_at_multiplier_zero (entropy_yw entropy_zw exp_neg_entropy_zw : Tensor) :
  shape entropy_zw = shape entropy_yw -> numel entropy_zw = numel entropy_yw ->
  shape exp_neg_entropy_zw = shape entropy_yw ->
  numel exp_neg_entropy_zw = numel entropy_yw ->
  _loss (Ok (entropy_yw, entropy_zw, exp_neg_entropy_zw)) (Some 0%R) =
    Ok (PyTuple [entropy_yw; add entropy_zw exp_neg_entropy_zw; entropy_yw]).
Proof.
  intros _ Hb _ Hc. unfold _loss. cbn [bind].
  assert (H : convex_combine entropy_yw entropy_zw exp_neg_entropy_zw 0 = entropy_yw);
    [|now rewrite H].
  unfold convex_combine. destruct entropy_yw as [sh d]. cbn [shape data]. f_equal.
  unfold numel in *. cbn [data] in *.
  transitivity (map (fun p : R * R * R => fst (fst p))
                    (combine (combine d (data entropy_zw)) (data exp_neg_entropy_zw))).
  - apply map_ext. intros p. lra.
  - apply map_fst_combine3; lia.
Qed.

Lemma loss_at_multiplier_zero_witness :
  _loss (Ok (scalar 3, scalar 5, scalar 7)) (Some 0%R) =
    Ok (PyTuple [scalar 3; add (scalar 5) (scalar 7); scalar 3]).
Proof.
  apply (@loss_at_multiplier_zero (scalar 3) (scalar 5) (scalar 7)); reflexivity.
Defined.

(** X9.  For a batch of N >= 3 rows and 2 <= K <= N - 1 atoms the
    classifier is run on N * K rows for the primary logits and on
    N * (N - 1) * K rows for the correction logits, which are reshaped to
    [[K * N, N - 1]]. *)
Theorem atomic_logits_shapes (T X : Type) (net : list T -> list X -> list R)
    (theta : list T) (x : list X) (K : nat)
    (outcome : list (list nat)) (outcomes : list (list (list nat))) :
  3 <= length theta -> 2 <= K <= length theta - 1 -> length x = length theta ->
  (forall ts xs, length (net ts xs) = length ts) ->
  Sampler.multinomial (Sampler.probs (length theta)) (K - 1) outcome ->
  Sampler.stacked_multinomial (length theta) K outcomes ->
  exists logits logits_,
    _classifier_logits net theta x K outcome = Ok logits /\
    shape logits = [length theta * K; 1] /\
    numel logits = length theta * K /\
    _correction_logits net theta x K outcomes = Ok logits_ /\
    shape logits_ = [K * length theta; length theta - 1] /\
    numel logits_ = K * length theta * (length theta - 1).
Proof.
  intros HN HK Hx Hnet Hdraw Hdraws.
  destruct (@SamplerFacts.classifier_inputs_length T X theta x K outcome)
    as (atomic_theta & repeated_x & Hc & Hlt & Hlx); auto; try lia.
  destruct (@SamplerFacts.correction_inputs_ok T X theta x K outcomes)
    as (atomic_theta_ & repeated_xx & Hc_ & Hlt_ & Hlx_); auto; try lia.
  eexists _, _.
  unfold _classifier_logits, _correction_logits. rewrite Hc, Hc_. cbn [bind].
  unfold forward. cbn [fst snd]. rewrite Hlt, Hlx, Hlt_, Hlx_, !Nat.eqb_refl.
  cbn [bind]. unfold reshape, numel. cbn [data fold_right].
  rewrite !Hnet, Hlt, Hlt_.
  replace (K * length theta * ((length theta - 1) * 1) =?
           length theta * (length theta - 1) * K) with true
    by (symmetry; apply Nat.eqb_eq; nia).
  repeat split; cbn [shape data]; rewrite ?Hnet, ?Hlt, ?Hlt_; try reflexivity; nia.
Qed.

Lemma atomic_logits_shapes_witness :
  exists logits logits_,
    _classifier_logits (fun (ts : list nat) (_ : list nat) => repeat 0%R (length ts))
                       [0; 1; 2] [3; 4; 5] 2 [[1]; [2]; [0]] = Ok logits /\
    shape logits = [3 * 2; 1] /\
    numel logits = 3 * 2 /\
    _correction_logits (fun (ts : list nat) (_ : list nat) => repeat 0%R (length ts))
                       [0; 1; 2] [3; 4; 5] 2
                       [[[1]; [0]]; [[1]; [0]]; [[1]; [0]]] = Ok logits_ /\
    shape logits_ = [2 * 3; 3 - 1] /\
    numel logits_ = 2 * 3 * (3 - 1).
Proof.
  apply (@atomic_logits_shapes nat nat
           (fun (ts : list nat) (_ : list nat) => repeat 0%R (length ts))
           [0; 1; 2] [3; 4; 5] 2 [[1]; [2]; [0]]
           [[[1]; [0]]; [[1]; [0]]; [[1]; [0]]]).
  - simpl. lia.
  - simpl. lia.
  - reflexivity.
  - intros ts xs. apply repeat_length.
  - apply SamplerFacts.multinomialb_sound. reflexivity.
  - split; [reflexivity|].
    repeat (apply Forall_cons; [apply SamplerFacts.multinomialb_sound; reflexivity|]).
    apply Forall_nil.
Defined.

End LossTermFacts.

(* ================================================================== *)
(** * More facts about annealed training *)

Module AnnealFacts.
Import Torch Training.

Lemma exp_decay_range (rate : R) (e : nat) :
  (0 < rate)%R -> (0 < exp (- rate * INR e) <= 1)%R.
Proof.
  intros Hr. split; [apply exp_pos|].
  pose proof (pos_INR e) as He.
  destruct (Req_dec (INR e) 0) as [E|E].
  - rewrite E, Rmult_0_r, exp_0. lra.
  - rewrite <- exp_0. apply Rlt_le, exp_increasing. nra.
Qed.

(** X10.  The annealing schedule starts at 0.01 and moves towards the
    target: from one epoch to the next the distance to the target shrinks
    by the factor exp(-annealing_rate), and every value lies between 0.01
    and the target. *)
Theorem law_of_cooling_approaches_target (target annealing_rate : R) (e : nat) :
  (0 < annealing_rate)%R ->
  law_of_cooling (Some target) annealing_rate 0 = Ok (1 / 100)%R /\
  exists v w,
    law_of_cooling (Some target) annealing_rate e = Ok v /\
    law_of_cooling (Some target) annealing_rate (S e) = Ok w /\
    (w - target = exp (- annealing_rate) * (v - target))%R /\
    (Rabs (w - target) <= Rabs (v - target))%R /\
    (Rmin (1 / 100) target <= v <= Rmax (1 / 100) target)%R.
Proof.
  intros Hr. unfold law_of_cooling, epsilon. split.
  - f_equal. cbn [INR]. rewrite Rmult_0_r, exp_0. lra.
  - eexists _, _. split; [reflexivity|]. split; [reflexivity|].
    assert (Hstep : exp (- annealing_rate * INR (S e)) =
                    (exp (- annealing_rate) * exp (- annealing_rate * INR e))%R).
    { rewrite S_INR, <- exp_plus. f_equal. lra. }
    rewrite Hstep.
    pose proof (exp_decay_range e Hr) as (Hq0 & Hq1).
    set (q := exp (- annealing_rate * INR e)) in *.
    assert (Hk : (0 < exp (- annealing_rate) < 1)%R).
    { split; [apply exp_pos|]. rewrite <- exp_0. apply exp_increasing. lra. }
    set (k := exp (- annealing_rate)) in *.
    split; [lra|]. split.
    + replace (target + (1 / 100 - target) * (k * q) - target)%R
        with (k * (target + (1 / 100 - target) * q - target))%R by lra.
      rewrite Rabs_mult, (Rabs_pos_eq k) by lra.
      pose proof (Rabs_pos (target + (1 / 100 - target) * q - target)). nra.
    + unfold Rmin, Rmax. destruct (Rle_dec (1 / 100) target); split; nra.
Qed.

Lemma law_of_cooling_approaches_target_witness :
  law_of_cooling (Some (1 / 2)%R) 1 0 = Ok (1 / 100)%R /\
  exists v w,
    law_of_cooling (Some (1 / 2)%R) 1 3 = Ok v /\
    law_of_cooling (Some (1 / 2)%R) 1 4 = Ok w /\
    (w - 1 / 2 = exp (- 1) * (v - 1 / 2))%R /\
    (Rabs (w - 1 / 2) <= Rabs (v - 1 / 2))%R /\
    (Rmin (1 / 100) (1 / 2) <= v <= Rmax (1 / 100) (1 / 2))%R.
Proof.
  apply (@law_of_cooling_approaches_target (1 / 2)%R 1%R 3). lra.
Defined.

Section AnnealLoopFacts.
Variables Net Opt Batch Rng : Type.
Variable _loss_terms : Net -> Batch -> Z -> Rng -> result (Tensor * Tensor * Tensor) * Rng.
Variable backward_and_step : Opt -> Net -> Batch -> Tensor -> option R -> Opt * Net.

Let State := TrainState Net Opt Rng.

(** X11.  A call of [anneal] that returns has run no epoch: the epoch
    counter it starts from is already at [max_num_epochs]; the network it
    returns is the stored one and no log has an entry more. *)
Theorem anneal_returns_only_untrained (num_atoms : Z) (lagrange_multiplier : option R)
    (annealing_rate : R) (stop_after_epochs max_num_epochs : nat)
    (clip_max_norm : option R) (resume_training : bool) (fresh_optimizer : Opt)
    (train_loader val_loader : DataLoader Batch) (self st' : State) (net : Net) :
  anneal _loss_terms backward_and_step num_atoms lagrange_multiplier annealing_rate
         stop_after_epochs max_num_epochs clip_max_norm resume_training
         fresh_optimizer train_loader val_loader self = Some (Ok net, st') ->
  (0 < annealing_rate)%R /\
  max_num_epochs <= (if resume_training then epoch self else 0) /\
  net = _neural_net self /\ _neural_net st' = _neural_net self /\
  epoch st' = (if resume_training then epoch self else 0) /\
  train_log_probs st' = train_log_probs self /\
  validation_log_probs st' = validation_log_probs self /\
  loss_calls st' = loss_calls self.
Proof.
  unfold anneal. intros H.
  destruct (Rlt_dec 0 annealing_rate) as [Hr|_]; [|discriminate].
  split; [exact Hr|].
  match type of H with context [anneal_loop _ _ _ ?s] => set (self0 := s) in H end.
  assert (H0 : epoch self0 = (if resume_training then epoch self else 0) /\
               _neural_net self0 = _neural_net self /\
               train_log_probs self0 = train_log_probs self /\
               validation_log_probs self0 = validation_log_probs self /\
               loss_calls self0 = loss_calls self).
  { unfold self0. destruct resume_training; repeat split. }
  destruct H0 as (He & Hn & Ht & Hv & Hl).
  destruct (Nat.ltb_spec (epoch self0) max_num_epochs) as [Hlt|Hge].
  - destruct (@TrainingFacts.anneal_loop_raises _ _ _ _ _loss_terms backward_and_step
                (max_num_epochs - epoch self0) max_num_epochs num_atoms
                lagrange_multiplier annealing_rate stop_after_epochs clip_max_norm
                train_loader val_loader self0) as (e' & st'' & Hloop & _);
      try lia.
    rewrite Hloop in H. discriminate.
  - replace (max_num_epochs - epoch self0) with 0 in H by lia.
    cbn [anneal_loop] in H.
    pose proof Hge as Hge'. apply Nat.ltb_ge in Hge'. rewrite Hge' in H.
    injection H as <- <-. rewrite <- He. repeat split; auto.
Qed.

End AnnealLoopFacts.

Lemma anneal_returns_only_untrained_witness :
  (0 < 1 / 10)%R /\
  0 <= 0 /\
  7 = _neural_net (mkTrainState 4 NegInf NegInf 0 7 tt tt [1%R] [2%R] []) /\
  _neural_net (mkTrainState 0 NegInf NegInf 0 7 tt tt [1%R] [2%R] []) =
    _neural_net (mkTrainState 4 NegInf NegInf 0 7 tt tt [1%R] [2%R] []) /\
  epoch (mkTrainState 0 NegInf NegInf 0 7 tt tt [1%R] [2%R] []) = 0 /\
  train_log_probs (mkTrainState 0 NegInf NegInf 0 7 tt tt [1%R] [2%R] []) =
    train_log_probs (mkTrainState 4 NegInf NegInf 0 7 tt tt [1%R] [2%R] []) /\
  validation_log_probs (mkTrainState 0 NegInf NegInf 0 7 tt tt [1%R] [2%R] []) =
    validation_log_probs (mkTrainState 4 NegInf NegInf 0 7 tt tt [1%R] [2%R] []) /\
  loss_calls (mkTrainState 0 NegInf NegInf 0 7 tt tt [1%R] [2%R] []) =
    loss_calls (mkTrainState 4 NegInf NegInf 0 7 tt tt [1%R] [2%R]
                  ([] : list LossCall)).
Proof.
  apply (@anneal_returns_only_untrained nat unit unit unit
           (fun (_ : nat) (_ : unit) (_ : Z) (g : unit) =>
              (Ok (scalar 0, scalar 0, scalar 0), g))
           (fun (o : unit) (n : nat) (_ : unit) (_ : Tensor) (_ : option R) => (o, n))
           2%Z (Some (1 / 2)%R) (1 / 10)%R 5 0 None false tt
           (mkDataLoader [tt] 1) (mkDataLoader [tt] 1)
           (mkTrainState 4 NegInf NegInf 0 7 tt tt [1%R] [2%R] [])
           (mkTrainState 0 NegInf NegInf 0 7 tt tt [1%R] [2%R] []) 7).
  unfold anneal. destruct (Rlt_dec 0 (1 / 10)) as [_|Hn]; [reflexivity|].
  exfalso. apply Hn. lra.
Defined.

End AnnealFacts.

(* ================================================================== *)
(** * More facts about the stored simulations *)

Module RoundsSequenceFacts.
Import Rounds.

Section SequenceFacts.
Variables T X : Type.
Variable is_valid_x : X -> bool.

Lemma append_all_stored (calls : list (list T * list X * nat)) (self self' : Simulations T X) :
  well_formed self ->
  append_all self calls = Ok self' ->
  well_formed self' /\
  _round self' = _round self /\
  _theta_roundwise self' = _theta_roundwise self ++ map (fun c => fst (fst c)) calls /\
  _x_roundwise self' = _x_roundwise self ++ map (fun c => snd (fst c)) calls /\
  _data_round_index self' = _data_round_index self ++ map snd calls /\
  Forall (fun c => length (fst (fst c)) = length (snd (fst c))) calls.
Proof.
  revert self. induction calls as [|[[theta x] r] calls IH]; intros self Hwf H.
  - cbn in H. injection H as <-. cbn [map]. rewrite !app_nil_r.
    split; [exact Hwf|]. repeat split; auto.
  - cbn [append_all] in H.
    destruct (append_simulations self theta x r) as [s1|e] eqn:E1; [|discriminate].
    cbn [bind] in H.
    destruct (RoundsFacts.append_simulations_well_formed _ _ _ Hwf E1) as (Hwf1 & _ & Hr1).
    destruct (IH s1 Hwf1 H) as (Hwf' & Hr' & Ht & Hx & Hi & Hall).
    unfold append_simulations, validate_theta_and_x in E1.
    destruct (Nat.eqb_spec (length theta) (length x)) as [El|]; [|discriminate].
    cbn [bind] in E1. injection E1 as <-.
    cbn [_theta_roundwise _x_roundwise _data_round_index _round] in *.
    rewrite <- !app_assoc in Ht, Hx, Hi. cbn [app] in Ht, Hx, Hi.
    cbn [map fst snd]. split; [exact Hwf'|]. repeat split; auto; try congruence.
Qed.

Lemma since_round_lengths {A B : Type} (l1 : list (list A)) (l2 : list (list B))
    (idx : list nat) (start : nat) :
  Forall2 (fun a b => length a = length b) l1 l2 ->
  length (since_round l1 idx start) = length (since_round l2 idx start).
Proof.
  unfold since_round. intros H. revert idx.
  induction H as [|a b l1 l2 Hab _ IH]; intros [|r idx]; cbn [combine filter map concat];
    auto.
  cbn [snd]. destruct (start <=? r); cbn [map concat fst]; rewrite ?length_app, ?IH; auto.
Qed.

Lemma in_since_round {A : Type} (l : list (list A)) (idx : list nat) (start : nat) (a : A) :
  In a (since_round l idx start) -> In a (concat l).
Proof.
  unfold since_round. revert idx. induction l as [|b l IH]; intros [|r idx];
    cbn [combine filter map concat]; auto; try contradiction.
  cbn [snd]. destruct (start <=? r); cbn [map concat fst]; rewrite ?in_app_iff.
  - intros [H|H]; [now left|right; eauto].
  - intros H. right. eauto.
Qed.

(** The data set of a training call, when no row is filtered out for its
    x: the rows of the batches whose round tag is at least the starting
    index. *)
Lemma train_data_value (self : Simulations T X) (d exclude_invalid_x : bool) :
  well_formed self -> _data_round_index self <> [] ->
  exclude_invalid_x = false \/
    Forall (fun row => is_valid_x row = true) (concat (_x_roundwise self)) ->
  exists r,
    py_max (_data_round_index self) = Ok r /\
    let start_idx := if d && (0 <? _round self) then 1 else 0 in
    let self' := mkSimulations (_theta_roundwise self) (_x_roundwise self)
                               (_prior_masks self) (_data_round_index self) r in
    let rows := (since_round (_theta_roundwise self) (_data_round_index self) start_idx,
                 since_round (_x_roundwise self) (_data_round_index self) start_idx) in
    train_data is_valid_x self d exclude_invalid_x = Ok (self', rows) /\
    anneal_data is_valid_x self d exclude_invalid_x = Ok (self', rows).
Proof.
  intros (H1 & H2 & H3 & H4 & H5) Hne Hvalid.
  unfold train_data, anneal_data.
  destruct (_data_round_index self) as [|r0 rs] eqn:Ei; [congruence|].
  cbn [py_max bind]. eexists. split; [reflexivity|]. cbv zeta.
  unfold get_simulations.
  cbn [_theta_roundwise _x_roundwise _prior_masks _data_round_index].
  set (start_idx := if d && (0 <? _round self) then 1 else 0).
  match goal with |- context [filter ?k ?l] =>
    destruct (@RoundsFacts.unzip3 _ _ _ k
                (since_round (_theta_roundwise self) (r0 :: rs) start_idx)
                (since_round (_x_roundwise self) (r0 :: rs) start_idx)
                (since_round (_prior_masks self) (r0 :: rs) start_idx))
      as (E1 & E2) end.
  - now apply since_round_lengths.
  - now apply since_round_lengths.
  - intros [[t xr] mk] Hin. cbn [fst snd].
    destruct Hvalid as [->|Hv]; [reflexivity|].
    rewrite Forall_forall in Hv. rewrite (Hv xr); [apply orb_true_r|].
    apply in_combine_l, in_combine_r in Hin. eapply in_since_round; eauto.
  - rewrite E1, E2. split; reflexivity.
Qed.

Lemma fold_left_max_spec (l : list nat) (r : nat) :
  (forall v, In v (r :: l) -> v <= fold_left Nat.max l r) /\
  In (fold_left Nat.max l r) (r :: l).
Proof.
  revert r. induction l as [|a l IH]; intros r; cbn [fold_left].
  - split; [intros v [<-|[]]; lia|now left].
  - destruct (IH (Nat.max r a)) as (Hle & Hin).
    pose proof (Hle _ (or_introl eq_refl)) as Hm. split.
    + intros v [<-|[<-|Hv]]; try lia. apply Hle. now right.
    + destruct Hin as [E|Hin].
      * rewrite <- E. destruct (Nat.max_spec r a) as [(_ & ->)|(_ & ->)];
          [right; now left|now left].
      * right. now right.
Qed.

(** X12.  On a new object, after any sequence of calls of
    [append_simulations] that all return, the first call of [train] or
    [anneal] takes every appended row, in the order appended, whether
    [discard_prior_samples] is set or not (provided no row is filtered out
    for its x), and sets the round counter to the largest round appended. *)
Theorem first_training_call_keeps_all_rounds
    (calls : list (list T * list X * nat)) (self : Simulations T X)
    (discard_prior_samples exclude_invalid_x : bool) :
  append_all (new_estimator T X) calls = Ok self ->
  calls <> [] ->
  exclude_invalid_x = false \/
    Forall (fun row => is_valid_x row = true) (concat (map (fun c => snd (fst c)) calls)) ->
  exists self',
    train_data is_valid_x self discard_prior_samples exclude_invalid_x =
      Ok (self', (concat (map (fun c => fst (fst c)) calls),
                  concat (map (fun c => snd (fst c)) calls))) /\
    anneal_data is_valid_x self discard_prior_samples exclude_invalid_x =
      Ok (self', (concat (map (fun c => fst (fst c)) calls),
                  concat (map (fun c => snd (fst c)) calls))) /\
    (forall c, In c calls -> snd c <= _round self') /\
    In (_round self') (map snd calls).
Proof.
  intros Happ Hne Hvalid.
  destruct (append_all_stored calls (RoundsFacts.new_estimator_well_formed T X) Happ)
    as (Hwf & Hr & Ht & Hx & Hi & _).
  cbn [new_estimator _theta_roundwise _x_roundwise _data_round_index _round app] in *.
  assert (Hidx : _data_round_index self <> []).
  { rewrite Hi. destruct calls; [congruence|discriminate]. }
  destruct (@train_data_value self discard_prior_samples exclude_invalid_x Hwf Hidx)
    as (r & Hmax & Htrain & Hanneal).
  { now rewrite Hx. }
  rewrite Hr, andb_false_r in Htrain, Hanneal.
  destruct Hwf as (H1 & H2 & _).
  rewrite !RoundsFacts.since_round_all in Htrain, Hanneal by assumption.
  rewrite Ht, Hx in Htrain, Hanneal.
  eexists. split; [exact Htrain|]. split; [exact Hanneal|].
  cbn [_round]. rewrite Hi in Hmax. destruct calls as [|c0 calls]; [congruence|].
  cbn [map py_max] in Hmax. injection Hmax as <-.
  destruct (fold_left_max_spec (map snd calls) (snd c0)) as (Hle & Hin).
  split.
  - intros c Hc. apply Hle. change (In (snd c) (map snd (c0 :: calls))).
    now apply in_map.
  - exact Hin.
Qed.


(** X13.  After a training call has returned, the store is as it was and
    the round counter is the largest stored round tag.  A following call
    with [discard_prior_samples] (and no filtering) takes the rows of the
    batches tagged with a round after 0 when that counter is positive, and
    all stored rows when every batch is of round 0. *)
Theorem later_training_call_discards_round_zero (self self1 : Simulations T X)
    (discard_prior_samples exclude_invalid_x : bool) (rows : list T * list X) :
  well_formed self ->
  train_data is_valid_x self discard_prior_samples exclude_invalid_x = Ok (self1, rows) ->
  (_theta_roundwise self1 = _theta_roundwise self /\
   _x_roundwise self1 = _x_roundwise self /\
   _data_round_index self1 = _data_round_index self) /\
  (forall r, In r (_data_round_index self) -> r <= _round self1) /\
  In (_round self1) (_data_round_index self) /\
  train_data is_valid_x self1 true false =
    Ok (self1, if 0 <? _round self1 then rows_after_prior self else stored_rows self) /\
  anneal_data is_valid_x self1 true false =
    Ok (self1, if 0 <? _round self1 then rows_after_prior self else stored_rows self).
Proof.
  intros Hwf H.
  assert (Hne : _data_round_index self <> []).
  { intros E. unfold train_data in H. rewrite E in H. discriminate. }
  assert (Hs1 : exists r, py_max (_data_round_index self) = Ok r /\
                  self1 = mkSimulations (_theta_roundwise self) (_x_roundwise self)
                            (_prior_masks self) (_data_round_index self) r).
  { unfold train_data in H.
    destruct (py_max (_data_round_index self)) as [r|]; [|discriminate].
    cbn [bind] in H. destruct (get_simulations _ _ _ _) as [[th xs] mk].
    injection H as <- _. now exists r. }
  destruct Hs1 as (r & Hmax & ->).
  cbn [_theta_roundwise _x_roundwise _data_round_index _round].
  split; [repeat split|].
  destruct (_data_round_index self) as [|r0 rs] eqn:Ei; [congruence|].
  cbn [py_max] in Hmax. injection Hmax as <-.
  destruct (fold_left_max_spec rs r0) as (Hle & Hin).
  split; [exact Hle|]. split; [exact Hin|].
  set (r := fold_left Nat.max rs r0) in *.
  assert (Hwf1 : well_formed (mkSimulations (_theta_roundwise self) (_x_roundwise self)
                                (_prior_masks self) (r0 :: rs) r)).
  { unfold well_formed in *.
    cbn [_theta_roundwise _x_roundwise _prior_masks _data_round_index].
    now rewrite Ei in Hwf. }
  destruct (@train_data_value _ true false Hwf1) as (r' & Hmax' & Htrain & Hanneal).
  { cbn [_data_round_index]. discriminate. }
  { now left. }
  cbn [_data_round_index py_max] in Hmax'. injection Hmax' as <-. fold r in Htrain, Hanneal.
  cbn [_theta_roundwise _x_roundwise _prior_masks _data_round_index _round andb]
    in Htrain, Hanneal.
  rewrite Htrain, Hanneal.
  unfold rows_after_prior, stored_rows. rewrite Ei.
  destruct Hwf as (H1 & H2 & _). rewrite Ei in H1, H2.
  destruct (0 <? r); [split; reflexivity|].
  rewrite !RoundsFacts.since_round_all by assumption. split; reflexivity.
Qed.

End SequenceFacts.

Lemma first_training_call_keeps_all_rounds_witness :
  exists self',
    train_data (fun _ : nat => true)
               (mkSimulations [[1; 2]; [3]] [[10; 20]; [30]]
                              [[true; true]; [false]] [0; 1] 0)
               true true =
      Ok (self', ([1; 2; 3], [10; 20; 30])) /\
    anneal_data (fun _ : nat => true)
                (mkSimulations [[1; 2]; [3]] [[10; 20]; [30]]
                               [[true; true]; [false]] [0; 1] 0)
                true true =
      Ok (self', ([1; 2; 3], [10; 20; 30])) /\
    (forall c, In c [([1; 2], [10; 20], 0); ([3], [30], 1)] -> snd c <= _round self') /\
    In (_round self') [0; 1].
Proof.
  apply (@first_training_call_keeps_all_rounds nat nat (fun _ : nat => true)
           [([1; 2], [10; 20], 0); ([3], [30], 1)]
           (mkSimulations [[1; 2]; [3]] [[10; 20]; [30]]
                          [[true; true]; [false]] [0; 1] 0) true true).
  - reflexivity.
  - discriminate.
  - right. simpl. repeat constructor.
Defined.

Lemma later_training_call_discards_round_zero_witness :
  train_data (fun _ : nat => true)
             (mkSimulations [[1; 2]; [3]] [[10; 20]; [30]]
                            [[true; true]; [false]] [0; 1] 1)
             true false =
    Ok (mkSimulations [[1; 2]; [3]] [[10; 20]; [30]] [[true; true]; [false]] [0; 1] 1,
        ([3], [30])).
Proof.
  apply (@later_training_call_discards_round_zero nat nat (fun _ : nat => true)
           (mkSimulations [[1; 2]; [3]] [[10; 20]; [30]]
                          [[true; true]; [false]] [0; 1] 0)
           (mkSimulations [[1; 2]; [3]] [[10; 20]; [30]]
                          [[true; true]; [false]] [0; 1] 1)
           true true ([1; 2; 3], [10; 20; 30])).
  - unfold well_formed. simpl. repeat split; repeat constructor.
  - reflexivity.
Defined.

End RoundsSequenceFacts.

(* ================================================================== *)
(** * More facts about the posterior builder *)

Module PosteriorFrameFacts.
Import Posterior.

Section FrameFacts.
Variables Net Prior Potential Transform Shape Device Kwargs : Type.
Variable parameter_devices : Net -> list Device.
Variable ratio_estimator_based_potential :
  option Net -> Prior -> result (Potential * Transform).

(** X14.  A call of [build_posterior] either raises and leaves the object
    as it was, or returns a posterior of the kind [sample_with] names,
    stores it as the current posterior and appends it, and nothing else, to
    the model bank; the prior, the network, the device and the shape of x
    stay as they were. *)
Theorem build_posterior_all_or_nothing
    (self : Estimator Net Prior Potential Transform Shape Device Kwargs)
    (density_estimator : option Net) (prior : option Prior)
    (sample_with mcmc_method : string)
    (mcmc_parameters rejection_sampling_parameters : Kwargs) :
  (exists e,
     build_posterior parameter_devices ratio_estimator_based_potential self
       density_estimator prior sample_with mcmc_method mcmc_parameters
       rejection_sampling_parameters = (Raise e, self)) \/
  (exists posterior self',
     build_posterior parameter_devices ratio_estimator_based_potential self
       density_estimator prior sample_with mcmc_method mcmc_parameters
       rejection_sampling_parameters = (Ok posterior, self') /\
     sample_with = sampler_of posterior /\
     _posterior self' = Some posterior /\
     _model_bank self' = _model_bank self ++ [posterior] /\
     _prior self' = _prior self /\ _neural_net self' = _neural_net self /\
     _device self' = _device self /\ _x_shape self' = _x_shape self).
Proof.
  unfold build_posterior.
  destruct (resolve_prior self prior) as [p|e]; [|left; now exists e].
  destruct (resolve_device parameter_devices self density_estimator) as [d|e];
    [|left; now exists e].
  destruct (ratio_estimator_based_potential (_neural_net self) p) as [[pf tt]|e];
    [|left; now exists e].
  destruct (String.eqb_spec sample_with "mcmc") as [->|_].
  { right. eexists _, _. split; [reflexivity|]. repeat split. }
  destruct (String.eqb_spec sample_with "rejection") as [->|_].
  { right. eexists _, _. split; [reflexivity|]. repeat split. }
  left. exists NotImplementedError. now destruct (String.eqb sample_with "vi").
Qed.

(** X15.  The posterior [build_posterior] returns is built from: the
    passed prior when there is one, else the stored prior; the stored
    device when no estimator is passed; the stored shape of x; the
    potential function of the stored network and that prior; and the
    sampler arguments of the kind selected. *)
Theorem build_posterior_arguments
    (self self' : Estimator Net Prior Potential Transform Shape Device Kwargs)
    (density_estimator : option Net) (prior : option Prior)
    (sample_with mcmc_method : string)
    (mcmc_parameters rejection_sampling_parameters : Kwargs)
    (posterior : PosteriorObj Prior Potential Transform Shape Device Kwargs) :
  build_posterior parameter_devices ratio_estimator_based_potential self
    density_estimator prior sample_with mcmc_method mcmc_parameters
    rejection_sampling_parameters = (Ok posterior, self') ->
  (forall p, prior = Some p -> proposal_of posterior = p) /\
  (prior = None -> _prior self = Some (proposal_of posterior)) /\
  (density_estimator = None -> device_of posterior = _device self) /\
  x_shape_of posterior = _x_shape self /\
  (exists theta_transform,
     ratio_estimator_based_potential (_neural_net self) (proposal_of posterior) =
       Ok (potential_of posterior, theta_transform) /\
     (posterior = MCMCPosterior (potential_of posterior) theta_transform
                    (proposal_of posterior) mcmc_method (device_of posterior)
                    (_x_shape self) mcmc_parameters \/
      posterior = RejectionPosterior (potential_of posterior) (proposal_of posterior)
                    (device_of posterior) (_x_shape self)
                    rejection_sampling_parameters)).
Proof.
  unfold build_posterior. intros H.
  destruct (resolve_prior self prior) as [p|e] eqn:Ep; [|discriminate].
  destruct (resolve_device parameter_devices self density_estimator) as [d|e] eqn:Ed;
    [|discriminate].
  destruct (ratio_estimator_based_potential (_neural_net self) p) as [[pf tt]|e] eqn:Er;
    [|discriminate].
  assert (Hp : (forall q, prior = Some q -> p = q) /\ (prior = None -> _prior self = Some p)).
  { unfold resolve_prior in Ep. destruct prior as [q|].
    - injection Ep as ->. split; [now intros ? [= ->]|discriminate].
    - destruct (_prior self) as [q|]; [|discriminate]. injection Ep as ->.
      split; [discriminate|reflexivity]. }
  assert (Hd : density_estimator = None -> d = _device self).
  { intros ->. cbn in Ed. now injection Ed as <-. }
  destruct Hp as (Hp1 & Hp2).
  destruct (String.eqb sample_with "mcmc").
  { injection H as <- _. cbn [proposal_of device_of x_shape_of potential_of].
    repeat split; auto. exists tt. split; [exact Er|now left]. }
  destruct (String.eqb sample_with "rejection").
  { injection H as <- _. cbn [proposal_of device_of x_shape_of potential_of].
    repeat split; auto. exists tt. split; [exact Er|now right]. }
  destruct (String.eqb sample_with "vi"); discriminate.
Qed.

End FrameFacts.

(** A stored prior 1 and a passed prior 2: the posterior proposes from 2. *)
Lemma build_posterior_arguments_witness :
  proposal_of (RejectionPosterior (Transform := unit) (Shape := unit)
                 (Some 7, 2) 2 "cpu"%string None tt) = 2.
Proof.
  refine (proj1 (@build_posterior_arguments
                   nat nat (option nat * nat) unit unit string unit
                   (fun _ : nat => ["cuda"%string])
                   (fun (net : option nat) (p : nat) => Ok ((net, p), tt))
                   (mkEstimator (Some 1) (Some 7) "cpu"%string None None [])
                   _ None (Some 2) "rejection"%string "slice_np"%string tt tt
                   (RejectionPosterior (Some 7, 2) 2 "cpu"%string None tt)
                   eq_refl) 2 eq_refl).
Defined.

End PosteriorFrameFacts.

(* ================================================================== *)
(** * Facts about the epoch loop of [train] *)

Module TrainFacts.
Import Torch Training.

Section TrainLoopFacts.
Variables Net Opt Batch Rng : Type.
Variable _loss_terms : Net -> Batch -> Z -> Rng -> result (Tensor * Tensor * Tensor) * Rng.
Variable backward_and_step : Opt -> Net -> Batch -> Tensor -> option R -> Opt * Net.
Variable net_forward : Net -> Batch -> Tensor.

Let State := TrainState Net Opt Rng.

Lemma same_logs_refl (st : State) : same_logs st st.
Proof. repeat split. Qed.

Lemma same_logs_trans (s1 s2 s3 : State) :
  same_logs s1 s2 -> same_logs s2 s3 -> same_logs s1 s3.
Proof.
  unfold same_logs. intros (A1 & A2 & A3 & A4 & A5 & A6) (B1 & B2 & B3 & B4 & B5 & B6).
  repeat split; congruence.
Qed.

Lemma foldM_same_logs {A B : Type} (f : A -> B -> M Net Opt Rng A) :
  (forall a b st r st', f a b st = (r, st') -> same_logs st st') ->
  forall l a st r st', foldM f a l st = (r, st') -> same_logs st st'.
Proof.
  intros Hf. induction l as [|b l IH]; intros a st r st' H; cbn [foldM] in H.
  - injection H as _ <-. apply same_logs_refl.
  - unfold bindM in H. destruct (f a b st) as [[a'|e] st1] eqn:E.
    + eapply same_logs_trans; [eapply Hf; exact E|eapply IH; exact H].
    + injection H as _ <-. eapply Hf; exact E.
Qed.


Lemma train_batch_same_logs (num_atoms : Z) (lm : R) (clip : option R) (acc : R)
    (batch : Batch) (st : State) (r : result R) (st' : State) :
  train_batch _loss_terms backward_and_step num_atoms lm clip acc batch st = (r, st') ->
  same_logs st st'.
Proof.
  unfold train_batch. unfold bindM at 1, call_loss.
  destruct (_loss_terms _ _ _ _) as [terms g].
  destruct terms as [[[a b] c]|e]; cbn [Loss._loss bind].
  - unfold bindM at 1, lift. cbn [unpack3].
    unfold bindM at 1. cbn [torch_mean].
    unfold bindM at 1. cbn [method_sum bind item scalar data].
    unfold bindM at 1, modify. cbn [optimizer _neural_net set_rng].
    destruct (backward_and_step _ _ _ _ _) as [o n].
    unfold ret. intros H. injection H as _ <-. repeat split.
  - intros H. injection H as _ <-. repeat split.
Qed.

Lemma validation_batch_frame (num_atoms : Z) (lm : R) (sums : R * R * R * R)
    (batch : Batch) (st : State) (r : result (R * R * R * R)) (st' : State) :
  train_validation_batch _loss_terms net_forward num_atoms lm sums batch st = (r, st') ->
  same_logs st st' /\ _neural_net st' = _neural_net st /\ optimizer st' = optimizer st.
Proof.
  unfold train_validation_batch. destruct sums as [[[s1 s2] s3] s4].
  unfold bindM at 1, call_loss.
  destruct (_loss_terms _ _ _ _) as [terms g].
  destruct terms as [[[a b] c]|e]; cbn [Loss._loss bind].
  - unfold bindM at 1, lift. cbn [unpack3].
    unfold bindM at 1, get.
    unfold sum_item. cbn [method_sum bind item scalar data].
    unfold bindM, ret. intros H. injection H as _ <-. repeat split.
  - intros H. injection H as _ <-. repeat split.
Qed.









Lemma converged_logs (e stop : nat) (st : State) :
  exists st',
    @_converged Net Opt Rng e stop st =
      (Ok (stop <=? _epochs_since_last_improvement st'), st') /\
    epoch st' = epoch st /\ _neural_net st' = _neural_net st /\
    train_log_probs st' = train_log_probs st /\
    validation_log_probs st' = validation_log_probs st.
Proof.
  unfold _converged.
  destruct ((e =? 0) || pyfloat_gtb (_val_log_prob st) (_best_val_log_prob st));
    eexists; split; try reflexivity; repeat split.
Qed.

(** The loop of [train] over a body that moves the epoch counter by at most
    one, and by one when it returns: the bound [max_num_epochs - epoch] on
    the iterations is enough, and the counter ends between its start and
    [max_num_epochs]. *)
Lemma train_loop_bounded (max_num_epochs stop : nat) (body : M Net Opt Rng (R * R * R)) :
  (forall st r st', body st = (r, st') ->
     epoch st <= epoch st' <= epoch st + 1 /\ (forall v, r = Ok v -> epoch st' = epoch st + 1)) ->
  forall fuel (st : State) (sm : Summary),
    max_num_epochs - epoch st <= fuel ->
    exists r st' sm',
      train_loop fuel max_num_epochs stop body st sm = Some (r, st', sm') /\
      epoch st <= epoch st' <= Nat.max (epoch st) max_num_epochs.
Proof.
  intros Hbody. induction fuel as [|fuel IH]; intros st sm Hfuel.
  - cbn [train_loop]. destruct (Nat.ltb_spec (epoch st) max_num_epochs) as [Hlt|Hge].
    + lia.
    + eexists _, _, _. split; [reflexivity|]. lia.
  - cbn [train_loop]. destruct (Nat.ltb_spec (epoch st) max_num_epochs) as [Hlt|Hge].
    + destruct (converged_logs (epoch st) stop st) as (st1 & -> & He1 & _).
      destruct (stop <=? _epochs_since_last_improvement st1).
      * eexists _, _, _. split; [reflexivity|]. lia.
      * destruct (body st1) as [[[[a b] c]|e] st2] eqn:Eb.
        -- destruct (Hbody _ _ _ Eb) as (_ & Hok). specialize (Hok _ eq_refl).
           destruct (IH st2 (log_diagnostics a b c sm)) as (r & st' & sm' & -> & Hr);
             [lia|].
           eexists _, _, _. split; [reflexivity|]. lia.
        -- destruct (Hbody _ _ _ Eb) as (Hany & _).
           eexists _, _, _. split; [reflexivity|]. lia.
    + eexists _, _, _. split; [reflexivity|]. lia.
Qed.

Lemma train_epoch_moves_epoch (num_atoms : Z) (lagrange_multiplier : R)
    (clip_max_norm : option R) (train_loader val_loader : DataLoader Batch)
    (st : State) (r : result (R * R * R)) (st' : State) :
  train_epoch _loss_terms backward_and_step net_forward num_atoms lagrange_multiplier
              clip_max_norm train_loader val_loader st = (r, st') ->
  epoch st <= epoch st' <= epoch st + 1 /\ (forall v, r = Ok v -> epoch st' = epoch st + 1).
Proof.
  unfold train_epoch. unfold bindM at 1.
  destruct (foldM _ _ _ st) as [[s|e] st1] eqn:E1.
  2:{ intros H. injection H as <- <-.
      pose proof (foldM_same_logs _ (@train_batch_same_logs num_atoms lagrange_multiplier
                                       clip_max_norm) _ _ _ E1) as (A1 & _).
      split; [lia|discriminate]. }
  pose proof (foldM_same_logs _ (@train_batch_same_logs num_atoms lagrange_multiplier
                                   clip_max_norm) _ _ _ E1) as (A1 & _).
  unfold bindM at 1, modify.
  unfold bindM at 1, lift.
  destruct (py_div s _) as [t|e].
  2:{ intros H. injection H as <- <-. cbn [epoch set_epoch]. split; [lia|discriminate]. }
  unfold bindM at 1.
  unfold bindM at 1.
  destruct (foldM _ _ _ (log_train _ _)) as [[sums|e] st2] eqn:E2.
  2:{ intros H. injection H as <- <-.
      pose proof (foldM_same_logs _
                    (fun a b st r st' H =>
                       proj1 (@validation_batch_frame num_atoms lagrange_multiplier
                                a b st r st' H)) _ _ _ E2) as (B1 & _).
      cbn [epoch log_train set_epoch] in B1. split; [lia|discriminate]. }
  pose proof (foldM_same_logs _
                (fun a b st r st' H =>
                   proj1 (@validation_batch_frame num_atoms lagrange_multiplier
                            a b st r st' H)) _ _ _ E2) as (B1 & _).
  cbn [epoch log_train set_epoch] in B1.
  destruct sums as [[[s1 s2] s3] s4].
  unfold py_div. destruct (len val_loader * batch_size val_loader =? 0).
  - unfold bindM, lift. intros H. injection H as <- <-. split; [lia|discriminate].
  - unfold bindM, lift, modify, ret. intros H. injection H as <- <-.
    cbn [epoch log_validation set_val_log_prob]. split; [lia|intros; lia].
Qed.


(** X18.  Every call of [train] ends, returning or raising, within
    [max_num_epochs] minus the starting epoch iterations of its loop, and
    the epoch counter ends between its starting value (0 unless the run
    resumes) and the larger of that value and [max_num_epochs]. *)
Theorem train_stops_within_max_num_epochs (num_atoms : Z) (lagrange_multiplier : R)
    (stop_after_epochs : nat) (max_num_epochs : option nat)
    (clip_max_norm : option R) (resume_training : bool) (fresh_optimizer : Opt)
    (train_loader val_loader : DataLoader Batch) (self : State) (sm : Summary) :
  exists r st' sm',
    train _loss_terms backward_and_step net_forward num_atoms lagrange_multiplier
          stop_after_epochs max_num_epochs clip_max_norm resume_training
          fresh_optimizer train_loader val_loader self sm = Some (r, st', sm') /\
    (if resume_training then epoch self else 0) <= epoch st' /\
    epoch st' <= Nat.max (if resume_training then epoch self else 0)
                         (default_max_num_epochs max_num_epochs).
Proof.
  unfold train. generalize (default_max_num_epochs max_num_epochs). intros m.
  match goal with |- context [train_loop _ _ _ _ ?s _] => set (self0 := s) end.
  assert (He0 : epoch self0 = if resume_training then epoch self else 0).
  { unfold self0. now destruct resume_training. }
  rewrite <- He0.
  destruct (@train_loop_bounded m stop_after_epochs
              (train_epoch _loss_terms backward_and_step net_forward num_atoms
                           lagrange_multiplier clip_max_norm train_loader val_loader)
              (@train_epoch_moves_epoch num_atoms lagrange_multiplier clip_max_norm
                 train_loader val_loader)
              (m - epoch self0) self0 sm (le_n _))
    as (r & st' & sm' & -> & Hr).
  destruct r as [[]|e]; eexists _, _, _; (split; [reflexivity|exact Hr]).
Qed.



End TrainLoopFacts.




End TrainFacts.
